(** * Templo Atelier: the workflow resolution engine

    A shallow embedding of the workflow engine of
    [src/dashboard_api/main.py] ([resolve_workflow_step],
    [generate_next_steps], [seed_workflow]) and of the deliverable
    recommender of [src/dashboard_api/agent_intel.py], together with the
    guild agents of [src/guilds] that sit between the two.

    Python values that come out of [json.loads] or out of an LLM reply are
    dynamically typed; they are modelled by the type [json] and every
    operation that can raise in Python returns a [result].  A Python
    [str] is modelled by its UTF-8 encoding.  The SQLModel session is
    modelled as a pair of stores: the committed database and the working
    view of the open transaction. *)

From Stdlib Require Import String Ascii ZArith QArith Qabs List Bool Lia.
From Stdlib Require Import DecimalString Sorted.
Import ListNotations.

Set Warnings "-register-all".

Local Open Scope string_scope.
Local Open Scope Z_scope.

(* ===================================================================== *)
(** ** Python values and exceptions *)
(* ===================================================================== *)

Module Py.

(** The exceptions the modelled code can raise.  [HTTPException] carries
    the status code and the detail text. *)
Inductive pyexc :=
| KeyError (k : string)
| IndexError
| TypeError
| ValueError
| OverflowError
| AttributeError
| HTTPException (code : Z) (detail : string).

Definition result (A : Type) : Type := (pyexc + A)%type.

Definition ok {A} (a : A) : result A := inr a.
Definition raise {A} (e : pyexc) : result A := inl e.

Definition rbind {A B} (r : result A) (k : A -> result B) : result B :=
  match r with
  | inl e => inl e
  | inr a => k a
  end.

(** [try: r except Exception: h] *)
Definition try_except {A} (r : result A) (h : pyexc -> A) : A :=
  match r with
  | inl e => h e
  | inr a => a
  end.

(** Values built by [json.loads] (and, equally, the literals the engine
    passes to [json.dumps]).  A JSON object is a Python [dict]: an
    association list in insertion order.  Numbers are the integers; the
    engine itself never writes a fractional number into a JSON value. *)
Inductive json :=
| JNull
| JBool (b : bool)
| JInt (z : Z)
| JStr (s : string)
| JArr (l : list json)
| JObj (kv : list (string * json)).

Definition pydict : Type := list (string * json).

(** [d.get(k)] on a dict, as an option. *)
Fixpoint dict_lookup (k : string) (d : pydict) : option json :=
  match d with
  | [] => None
  | (k', v) :: d' => if String.eqb k k' then Some v else dict_lookup k d'
  end.

(** [d.get(k, default)] *)
Definition dict_get (d : pydict) (k : string) (default : json) : json :=
  match dict_lookup k d with
  | Some v => v
  | None => default
  end.

(** [d[k] = v]: an existing key keeps its place, a new key goes last. *)
Fixpoint dict_set (k : string) (v : json) (d : pydict) : pydict :=
  match d with
  | [] => [(k, v)]
  | (k', v') :: d' =>
      if String.eqb k k' then (k', v) :: d' else (k', v') :: dict_set k v d'
  end.

(** [d[k]] on a dict. *)
Definition dict_getitem (d : pydict) (k : string) : result json :=
  match dict_lookup k d with
  | Some v => ok v
  | None => raise (KeyError k)
  end.

(** [o[k]] with a string key on an arbitrary value: only a dict accepts
    it; strings and lists want integer indices, the rest is not
    subscriptable. *)
Definition py_getitem (o : json) (k : string) : result json :=
  match o with
  | JObj d => dict_getitem d k
  | _ => raise TypeError
  end.

(** [o.get(k, default)] on an arbitrary value: only a dict has [get]. *)
Definition py_get (o : json) (k : string) (default : json) : result json :=
  match o with
  | JObj d => ok (dict_get d k default)
  | _ => raise AttributeError
  end.

(** A Python [str] is modelled by its UTF-8 encoding, one [ascii] for
    each byte.  A character of the [str] is a leading byte with the
    continuation bytes (those of the form 10xxxxxx) that follow it. *)
Definition is_continuation (c : ascii) : bool :=
  let n := nat_of_ascii c in (128 <=? n)%nat && (n <? 192)%nat.

Definition continues (s : string) : bool :=
  match s with
  | String d _ => is_continuation d
  | EmptyString => false
  end.

(** The characters of a [str], in order. *)
Fixpoint code_points (s : string) : list string :=
  match s with
  | EmptyString => []
  | String c s' =>
      match code_points s' with
      | ch :: rest =>
          if continues s' then String c ch :: rest
          else String c EmptyString :: ch :: rest
      | [] => [String c EmptyString]
      end
  end.

Definition chars (s : string) : list json := map JStr (code_points s).

(** [iter(o)]: the elements a [for] loop or a generator goes through. *)
Definition py_iter (o : json) : result (list json) :=
  match o with
  | JArr l => ok l
  | JObj d => ok (map (fun kv => JStr (fst kv)) d)
  | JStr s => ok (chars s)
  | _ => raise TypeError
  end.

(** [o[0]] *)
Definition py_index0 (o : json) : result json :=
  match o with
  | JArr [] => raise IndexError
  | JArr (x :: _) => ok x
  | JStr EmptyString => raise IndexError
  | JStr (String c _) => ok (JStr (String c EmptyString))
  | JObj _ => raise (KeyError "0")
  | _ => raise TypeError
  end.

(** Truth value of a value ([if not x], [x or y]). *)
Definition py_truthy (o : json) : bool :=
  match o with
  | JNull => false
  | JBool b => b
  | JInt z => negb (z =? 0)
  | JStr s => negb (String.eqb s "")
  | JArr l => match l with [] => false | _ => true end
  | JObj d => match d with [] => false | _ => true end
  end.

(** Truth value of an [Optional[str]]. *)
Definition str_truthy (o : option string) : bool :=
  match o with
  | Some s => negb (String.eqb s "")
  | None => false
  end.

(** [a or b] for an [Optional[str]] [a] and a [str] [b]. *)
Definition str_or (a : option string) (b : string) : string :=
  match a with
  | Some s => if String.eqb s "" then b else s
  | None => b
  end.

(** [o == s] for a string [s]. *)
Definition py_eq_str (o : json) (s : string) : bool :=
  match o with
  | JStr t => String.eqb t s
  | _ => false
  end.

Definition is_infix (needle hay : string) : bool :=
  match index 0 needle hay with
  | Some _ => true
  | None => false
  end.

(** [s in o] for a string [s]: membership in a list, key of a dict,
    substring of a string. *)
Definition py_contains (o : json) (s : string) : result bool :=
  match o with
  | JArr l => ok (existsb (fun x => py_eq_str x s) l)
  | JObj d => ok (existsb (fun kv => String.eqb (fst kv) s) d)
  | JStr t => ok (is_infix s t)
  | _ => raise TypeError
  end.

(** [s in l] for a list of strings. *)
Definition str_in (s : string) (l : list string) : bool :=
  existsb (String.eqb s) l.

(** [str(n)] for an integer. *)
Definition str_of_Z (z : Z) : string :=
  NilZero.string_of_int (Z.to_int z).

(** [sep.join(l)] for a list of strings. *)
Fixpoint join (sep : string) (l : list string) : string :=
  match l with
  | [] => ""
  | [s] => s
  | s :: l' => s ++ sep ++ join sep l'
  end.

(** The elements of [sep.join(o)] must all be strings. *)
Fixpoint all_strs (l : list json) : result (list string) :=
  match l with
  | [] => ok []
  | JStr s :: l' => rbind (all_strs l') (fun r => ok (s :: r))
  | _ :: _ => raise TypeError
  end.

Definition py_join (sep : string) (o : json) : result string :=
  rbind (py_iter o) (fun l => rbind (all_strs l) (fun ss => ok (join sep ss))).

(** A Python [float], as far as the engine looks at it: finite values are
    identified with the rational they denote. *)
Inductive pyfloat :=
| Finite (q : Q)
| Infinity (negative : bool)
| NaN.

(** Truth value of a float: only zero is false. *)
Definition float_truthy (f : pyfloat) : bool :=
  match f with
  | Finite q => negb (Qeq_bool q 0)
  | _ => true
  end.

(** [int(f)]: truncation towards zero; not defined on the non-finite
    values. *)
Definition float_int (f : pyfloat) : result Z :=
  match f with
  | Finite q => ok (Z.quot (Qnum q) (Zpos (Qden q)))
  | Infinity _ => raise OverflowError
  | NaN => raise ValueError
  end.

(** [f > 0] *)
Definition float_pos (f : pyfloat) : bool :=
  match f with
  | Finite q => negb (Qle_bool q 0)
  | Infinity negative => negb negative
  | NaN => false
  end.

End Py.
Import Py.

Declare Scope py_scope.
Delimit Scope py_scope with py.
Notation "x <- c1 ;; c2" := (rbind c1 (fun x => c2))
  (at level 61, c1 at next level, right associativity) : py_scope.

(* ===================================================================== *)
(** ** The outside world *)
(* ===================================================================== *)

(** What the LLM client does with the one structured prompt of a call:
    there is no client ([client is None]); the call or the parsing of its
    reply raises; or [json.loads] returns a value, of whatever shape. *)
Inductive llm_reply :=
| NoClient
| LlmFails
| LlmReturns (j : json).

(** Everything the engine takes from outside during one request: the
    clock, the LLM, the content generator (a black box that never raises)
    and the library functions whose output is only text. *)
Record World := {
  utcnow : Z;
  llm : llm_reply;
  generate_research_doc_content : string -> string -> string -> string -> string;
  int_of_str : string -> option Z;          (* [int(s)] on a [str] *)
  py_repr : json -> string;                 (* [str(o)] on a list or dict *)
  exc_str : pyexc -> string;                (* [str(e)] *)
  json_loads : string -> option json;       (* [json.loads] on user text *)
  fmt_thousands : Z -> string;              (* [f"{n:,.0f}"], [f"{n:,}"] *)
  fmt_float0 : pyfloat -> string;           (* [f"{x:,.0f}"] on a float *)
  fmt_pct : pyfloat -> Z -> string;         (* the projected margin *)
}.

Section Conversions.
Context (W : World).

(** [int(o)] *)
Definition py_int (o : json) : result Z :=
  match o with
  | JInt z => ok z
  | JBool b => ok (if b then 1 else 0)
  | JStr s =>
      match int_of_str W s with
      | Some z => ok z
      | None => raise ValueError
      end
  | _ => raise TypeError
  end.

(** [str(o)], also what an f-string does with [{o}]. *)
Definition py_str (o : json) : string :=
  match o with
  | JStr s => s
  | JInt z => str_of_Z z
  | JBool true => "True"
  | JBool false => "False"
  | JNull => "None"
  | _ => py_repr W o
  end.

End Conversions.

(* ===================================================================== *)
(** ** The store ([src/shared/db.py]) *)
(* ===================================================================== *)

Module Db.

(** The columns of [Project] the workflow engine reads or writes. *)
Record Project := {
  p_id : Z;
  p_name : string;
  p_status : string;
  p_review_status : string;
  p_client_brief : string;
  p_budget_cap : pyfloat;
  p_executive_summary : option string;
  p_strategic_tensions : option json;
  p_design_principles : option json;
  p_stage : string;
}.

(** [options_json] holds JSON text written by [json.dumps] and read back
    by [json.loads]; the model keeps the value the text denotes.  The same
    holds for the two serialized lists of [Project] above. *)
Record WorkflowStep := {
  ws_id : option Z;
  ws_project_id : Z;
  ws_step_type : string;
  ws_agent : string;
  ws_title : string;
  ws_body : string;
  ws_options_json : json;
  ws_chosen_option : option string;
  ws_status : string;
  ws_phase : string;
  ws_sort_order : Z;
  ws_resolved_at : option Z;
}.

Record Document := {
  doc_project_id : Z;
  doc_name : string;
  doc_category : string;
  doc_type : string;
  doc_content : option string;
}.

Record GlobalTask := {
  task_project_id : option Z;
  task_title : string;
  task_priority : string;
  task_status : string;
  task_due_date : Z;
}.

Record Deliverable := {
  dl_project_id : Z;
  dl_title : string;
  dl_status : string;
  dl_owner : string;
}.

Record Store := {
  projects : list Project;
  steps : list WorkflowStep;
  documents : list Document;
  tasks : list GlobalTask;
  deliverables : list Deliverable;
}.

(** A session: [db] is what is committed, [txn] is the view of the open
    transaction (the committed rows plus the pending writes).  Closing the
    session without a commit leaves [db]. *)
Record Session := {
  db : Store;
  txn : Store;
}.

Definition open_session (d : Store) : Session := {| db := d; txn := d |}.

(** Computations in a session.  An exception keeps the session as it was
    when it was raised, so that what had been committed before stays
    visible. *)
Definition M (A : Type) : Type := Session -> result A * Session.

Definition ret {A} (a : A) : M A := fun s => (inr a, s).

Definition bind {A B} (m : M A) (k : A -> M B) : M B :=
  fun s =>
    match m s with
    | (inr a, s') => k a s'
    | (inl e, s') => (inl e, s')
    end.

Definition throw {A} (e : pyexc) : M A := fun s => (inl e, s).

Definition lift {A} (r : result A) : M A := fun s => (r, s).

Definition on_txn (f : Store -> Store) : M unit :=
  fun s => (inr tt, {| db := db s; txn := f (txn s) |}).

(** [session.commit()] *)
Definition commit : M unit :=
  fun s => (inr tt, {| db := txn s; txn := txn s |}).

Definition set_projects (f : list Project -> list Project) (st : Store) : Store :=
  {| projects := f (projects st); steps := steps st; documents := documents st;
     tasks := tasks st; deliverables := deliverables st |}.

Definition set_steps (f : list WorkflowStep -> list WorkflowStep) (st : Store) : Store :=
  {| projects := projects st; steps := f (steps st); documents := documents st;
     tasks := tasks st; deliverables := deliverables st |}.

Definition set_documents (f : list Document -> list Document) (st : Store) : Store :=
  {| projects := projects st; steps := steps st; documents := f (documents st);
     tasks := tasks st; deliverables := deliverables st |}.

Definition set_tasks (f : list GlobalTask -> list GlobalTask) (st : Store) : Store :=
  {| projects := projects st; steps := steps st; documents := documents st;
     tasks := f (tasks st); deliverables := deliverables st |}.

Definition set_deliverables (f : list Deliverable -> list Deliverable) (st : Store) : Store :=
  {| projects := projects st; steps := steps st; documents := documents st;
     tasks := tasks st; deliverables := f (deliverables st) |}.

Definition has_id (i : Z) (w : WorkflowStep) : bool :=
  match ws_id w with
  | Some j => i =? j
  | None => false
  end.

(** A primary key is a SQLite INTEGER: a signed number of 64 bits. *)
Definition sqlite_integer (i : Z) : bool := (- 2 ^ 63 <=? i) && (i <? 2 ^ 63).

(** [session.get(Model, i)] when no row of the table has the key [i]: the
    answer is [None] for a key that SQLite can hold, and for any other
    [i] the driver cannot bind the parameter of the lookup and raises
    [OverflowError] ("Python int too large to convert to SQLite
    INTEGER").  The key of a row is a key that was stored, so a key out of
    that range is always a key without a row. *)
Definition no_row {A} (i : Z) : M (option A) :=
  if sqlite_integer i then ret None else throw OverflowError.

(** [session.get(WorkflowStep, i)], [session.get(Project, i)] *)
Definition get_step (i : Z) : M (option WorkflowStep) :=
  fun s => match find (has_id i) (steps (txn s)) with
           | Some w => (inr (Some w), s)
           | None => no_row i s
           end.

Definition get_project (i : Z) : M (option Project) :=
  fun s => match find (fun p => p_id p =? i) (projects (txn s)) with
           | Some p => (inr (Some p), s)
           | None => no_row i s
           end.

(** The primary key the database gives to the next inserted step. *)
Definition next_step_id (l : list WorkflowStep) : Z :=
  1 + fold_right (fun w m => match ws_id w with Some i => Z.max i m | None => m end) 0 l.

Definition with_id (i : Z) (w : WorkflowStep) : WorkflowStep :=
  {| ws_id := Some i; ws_project_id := ws_project_id w;
     ws_step_type := ws_step_type w; ws_agent := ws_agent w;
     ws_title := ws_title w; ws_body := ws_body w;
     ws_options_json := ws_options_json w;
     ws_chosen_option := ws_chosen_option w; ws_status := ws_status w;
     ws_phase := ws_phase w; ws_sort_order := ws_sort_order w;
     ws_resolved_at := ws_resolved_at w |}.

(** [session.add(step)] for a new step: the row is inserted with a fresh
    primary key. *)
Definition add_step (w : WorkflowStep) : M unit :=
  on_txn (set_steps (fun l => (l ++ [with_id (next_step_id l) w])%list)).

(** [session.add(step)] for a step that was loaded from the session and
    modified: its row is updated. *)
Definition update_step (w : WorkflowStep) : M unit :=
  on_txn (set_steps (map (fun w' =>
    match ws_id w with
    | Some i => if has_id i w' then w else w'
    | None => w'
    end))).

(** [session.add(project)] for the loaded project: its row is updated. *)
Definition update_project (p : Project) : M unit :=
  on_txn (set_projects (map (fun p' => if p_id p' =? p_id p then p else p'))).

Definition add_document (d : Document) : M unit :=
  on_txn (set_documents (fun l => (l ++ [d])%list)).

Definition add_task (t : GlobalTask) : M unit :=
  on_txn (set_tasks (fun l => (l ++ [t])%list)).

Definition add_deliverable (d : Deliverable) : M unit :=
  on_txn (set_deliverables (fun l => (l ++ [d])%list)).

(** What the database holds once the request is over: a session that is
    closed without [commit] drops its pending writes. *)
Definition committed {A} (r : result A * Session) : Store := db (snd r).

End Db.
Import Db.

Declare Scope ses_scope.
Delimit Scope ses_scope with ses.
Bind Scope ses_scope with M.
Notation "x <- c1 ;; c2" := (bind c1 (fun x => c2))
  (at level 61, c1 at next level, right associativity) : ses_scope.
Notation "c1 ;; c2" := (bind c1 (fun _ => c2))
  (at level 61, right associativity) : ses_scope.

(* ===================================================================== *)
(** ** The LLM wrappers ([src/dashboard_api/agent_intel.py]) *)
(* ===================================================================== *)

Module AgentIntel.
Section AgentIntel.
Context (W : World).
Local Open Scope py_scope.

Definition _fallback_directions (project_name : string) : json :=
  JArr [
    JObj [("key", JStr "A"); ("title", JStr "Market Leader");
          ("description", JStr ("Position " ++ project_name ++
                                " as the premium authority in the space."))];
    JObj [("key", JStr "B"); ("title", JStr "Disruptor");
          ("description", JStr ("Challenge the status quo with a bold, unexpected approach for "
                                ++ project_name ++ "."))];
    JObj [("key", JStr "C"); ("title", JStr "Community-First");
          ("description", JStr ("Build " ++ project_name ++
                                " around deep connection and shared values."))]
  ].

(** The prompt is built from strings only; whatever goes wrong with the
    call is caught and answered with the fallback. *)
Definition generate_strategic_directions_llm (project_name brief : string) : json :=
  match llm W with
  | NoClient => _fallback_directions project_name
  | LlmFails => _fallback_directions project_name
  | LlmReturns j => j
  end.

Definition _fallback_strategy (project_name : string) (direction : json) : json :=
  JObj [("positioning", JStr (project_name ++ " is the definitive choice for the modern era."));
        ("pillars", JArr [JStr "Quality First"; JStr "Customer Obsession"; JStr "Sustainable Core"]);
        ("tensions", JArr [JStr "Global vs Local"; JStr "Premium vs Accessible"; JStr "Timeless vs Modern"]);
        ("principles", JArr [JStr "Simplicity"; JStr "Clarity"; JStr "Warmth"])].

(** With a client, the prompt reads [chosen_direction['title']] and
    [chosen_direction['description']] before the [try] is entered. *)
Definition expand_strategy_llm (project_name brief : string) (chosen_direction : json)
  : result json :=
  match llm W with
  | NoClient => ok (_fallback_strategy project_name chosen_direction)
  | reply =>
      _ <- py_getitem chosen_direction "title" ;;
      _ <- py_getitem chosen_direction "description" ;;
      match reply with
      | LlmReturns j => ok j
      | _ => ok (_fallback_strategy project_name chosen_direction)
      end
  end.

Definition _safe_sub (a b : Z) : Z := a - b.

(** [int(d.get("cost", 0))] inside [try ... except (ValueError, TypeError)]:
    these are the only two exceptions [py_int] raises. *)
Definition cost_or_zero (d : pydict) : Z :=
  try_except (py_int W (dict_get d "cost" (JInt 0))) (fun _ => 0).

(** The loop of [_fallback_deliverables], with its two variables
    [selected] and [r_val]. *)
Fixpoint fallback_loop (all_deliverables : list pydict)
    (selected : list string) (r_val : Z) : list string :=
  match all_deliverables with
  | [] => selected
  | d :: rest =>
      let c_val := cost_or_zero d in
      if c_val <=? r_val
      then fallback_loop rest
             (selected ++ [py_str W (dict_get d "key" (JStr ""))])%list
             (_safe_sub r_val c_val)
      else fallback_loop rest selected r_val
  end.

Definition _fallback_deliverables (budget : Z) (all_deliverables : list pydict)
  : list string :=
  fallback_loop all_deliverables [] budget.

(** The comprehension of the branch without a client:
    [[str(d["key"]) for d in all_deliverables if int(d.get("cost", 0)) <= budget]] *)
Fixpoint simple_fit (budget : Z) (all_deliverables : list pydict)
  : result (list string) :=
  match all_deliverables with
  | [] => ok []
  | d :: rest =>
      c <- py_int W (dict_get d "cost" (JInt 0)) ;;
      if c <=? budget
      then k <- dict_getitem d "key" ;;
           r <- simple_fit budget rest ;;
           ok (py_str W k :: r)
      else simple_fit budget rest
  end.

(** The comprehension that renders the catalog into the prompt reads
    [d["key"]] and [d["cost"]] of every entry. *)
Fixpoint catalog_entries (all_deliverables : list pydict) : result (list json) :=
  match all_deliverables with
  | [] => ok []
  | d :: rest =>
      k <- dict_getitem d "key" ;;
      let name := dict_get d "name" (dict_get d "title" (JStr "Unknown")) in
      c <- dict_getitem d "cost" ;;
      r <- catalog_entries rest ;;
      ok (JObj [("key", k); ("name", name); ("cost", c)] :: r)
  end.

Definition recommend_deliverables_llm (project_name brief : string) (budget : Z)
    (all_deliverables : list pydict) : result json :=
  match llm W with
  | NoClient =>
      keys <- simple_fit budget all_deliverables ;;
      ok (JArr (map JStr keys))
  | reply =>
      _ <- catalog_entries all_deliverables ;;
      match reply with
      | LlmReturns j => ok j
      | _ => ok (JArr (map JStr (_fallback_deliverables budget all_deliverables)))
      end
  end.

End AgentIntel.
End AgentIntel.
Import AgentIntel.

(* ===================================================================== *)
(** ** The guild agents ([src/guilds/strategy.py], [src/guilds/command.py]) *)
(* ===================================================================== *)

Module Guilds.

(** [AgentInput]: the task and the entries of [context_data] and
    [parameters] that the two agents look up. *)
Record AgentInput := {
  task_description : string;
  ctx_project_name : string;
  ctx_brief : string;
  ctx_direction : json;
  par_budget : Z;
  par_catalog : list pydict;
}.

(** [AgentOutput]: the engine reads [structured_data] only. *)
Record AgentOutput := {
  structured_data : pydict;
}.

Section Guilds.
Context (W : World).
Local Open Scope py_scope.

(** [BrandStrategist.run].  The roadmap task calls
    [generate_roadmap_llm] with four arguments where it takes two. *)
Definition BrandStrategist_run (input_data : AgentInput) : result AgentOutput :=
  let project_name := ctx_project_name input_data in
  let brief := ctx_brief input_data in
  if String.eqb (task_description input_data) "generate_directions" then
    let directions := generate_strategic_directions_llm W project_name brief in
    ok {| structured_data := [("directions", directions)] |}
  else if String.eqb (task_description input_data) "create_roadmap" then
    raise TypeError
  else if String.eqb (task_description input_data) "expand_strategy" then
    strategy <- expand_strategy_llm W project_name brief (ctx_direction input_data) ;;
    ok {| structured_data := [("strategy", strategy)] |}
  else ok {| structured_data := [] |}.

(** [DirectorAgent.run] *)
Definition DirectorAgent_run (input_data : AgentInput) : result AgentOutput :=
  if String.eqb (task_description input_data) "recommend_deliverables" then
    selected_keys <- recommend_deliverables_llm W (ctx_project_name input_data)
                       (ctx_brief input_data) (par_budget input_data)
                       (par_catalog input_data) ;;
    ok {| structured_data := [("selected_keys", selected_keys)] |}
  else ok {| structured_data := [] |}.

End Guilds.
End Guilds.
Import Guilds.

(* ===================================================================== *)
(** ** The workflow engine ([src/dashboard_api/main.py]) *)
(* ===================================================================== *)

Module Text.

(** The line feed and the double quote, for the texts of the step bodies. *)
Definition nl : string := String (Ascii false true false true false false false false) "".
Definition dq : string := String (Ascii false true false false false true false false) "".

(** The UTF-8 encoding of a code point. *)
Definition utf8 (cp : N) : string :=
  let byte (n : N) : ascii := ascii_of_N n in
  if (cp <? 0x80)%N then String (byte cp) ""
  else if (cp <? 0x800)%N
  then String (byte (0xC0 + cp / 64)%N) (String (byte (0x80 + cp mod 64)%N) "")
  else if (cp <? 0x10000)%N
  then String (byte (0xE0 + cp / 4096)%N)
         (String (byte (0x80 + (cp / 64) mod 64)%N)
            (String (byte (0x80 + cp mod 64)%N) ""))
  else String (byte (0xF0 + cp / 262144)%N)
         (String (byte (0x80 + (cp / 4096) mod 64)%N)
            (String (byte (0x80 + (cp / 64) mod 64)%N)
               (String (byte (0x80 + cp mod 64)%N) ""))).

(** White space as [str.strip()] sees it: the code points for which
    [str.isspace()] holds.  Beside the ASCII ones these are U+0085,
    U+00A0, U+1680, U+2000 to U+200A, U+2028, U+2029, U+202F, U+205F and
    U+3000. *)
Definition white_space_code_points : list N :=
  [0x9; 0xA; 0xB; 0xC; 0xD; 0x1C; 0x1D; 0x1E; 0x1F; 0x20; 0x85; 0xA0; 0x1680;
   0x2000; 0x2001; 0x2002; 0x2003; 0x2004; 0x2005; 0x2006; 0x2007; 0x2008;
   0x2009; 0x200A; 0x2028; 0x2029; 0x202F; 0x205F; 0x3000]%N.

(** The white-space characters, each one as a text: one, two or three
    bytes. *)
Definition white_space : list string :=
  Eval vm_compute in map utf8 white_space_code_points.

(** Whether the text [ch] is one white-space character. *)
Definition is_space (ch : string) : bool := existsb (String.eqb ch) white_space.

(** [s.lstrip()]: the white-space characters at the start go, whether
    they take one, two or three bytes. *)
Fixpoint lstrip (s : string) : string :=
  match s with
  | EmptyString => EmptyString
  | String a s1 =>
      if is_space (String a "") then lstrip s1
      else match s1 with
           | EmptyString => s
           | String b s2 =>
               if is_space (String a (String b "")) then lstrip s2
               else match s2 with
                    | EmptyString => s
                    | String c s3 =>
                        if is_space (String a (String b (String c ""))) then lstrip s3
                        else s
                    end
           end
  end.

(** [s.rstrip()], by recursion from the left: once the rest of the text
    is stripped, the byte [c] stays in front of what is left of it,
    unless [c] and what is left are together one white-space character,
    which then goes too.  In a well-formed text the bytes of a
    white-space character at either end are that character. *)
Fixpoint rstrip (s : string) : string :=
  match s with
  | EmptyString => EmptyString
  | String c s' =>
      let r := rstrip s' in
      if is_space (String c r) then EmptyString else String c r
  end.

(** [s.strip()] *)
Definition strip (s : string) : string := rstrip (lstrip s).

(** [s.split(sep)] for a one-character separator. *)
Fixpoint split (sep : ascii) (s : string) : list string :=
  match s with
  | EmptyString => [EmptyString]
  | String c s' =>
      if Ascii.eqb c sep then EmptyString :: split sep s'
      else match split sep s' with
           | [] => [String c EmptyString]
           | w :: ws => String c w :: ws
           end
  end.

(** [[k.strip() for k in s.split(',') if k.strip()]] *)
Definition comma_list (s : string) : list string :=
  filter (fun k => negb (String.eqb k "")) (map strip (split ","%char s)).

(** [s.startswith('[')] *)
Definition starts_with_bracket (s : string) : bool :=
  match s with
  | String c _ => Ascii.eqb c "["%char
  | EmptyString => false
  end.

End Text.
Import Text.

Module Main.

Record WorkflowResolvePayload := {
  step_id : Z;
  action : string;
  chosen_option : option string;
  input_text : option string;
}.

Definition with_client_brief (b : string) (p : Project) : Project :=
  {| p_id := p_id p; p_name := p_name p; p_status := p_status p;
     p_review_status := p_review_status p; p_client_brief := b;
     p_budget_cap := p_budget_cap p; p_executive_summary := p_executive_summary p;
     p_strategic_tensions := p_strategic_tensions p;
     p_design_principles := p_design_principles p; p_stage := p_stage p |}.

Definition with_review_status (r : string) (p : Project) : Project :=
  {| p_id := p_id p; p_name := p_name p; p_status := p_status p;
     p_review_status := r; p_client_brief := p_client_brief p;
     p_budget_cap := p_budget_cap p; p_executive_summary := p_executive_summary p;
     p_strategic_tensions := p_strategic_tensions p;
     p_design_principles := p_design_principles p; p_stage := p_stage p |}.

Definition with_strategy (summary : string) (tensions principles : json) (p : Project)
  : Project :=
  {| p_id := p_id p; p_name := p_name p; p_status := p_status p;
     p_review_status := p_review_status p; p_client_brief := p_client_brief p;
     p_budget_cap := p_budget_cap p; p_executive_summary := Some summary;
     p_strategic_tensions := Some tensions;
     p_design_principles := Some principles; p_stage := p_stage p |}.

Definition with_stage_status (stage status : string) (p : Project) : Project :=
  {| p_id := p_id p; p_name := p_name p; p_status := status;
     p_review_status := p_review_status p; p_client_brief := p_client_brief p;
     p_budget_cap := p_budget_cap p; p_executive_summary := p_executive_summary p;
     p_strategic_tensions := p_strategic_tensions p;
     p_design_principles := p_design_principles p; p_stage := stage |}.

(** [Document(project_id=..., name=..., category=..., doc_type="html", content=...)] *)
Definition html_document (pid : Z) (name category content : string) : Document :=
  {| doc_project_id := pid; doc_name := name; doc_category := category;
     doc_type := "html"; doc_content := Some content |}.

(** [GlobalTask(..., priority="High", status="Todo",
    due_date=datetime.utcnow() + timedelta(days=...))], the clock in seconds. *)
Definition high_task (W : World) (pid : Z) (title : string) (days : Z) : GlobalTask :=
  {| task_project_id := Some pid; task_title := title; task_priority := "High";
     task_status := "Todo"; task_due_date := utcnow W + days * 86400 |}.

(** [for task_title in titles: session.add(GlobalTask(...))] *)
Fixpoint add_tasks (W : World) (pid : Z) (titles : list string) (days : Z) : M unit :=
  match titles with
  | [] => ret tt
  | t :: rest => (add_task (high_task W pid t days) ;; add_tasks W pid rest days)%ses
  end.

Definition a_or_b (a b : string) : string :=
  if String.eqb a "" then b else a.

Section Engine.
Context (W : World).

(* ------------------------------------------------------------------ *)
(** *** "Project Brief" resolved (main.py, lines 713-764) *)

Definition error_direction (title description : string) : json :=
  JArr [JObj [("key", JStr "A"); ("title", JStr title); ("description", JStr description)]].

(** The [try] block around the strategist, with its two replacement values. *)
Definition directions_for (project_name brief : string) : json :=
  try_except
    (out <- BrandStrategist_run W
              {| task_description := "generate_directions";
                 ctx_project_name := project_name; ctx_brief := brief;
                 ctx_direction := JNull; par_budget := 0; par_catalog := [] |} ;;
     let directions := dict_get (structured_data out) "directions" (JArr []) in
     ok (if py_truthy directions then directions
         else error_direction "Strategy Error" "Could not generate strategy."))%py
    (fun e => error_direction "System Error" ("Strategist failed: " ++ exc_str W e)).

Definition direction_body (brief project_name : string) : string :=
  "Based on the brief — " ++ dq ++ brief ++ dq ++
  " — I've analyzed the market positioning, audience signals, and competitive landscape for **"
  ++ project_name ++
  "**. Here are 3 distinct strategic directions, each leading to a different brand architecture and visual language. Choose the one that resonates most with your vision.".

(** [WorkflowStep(step_type="decision_gate", title="Strategic Direction", ...)] *)
Definition strategic_direction_step (max_order : Z) (project : Project)
    (brief : string) (directions : json) : WorkflowStep :=
  {| ws_id := None; ws_project_id := p_id project;
     ws_step_type := "decision_gate"; ws_agent := "Strategist";
     ws_title := "Strategic Direction";
     ws_body := direction_body brief (p_name project);
     ws_options_json := directions; ws_chosen_option := None;
     ws_status := "active"; ws_phase := "strategy";
     ws_sort_order := max_order + 1; ws_resolved_at := None |}.

Definition on_project_brief (max_order : Z) (project : Project)
    (payload : WorkflowResolvePayload) : M (list WorkflowStep) :=
  (project <- (if str_truthy (input_text payload)
               then let p := with_client_brief (str_or (input_text payload) "") project in
                    update_project p ;; ret p
               else ret project) ;;
   let brief := str_or (input_text payload)
                  (a_or_b (p_client_brief project) (p_name project)) in
   let directions := directions_for (p_name project) brief in
   let step := strategic_direction_step max_order project brief directions in
   add_step step ;;
   add_document (html_document (p_id project) "Market Landscape Analysis" "Strategy"
     (generate_research_doc_content W "market_landscape" (p_name project) brief "")) ;;
   add_document (html_document (p_id project) "Competitive Analysis" "Strategy"
     (generate_research_doc_content W "competitor_analysis" (p_name project) brief "")) ;;
   ret [step])%ses.

(* ------------------------------------------------------------------ *)
(** *** "Strategic Direction" resolved (main.py, lines 766-859) *)

(** [next((o for o in options if o["key"] == chosen), default)] *)
Fixpoint first_with_key (chosen : string) (options : list json) (default : json)
  : result json :=
  match options with
  | [] => ok default
  | o :: rest =>
      (k <- py_getitem o "key" ;;
       if py_eq_str k chosen then ok o else first_with_key chosen rest default)%py
  end.

Definition error_strategy (positioning : string) (pillars : list json) : json :=
  JObj [("positioning", JStr positioning); ("pillars", JArr pillars);
        ("tensions", JArr []); ("principles", JArr [])].

(** The [try] block around the strategist's expansion. *)
Definition strategy_for (project_name brief : string) (chosen_dir : json) : json :=
  try_except
    (out <- BrandStrategist_run W
              {| task_description := "expand_strategy";
                 ctx_project_name := project_name; ctx_brief := brief;
                 ctx_direction := chosen_dir; par_budget := 0; par_catalog := [] |} ;;
     let strategy := dict_get (structured_data out) "strategy" (JObj []) in
     ok (if py_truthy strategy then strategy
         else error_strategy "Error" [JStr "Error"]))%py
    (fun e => error_strategy ("Error: " ++ exc_str W e) []).

(** [chr(10).join(f'- {p}' for p in o)] *)
Definition bullets (o : json) : result string :=
  (l <- py_iter o ;; ok (join nl (map (fun p => "- " ++ py_str W p) l)))%py.

(** [WorkflowStep(step_type="approval_gate", title="Strategy Review", ...)] *)
Definition strategy_review_step (max_order : Z) (project : Project)
    (strategy_body : string) : WorkflowStep :=
  {| ws_id := None; ws_project_id := p_id project;
     ws_step_type := "approval_gate"; ws_agent := "Strategist";
     ws_title := "Strategy Review"; ws_body := strategy_body;
     ws_options_json :=
       JArr [JObj [("key", JStr "approve"); ("title", JStr "Approve & proceed to planning")];
             JObj [("key", JStr "revise"); ("title", JStr "Request revisions")]];
     ws_chosen_option := None; ws_status := "active"; ws_phase := "strategy";
     ws_sort_order := max_order + 1; ws_resolved_at := None |}.

Definition phase2_tasks : list string :=
  ["Phase 2: Review Full Strategy"; "Phase 2: Approve Brand Pillars"].

Definition on_strategic_direction (max_order : Z) (resolved_step : WorkflowStep)
    (project : Project) (payload : WorkflowResolvePayload) : M (list WorkflowStep) :=
  let chosen := str_or (chosen_option payload) "A" in
  let options := ws_options_json resolved_step in
  (chosen_dir <- lift (elements <- py_iter options ;;
                       default <- py_index0 options ;;
                       first_with_key chosen elements default)%py ;;
   let brief := a_or_b (p_client_brief project) (p_name project) in
   let strategy := strategy_for (p_name project) brief chosen_dir in
   strategy_summary <- lift (positioning <- py_get strategy "positioning" (JStr "") ;;
                             pillars <- py_get strategy "pillars" (JArr []) ;;
                             joined <- py_join ", " pillars ;;
                             ok (py_str W positioning ++ " | Pillars: " ++ joined))%py ;;
   strategy_body <- lift (title <- py_getitem chosen_dir "title" ;;
                          positioning <- py_getitem strategy "positioning" ;;
                          pillars <- py_getitem strategy "pillars" ;;
                          pillar_lines <- bullets pillars ;;
                          tensions <- py_getitem strategy "tensions" ;;
                          tension_lines <- bullets tensions ;;
                          principles <- py_getitem strategy "principles" ;;
                          principle_lines <- bullets principles ;;
                          ok ("## " ++ py_str W title ++ " — Expanded Strategy for "
                              ++ p_name project ++ nl ++ nl ++
                              "**Positioning**: " ++ py_str W positioning ++ nl ++ nl ++
                              "**Brand Pillars**:" ++ nl ++ pillar_lines ++ nl ++ nl ++
                              "**Strategic Tensions**:" ++ nl ++ tension_lines ++ nl ++ nl ++
                              "**Design Principles**:" ++ nl ++ principle_lines))%py ;;
   project <- lift (title <- py_getitem chosen_dir "title" ;;
                    description <- py_getitem chosen_dir "description" ;;
                    tensions <- py_getitem strategy "tensions" ;;
                    principles <- py_getitem strategy "principles" ;;
                    ok (with_strategy (py_str W title ++ ": " ++ py_str W description)
                          tensions principles project))%py ;;
   update_project project ;;
   add_document (html_document (p_id project) "Brand Positioning Report" "Strategy"
     (generate_research_doc_content W "brand_positioning" (p_name project) brief
        strategy_summary)) ;;
   add_document (html_document (p_id project) "Target Audience Profile" "Strategy"
     (generate_research_doc_content W "target_audience" (p_name project) brief
        strategy_summary)) ;;
   let step := strategy_review_step max_order project strategy_body in
   add_step step ;;
   (* the block "Add Phase 2 Tasks" stands twice in the source *)
   add_tasks W (p_id project) phase2_tasks 3 ;;
   add_tasks W (p_id project) phase2_tasks 3 ;;
   ret [step])%ses.

(* ------------------------------------------------------------------ *)
(** *** "Strategy Review" resolved (main.py, lines 863-1018) *)

Definition catalog_item (key title : string) (cost : Z)
    (phase time_est justification : string) : pydict :=
  [("key", JStr key); ("title", JStr title); ("cost", JInt cost);
   ("phase", JStr phase); ("time_est", JStr time_est);
   ("justification", JStr justification)].

(** The deliverable catalog (lines 901-911). *)
Definition catalog : list pydict := [
  catalog_item "brand_strategy" "Brand Strategy Document" 800 "Foundation" "1 week"
    "Defines core DNA and market positioning.";
  catalog_item "visual_brief" "Visual Identity Brief" 600 "Foundation" "3 days"
    "Translates strategy into visual direction for designers.";
  catalog_item "competitor_audit" "Competitor Audit Report" 500 "Foundation" "4 days"
    "Identifies whitespace opportunities in the market.";
  catalog_item "logo_system" "Logo & Identity System" 1500 "Design" "2 weeks"
    "Core asset for brand recognition across all touchpoints.";
  catalog_item "brand_guidelines" "Brand Guidelines" 1000 "Design" "1 week"
    "Ensures consistency in future brand application.";
  catalog_item "visual_templates" "Key Visual Templates" 700 "Design" "1 week"
    "Ready-to-use assets for social and presentations.";
  catalog_item "website" "Website Design & Development" 2500 "Production" "3 weeks"
    "Primary digital storefront and conversion engine.";
  catalog_item "social_kit" "Social Media Kit" 800 "Production" "1 week"
    "Launch content to build initial traction.";
  catalog_item "launch_collateral" "Launch Collateral" 600 "Production" "1 week"
    "Physical/digital assets for launch event/campaign."
].

(** The [try] block around the director: any exception leaves
    [recommended_keys = []]. *)
Definition recommended_keys_for (project : Project) (budget : Z)
    (catalog : list pydict) : json :=
  try_except
    (out <- DirectorAgent_run W
              {| task_description := "recommend_deliverables";
                 ctx_project_name := p_name project;
                 ctx_brief := p_client_brief project;
                 ctx_direction := JNull;
                 par_budget := budget; par_catalog := catalog |} ;;
     ok (dict_get (structured_data out) "selected_keys" (JArr [])))%py
    (fun _ => JArr []).

(** The selection loop (lines 927-943).  It returns the catalog with every
    entry annotated, the titles in [selected] and [running_total]. *)
Fixpoint select_loop (budget : Z) (recommended_keys : json) (catalog : list pydict)
    (selected : list string) (running_total : Z)
  : result (list pydict * list string * Z) :=
  match catalog with
  | [] => ok ([], selected, running_total)
  | item :: rest =>
      (cost <- py_int W (dict_get item "cost" (JInt 0)) ;;
       is_recommended <- py_contains recommended_keys
                           (py_str W (dict_get item "key" JNull)) ;;
       if (budget <=? 0) || (is_recommended && (running_total + cost <=? budget))
       then
         let item' := dict_set "selected" (JBool true) item in
         title <- dict_getitem item' "title" ;;
         r <- select_loop budget recommended_keys rest
                (selected ++ [py_str W title])%list (running_total + cost) ;;
         let '(rest', selected', total') := r in
         ok (item' :: rest', selected', total')
       else
         let item' := dict_set "selected" (JBool false) item in
         r <- select_loop budget recommended_keys rest selected running_total ;;
         let '(rest', selected', total') := r in
         ok (item' :: rest', selected', total'))%py
  end.

(** The audit table (lines 961-968): one row per selected entry. *)
Definition audit_row (item : pydict) : string :=
  if py_truthy (dict_get item "selected" JNull)
  then "| **" ++ py_str W (dict_get item "title" (JStr "")) ++ "** | $"
       ++ py_str W (dict_get item "cost" (JInt 0)) ++ " | "
       ++ py_str W (dict_get item "time_est" (JStr "-")) ++ " | "
       ++ py_str W (dict_get item "justification" (JStr "")) ++ " |" ++ nl
  else "".

Definition audit_table (catalog : list pydict) : string :=
  "| Item | Cost | Time | Rationale |" ++ nl ++ "| :--- | :--- | :--- | :--- |" ++ nl
  ++ String.concat "" (map audit_row catalog).

Definition budget_line (budget total_estimated remaining : Z) : string :=
  if 0 <? budget
  then "**Budget:** $" ++ fmt_thousands W budget ++
       " · **Estimated scope cost:** $" ++ fmt_thousands W total_estimated ++
       " · **Remaining:** $" ++ fmt_thousands W remaining
  else "**Budget:** Not set — showing full recommended scope.".

Definition budget_note (budget remaining : Z) : string :=
  if 0 <? budget
  then if remaining <? 0
       then nl ++ nl ++ "⚠️ I've pre-selected deliverables that fit within your budget. You can adjust the selection below."
       else if 500 <? remaining
       then nl ++ nl ++ "✅ Budget has room. You could add custom deliverables or increase scope."
       else nl ++ nl ++ "✅ Scope fits your budget. Review and adjust as needed."
  else nl ++ nl ++ "⚠️ No budget set. All deliverables are included. Set a budget in project settings to enable cost tracking.".

Definition deliverables_body (budget total_estimated : Z) (catalog : list pydict)
  : string :=
  let remaining := if 0 <? budget then budget - total_estimated else 0 in
  "Based on the approved strategy and a budget analysis, here is the justified scope breakdown:"
  ++ nl ++ nl ++ budget_line budget total_estimated remaining ++ nl ++ nl ++
  "### Recommended Scope Audit" ++ nl ++ audit_table catalog ++ nl ++ nl ++
  budget_note budget remaining ++ nl ++ nl ++
  "Review the full selection below to approve or adjust.".

Definition opt_eqb (o : option string) (s : string) : bool :=
  match o with
  | Some t => String.eqb t s
  | None => false
  end.

(** [WorkflowStep(step_type="milestone", title="Strategy Phase Complete", ...)] *)
Definition strategy_milestone (max_order : Z) (project : Project) : WorkflowStep :=
  {| ws_id := None; ws_project_id := p_id project;
     ws_step_type := "milestone"; ws_agent := "System";
     ws_title := "Strategy Phase Complete";
     ws_body := "✓ Strategic direction approved. Moving to production planning.";
     ws_options_json := JArr []; ws_chosen_option := None;
     ws_status := "resolved"; ws_phase := "strategy";
     ws_sort_order := max_order + 1; ws_resolved_at := Some (utcnow W) |}.

(** [WorkflowStep(step_type="decision_gate", title="Deliverable Selection", ...)] *)
Definition deliverable_selection_step (max_order : Z) (project : Project)
    (budget running_total : Z) (catalog : list pydict) : WorkflowStep :=
  {| ws_id := None; ws_project_id := p_id project;
     ws_step_type := "decision_gate"; ws_agent := "Director";
     ws_title := "Deliverable Selection";
     ws_body := deliverables_body budget running_total catalog;
     ws_options_json := JArr (map JObj catalog); ws_chosen_option := None;
     ws_status := "active"; ws_phase := "design";
     ws_sort_order := max_order + 2; ws_resolved_at := None |}.

(** [WorkflowStep(step_type="input_needed", title="Strategy Revisions", ...)] *)
Definition strategy_revisions_step (max_order : Z) (project : Project) : WorkflowStep :=
  {| ws_id := None; ws_project_id := p_id project;
     ws_step_type := "input_needed"; ws_agent := "Strategist";
     ws_title := "Strategy Revisions";
     ws_body := "What would you like me to change about the strategic direction? Please describe what feels off or what you'd like to emphasize differently.";
     ws_options_json := JArr []; ws_chosen_option := None;
     ws_status := "active"; ws_phase := "strategy";
     ws_sort_order := max_order + 1; ws_resolved_at := None |}.

Definition on_strategy_review (max_order : Z) (project : Project)
    (payload : WorkflowResolvePayload) : M (list WorkflowStep) :=
  if String.eqb (action payload) "approve" || opt_eqb (chosen_option payload) "approve"
  then
    let milestone := strategy_milestone max_order project in
    (add_step milestone ;;
     add_document (html_document (p_id project) "Brand Strategy Document" "Strategy"
       (generate_research_doc_content W "brand_strategy_doc" (p_name project)
          (p_client_brief project) (str_or (p_executive_summary project) ""))) ;;
     add_document (html_document (p_id project) "Visual Direction Brief" "Design"
       (generate_research_doc_content W "visual_direction_brief" (p_name project)
          (p_client_brief project) (str_or (p_executive_summary project) ""))) ;;
     budget <- lift (if float_truthy (p_budget_cap project)
                     then float_int (p_budget_cap project) else ok 0) ;;
     let recommended_keys := recommended_keys_for project budget catalog in
     r <- lift (select_loop budget recommended_keys catalog [] 0) ;;
     let '(catalog', selected, running_total) := r in
     let step :=
       deliverable_selection_step max_order project budget running_total catalog' in
     add_step step ;;
     update_project
       (with_review_status
          (if opt_eqb (chosen_option payload) "revise" then "REJECTED" else "PENDING")
          project) ;;
     ret [milestone; step])%ses
  else
    let step := strategy_revisions_step max_order project in
    (add_step step ;;
     update_project (with_review_status "REJECTED" project) ;;
     ret [step])%ses.

(* ------------------------------------------------------------------ *)
(** *** "Deliverable Selection" resolved (main.py, lines 1020-1115) *)

(** The chosen keys: a JSON array, or a comma-separated list (lines
    1029-1037). *)
Definition parse_chosen_keys (chosen : string) : list string :=
  if starts_with_bracket chosen
  then match json_loads W chosen with
       | Some (JArr parsed) => map (py_str W) parsed
       | _ => comma_list chosen
       end
  else comma_list chosen.

Definition agent_deliverable (pid : Z) (title : string) : Deliverable :=
  {| dl_project_id := pid; dl_title := title; dl_status := "Pending";
     dl_owner := "Agent" |}.

Definition founder_deliverable (pid : Z) (title : string) : Deliverable :=
  {| dl_project_id := pid; dl_title := title; dl_status := "Pending";
     dl_owner := "Founder" |}.

(** The loop over the stored catalog (lines 1043-1053), with its two
    variables [total_cost] and [created_titles]. *)
Fixpoint deliverables_loop (pid : Z) (chosen_keys : list string) (catalog : list json)
    (total_cost : Z) (created_titles : list string) : M (Z * list string) :=
  match catalog with
  | [] => ret (total_cost, created_titles)
  | item :: rest =>
      (key <- lift (py_get item "key" (JStr "")) ;;
       if str_in (py_str W key) chosen_keys
       then
         title <- lift (py_getitem item "title") ;;
         add_deliverable (agent_deliverable pid (py_str W title)) ;;
         item_cost <- lift (c <- py_get item "cost" (JInt 0) ;; py_int W c)%py ;;
         deliverables_loop pid chosen_keys rest (total_cost + item_cost)
           (created_titles ++
              [(py_str W title ++ " ($" ++ fmt_thousands W item_cost ++ ")")%string])%list
       else deliverables_loop pid chosen_keys rest total_cost created_titles)%ses
  end.

(** The custom deliverables of the free-text input (lines 1056-1064). *)
Fixpoint custom_loop (pid : Z) (customs : list string) (created_titles : list string)
  : M (list string) :=
  match customs with
  | [] => ret created_titles
  | custom :: rest =>
      (add_deliverable (founder_deliverable pid custom) ;;
       custom_loop pid rest (created_titles ++ [(custom ++ " (custom)")%string])%list)%ses
  end.

(** Float arithmetic of the budget summary.  The rounding of binary64 is
    not modelled: these values only reach the text of the step body. *)
Definition float_sub_int (f : pyfloat) (z : Z) : pyfloat :=
  match f with
  | Finite q => Finite (q - inject_Z z)
  | other => other
  end.

Definition float_nonneg (f : pyfloat) : bool :=
  match f with
  | Finite q => Qle_bool 0 q
  | Infinity negative => negb negative
  | NaN => false
  end.

Definition float_abs (f : pyfloat) : pyfloat :=
  match f with
  | Finite q => Finite (Qabs q)
  | Infinity _ => Infinity false
  | NaN => NaN
  end.

Definition budget_body (budget_cap : pyfloat) (total_cost : Z)
    (created_titles : list string) : string :=
  let budget := if float_truthy budget_cap then budget_cap else Finite 0 in
  let remaining := if float_pos budget then float_sub_int budget total_cost
                   else Finite 0 in
  "**Deliverables Confirmed** — " ++ str_of_Z (Z.of_nat (length created_titles))
  ++ " items locked in." ++ nl ++ nl ++
  join nl (map (fun t => "- " ++ t) created_titles) ++ nl ++ nl ++ "---" ++ nl ++ nl ++
  "**Total estimated cost:** $" ++ fmt_thousands W total_cost ++ nl ++
  "**Project budget:** " ++
  (if float_pos budget then "$" ++ fmt_float0 W budget else "Not set") ++ nl ++
  "**Remaining budget:** " ++
  (if float_pos budget then "$" ++ fmt_float0 W remaining else "N/A") ++ nl ++
  "**Projected margin:** " ++
  (if float_pos budget then fmt_pct W budget total_cost ++ "%" else "N/A") ++ nl ++ nl ++
  (if float_nonneg remaining
   then "✅ Budget allocation approved. Design phase begins."
   else "⚠️ Scope exceeds budget by $" ++ fmt_float0 W (float_abs remaining) ++
        ". Consider adjusting scope or increasing budget.").

(** [WorkflowStep(step_type="milestone", title="Deliverables Confirmed", ...)] *)
Definition deliverables_milestone (max_order : Z) (project : Project)
    (created_titles : list string) : WorkflowStep :=
  {| ws_id := None; ws_project_id := p_id project;
     ws_step_type := "milestone"; ws_agent := "System";
     ws_title := "Deliverables Confirmed";
     ws_body := "✓ " ++ str_of_Z (Z.of_nat (length created_titles)) ++
                " deliverables created. Moving to Design phase.";
     ws_options_json := JArr []; ws_chosen_option := None;
     ws_status := "resolved"; ws_phase := "design";
     ws_sort_order := max_order + 1; ws_resolved_at := Some (utcnow W) |}.

(** [WorkflowStep(step_type="agent_output", title="Budget Allocation", ...)] *)
Definition budget_allocation_step (max_order : Z) (project : Project)
    (total_cost : Z) (created_titles : list string) : WorkflowStep :=
  {| ws_id := None; ws_project_id := p_id project;
     ws_step_type := "agent_output"; ws_agent := "CFO";
     ws_title := "Budget Allocation";
     ws_body := budget_body (p_budget_cap project) total_cost created_titles;
     ws_options_json := JArr []; ws_chosen_option := None;
     ws_status := "active"; ws_phase := "design";
     ws_sort_order := max_order + 2; ws_resolved_at := None |}.

Definition on_deliverable_selection (max_order : Z) (resolved_step : WorkflowStep)
    (project : Project) (payload : WorkflowResolvePayload) : M (list WorkflowStep) :=
  let project := with_review_status "APPROVED" project in
  (update_project project ;;
   let chosen := str_or (chosen_option payload) "" in
   let custom_input := str_or (input_text payload) "" in
   let chosen_keys := parse_chosen_keys chosen in
   catalog <- lift (py_iter (ws_options_json resolved_step)) ;;
   r <- deliverables_loop (p_id project) chosen_keys catalog 0 [] ;;
   let '(total_cost, created_titles) := r in
   created_titles <- (if negb (String.eqb custom_input "")
                      then custom_loop (p_id project) (comma_list custom_input)
                             created_titles
                      else ret created_titles) ;;
   let project := with_stage_status "Design" "Design" project in
   update_project project ;;
   let milestone := deliverables_milestone max_order project created_titles in
   add_step milestone ;;
   let step := budget_allocation_step max_order project total_cost created_titles in
   add_step step ;;
   ret [milestone; step])%ses.

(* ------------------------------------------------------------------ *)
(** *** The dispatch (main.py, lines 708-1117) *)

Definition generate_next_steps (resolved_step : WorkflowStep) (project : Project)
    (payload : WorkflowResolvePayload) : M (list WorkflowStep) :=
  let max_order := ws_sort_order resolved_step in
  if String.eqb (ws_step_type resolved_step) "input_needed"
     && String.eqb (ws_title resolved_step) "Project Brief"
  then on_project_brief max_order project payload
  else if String.eqb (ws_step_type resolved_step) "decision_gate"
          && String.eqb (ws_title resolved_step) "Strategic Direction"
  then on_strategic_direction max_order resolved_step project payload
  else if String.eqb (ws_step_type resolved_step) "approval_gate"
          && String.eqb (ws_title resolved_step) "Strategy Review"
  then on_strategy_review max_order project payload
  else if String.eqb (ws_step_type resolved_step) "decision_gate"
          && String.eqb (ws_title resolved_step) "Deliverable Selection"
  then on_deliverable_selection max_order resolved_step project payload
  else ret [].

(* ------------------------------------------------------------------ *)
(** *** The two endpoints (main.py, lines 684-706 and 1119-1146) *)

Record ResolveResponse := {
  resp_status : string;
  resp_step_id : option Z;
  next_steps_created : nat;
}.

(** [step.status = "resolved"], [step.resolved_at = ...],
    [step.chosen_option = chosen_option or input_text or action] *)
Definition mark_resolved (payload : WorkflowResolvePayload) (step : WorkflowStep)
  : WorkflowStep :=
  {| ws_id := ws_id step; ws_project_id := ws_project_id step;
     ws_step_type := ws_step_type step; ws_agent := ws_agent step;
     ws_title := ws_title step; ws_body := ws_body step;
     ws_options_json := ws_options_json step;
     ws_chosen_option :=
       Some (str_or (chosen_option payload)
               (str_or (input_text payload) (action payload)));
     ws_status := "resolved"; ws_phase := ws_phase step;
     ws_sort_order := ws_sort_order step;
     ws_resolved_at := Some (utcnow W) |}.

Definition resolve_workflow_step (project_id : Z) (payload : WorkflowResolvePayload)
  : M ResolveResponse :=
  (found <- get_step (step_id payload) ;;
   match found with
   | None => throw (HTTPException 404 "Step not found")
   | Some step =>
       if negb (ws_project_id step =? project_id)
       then throw (HTTPException 404 "Step not found")
       else
         let step := mark_resolved payload step in
         update_step step ;;
         commit ;;
         project <- get_project project_id ;;
         match project with
         | None => throw (HTTPException 404 "Not Found")
         | Some project =>
             next_steps <- generate_next_steps step project payload ;;
             commit ;;
             ret {| resp_status := "resolved"; resp_step_id := ws_id step;
                    next_steps_created := length next_steps |}
         end
   end)%ses.

Record SeedResponse := {
  seed_status : string;
  seed_step_id : option Z;
}.

(** [session.exec(select(WorkflowStep).where(WorkflowStep.project_id == i)).first()] *)
Definition first_step_of (i : Z) : M (option WorkflowStep) :=
  fun s => (inr (find (fun w => ws_project_id w =? i) (steps (txn s))), s).

(** The primary key of the row a following [add_step] inserts: what
    [step.id] reads after the commit. *)
Definition upcoming_step_id : M Z :=
  fun s => (inr (next_step_id (steps (txn s))), s).

Definition brief_body (project_name : string) : string :=
  "Welcome to " ++ project_name ++
  ". Before I can begin strategic analysis, I need to understand what we're building."
  ++ nl ++ nl ++
  "Describe the project in your own words — the vision, the audience, what makes it different. Don't worry about being polished; raw intent is more useful than corporate language.".

(** [WorkflowStep(step_type="input_needed", title="Project Brief", ...)] *)
Definition project_brief_step (project_id : Z) (project : Project) : WorkflowStep :=
  {| ws_id := None; ws_project_id := project_id;
     ws_step_type := "input_needed"; ws_agent := "Strategist";
     ws_title := "Project Brief"; ws_body := brief_body (p_name project);
     ws_options_json := JArr []; ws_chosen_option := None;
     ws_status := "active"; ws_phase := "strategy";
     ws_sort_order := 0; ws_resolved_at := None |}.

Definition seed_workflow (project_id : Z) : M SeedResponse :=
  (project <- get_project project_id ;;
   match project with
   | None => throw (HTTPException 404 "Project not found")
   | Some project =>
       existing <- first_step_of project_id ;;
       match existing with
       | Some _ => ret {| seed_status := "exists"; seed_step_id := None |}
       | None =>
           let step := project_brief_step project_id project in
           i <- upcoming_step_id ;;
           add_step step ;;
           commit ;;
           ret {| seed_status := "seeded"; seed_step_id := Some i |}
       end
   end)%ses.

(** One request: the endpoint runs in a session opened on the database;
    what the database holds afterwards is what was committed. *)
Definition request {A} (m : M A) (d : Store) : result A * Store :=
  let r := m (open_session d) in (fst r, committed r).

End Engine.
End Main.
Import Main.

(* ===================================================================== *)
(** ** Sample data *)
(* ===================================================================== *)

Module Sample.

(** A world around a given LLM behaviour: the content generator answers
    with the mock text it uses without a client, numbers are printed
    without separators, and nothing else is parsed or printed. *)
Definition world (reply : llm_reply) : World :=
  {| utcnow := 1700000000;
     llm := reply;
     generate_research_doc_content := fun doc_type _ brief _ =>
       "<p>LLM unavailable. Mock content for " ++ doc_type ++ " based on " ++ brief ++ "</p>";
     int_of_str := fun _ => None;
     py_repr := fun _ => "";
     exc_str := fun _ => "";
     json_loads := fun _ => None;
     fmt_thousands := str_of_Z;
     fmt_float0 := fun _ => "";
     fmt_pct := fun _ _ => "" |}.

(** The world without an LLM client. *)
Definition offline : World := world NoClient.

Definition project (budget_cap : Q) : Project :=
  {| p_id := 1; p_name := "Casa Verde"; p_status := "Strategy";
     p_review_status := "PENDING"; p_client_brief := "";
     p_budget_cap := Finite budget_cap; p_executive_summary := None;
     p_strategic_tensions := None; p_design_principles := None;
     p_stage := "Strategy" |}.

(** A database with one project and no workflow yet. *)
Definition fresh_db (budget_cap : Q) : Store :=
  {| projects := [project budget_cap]; steps := []; documents := [];
     tasks := []; deliverables := [] |}.

Definition step (i : Z) (step_type title : string) (options : json) (order : Z)
  : WorkflowStep :=
  {| ws_id := Some i; ws_project_id := 1; ws_step_type := step_type;
     ws_agent := "Strategist"; ws_title := title; ws_body := "";
     ws_options_json := options; ws_chosen_option := None;
     ws_status := "active"; ws_phase := "strategy"; ws_sort_order := order;
     ws_resolved_at := None |}.

(** A database whose project has one active step. *)
Definition db_with (budget_cap : Q) (w : WorkflowStep) : Store :=
  {| projects := [project budget_cap]; steps := [w]; documents := [];
     tasks := []; deliverables := [] |}.

Definition payload (i : Z) (action : string) (chosen input : option string)
  : WorkflowResolvePayload :=
  {| step_id := i; action := action; chosen_option := chosen; input_text := input |}.

Definition brief_step : WorkflowStep :=
  step 1 "input_needed" "Project Brief" (JArr []) 0.

Definition direction_step : WorkflowStep :=
  step 2 "decision_gate" "Strategic Direction" (_fallback_directions "Casa Verde") 1.

Definition review_step : WorkflowStep :=
  step 3 "approval_gate" "Strategy Review" (JArr []) 2.

Definition milestone_step : WorkflowStep :=
  step 4 "milestone" "Strategy Phase Complete" (JArr []) 3.

Definition selection_step : WorkflowStep :=
  step 5 "decision_gate" "Deliverable Selection" (JArr (map JObj catalog)) 4.

(** An LLM whose strategy lacks everything but the positioning. *)
Definition thin_strategy : llm_reply :=
  LlmReturns (JObj [("positioning", JStr "Bold")]).

End Sample.

(* ===================================================================== *)
(** ** Vocabulary of the properties *)
(* ===================================================================== *)

Local Open Scope list_scope.

(** The four [(step_type, title)] pairs for which a transition is defined. *)
Definition known_transition (step_type title : string) : bool :=
  (String.eqb step_type "input_needed" && String.eqb title "Project Brief")
  || (String.eqb step_type "decision_gate" && String.eqb title "Strategic Direction")
  || (String.eqb step_type "approval_gate" && String.eqb title "Strategy Review")
  || (String.eqb step_type "decision_gate" && String.eqb title "Deliverable Selection").

(** The row of a project in a store. *)
Definition project_row (st : Store) (pid : Z) : option Project :=
  find (fun p => p_id p =? pid) (projects st).

(** The steps of a project titled "Project Brief". *)
Definition brief_steps (st : Store) (pid : Z) : list WorkflowStep :=
  filter (fun w => (ws_project_id w =? pid) && String.eqb (ws_title w) "Project Brief")
    (steps st).

(** The rows of the steps table after new steps were added in turn. *)
Fixpoint insert_steps (l : list WorkflowStep) (new_steps : list WorkflowStep)
  : list WorkflowStep :=
  match new_steps with
  | [] => l
  | w :: rest => insert_steps (l ++ [with_id (next_step_id l) w]) rest
  end.

(** What a session computation appends to the tables of the open
    transaction, the committed database being left as it is. *)
Record extends (s s' : Session) (new_steps : list WorkflowStep)
    (new_documents : list Document) (new_tasks : list GlobalTask)
    (new_deliverables : list Deliverable) : Prop := {
  ext_db : db s' = db s;
  ext_steps : steps (txn s') = insert_steps (steps (txn s)) new_steps;
  ext_documents : documents (txn s') = documents (txn s) ++ new_documents;
  ext_tasks : tasks (txn s') = tasks (txn s) ++ new_tasks;
  ext_deliverables : deliverables (txn s') = deliverables (txn s) ++ new_deliverables;
}.

(** The brief the "Project Brief" transition works with:
    [payload.input_text or project.client_brief or project.name]. *)
Definition brief_of (project : Project) (payload : WorkflowResolvePayload) : string :=
  str_or (input_text payload)
    (a_or_b (p_client_brief (if str_truthy (input_text payload)
                             then with_client_brief (str_or (input_text payload) "") project
                             else project))
            (p_name project)).

(** Whether the loop over the stored catalog takes an entry, and the title
    it gives to the deliverable. *)
Definition item_chosen (W : World) (chosen_keys : list string) (item : json) : bool :=
  match py_get item "key" (JStr "") with
  | inr key => str_in (py_str W key) chosen_keys
  | inl _ => false
  end.

Definition item_title (W : World) (item : json) : string :=
  match py_getitem item "title" with
  | inr title => py_str W title
  | inl _ => ""%string
  end.

(** A direction as the strategist stores it: an object with a key, a
    title and a description. *)
Definition is_direction (o : json) : bool :=
  match o with
  | JObj d =>
      match dict_lookup "key" d, dict_lookup "title" d, dict_lookup "description" d with
      | Some _, Some _, Some _ => true
      | _, _, _ => false
      end
  | _ => false
  end.

(** Options of a "Strategic Direction" step that are a non-empty list of
    directions. *)
Definition wf_directions (options : json) : bool :=
  match options with
  | JArr (o :: rest) => forallb is_direction (o :: rest)
  | _ => false
  end.

(** The four tasks the "Strategic Direction" transition adds. *)
Definition phase2_rows (W : World) (pid : Z) : list GlobalTask :=
  [high_task W pid "Phase 2: Review Full Strategy" 3;
   high_task W pid "Phase 2: Approve Brand Pillars" 3;
   high_task W pid "Phase 2: Review Full Strategy" 3;
   high_task W pid "Phase 2: Approve Brand Pillars" 3].

(** An entry of a stored catalog that the "Deliverable Selection"
    transition can process: an object with a title and a cost that [int]
    converts. *)
Definition is_catalog_entry (W : World) (o : json) : bool :=
  match o with
  | JObj d =>
      match dict_lookup "title" d, py_int W (dict_get d "cost" (JInt 0)) with
      | Some _, inr _ => true
      | _, _ => false
      end
  | _ => false
  end.

(** Whether an annotated catalog entry is marked selected, and the total
    cost of the entries marked selected. *)
Definition is_selected (item : pydict) : bool :=
  py_truthy (dict_get item "selected" JNull).

Definition selected_cost (W : World) (catalog : list pydict) : Z :=
  fold_right (fun item acc => (if is_selected item then cost_or_zero W item else 0) + acc)
    0 catalog.

(** Whether the recommendation names an entry of the catalog. *)
Definition is_recommended (W : World) (recommended_keys : json) (item : pydict) : bool :=
  match py_contains recommended_keys (py_str W (dict_get item "key" JNull)) with
  | inr b => b
  | inl _ => false
  end.

(** The marks of the greedy pass, in the words of the specification: with
    a budget that is not positive everything is selected; otherwise the
    recommended items are accepted in catalog order while
    [running_total + cost <= budget]. *)
Fixpoint greedy_marks (W : World) (budget : Z) (recommended_keys : json)
    (items : list pydict) (running_total : Z) : list bool :=
  match items with
  | [] => []
  | item :: rest =>
      if budget <=? 0
      then true :: greedy_marks W budget recommended_keys rest
                     (running_total + cost_or_zero W item)
      else if is_recommended W recommended_keys item
              && (running_total + cost_or_zero W item <=? budget)
      then true :: greedy_marks W budget recommended_keys rest
                     (running_total + cost_or_zero W item)
      else false :: greedy_marks W budget recommended_keys rest running_total
  end.

(** Values that support [in]: lists, dicts and strings. *)
Definition is_container (j : json) : bool :=
  match j with
  | JArr _ | JObj _ | JStr _ => true
  | _ => false
  end.

(** First fit in catalog order, in the words of the specification: an
    item is taken when its cost is at most the remaining budget, which is
    then decremented by that cost. *)
Fixpoint first_fit (W : World) (remaining : Z) (items : list pydict) : list pydict :=
  match items with
  | [] => []
  | d :: rest =>
      if cost_or_zero W d <=? remaining
      then d :: first_fit W (remaining - cost_or_zero W d) rest
      else first_fit W remaining rest
  end.

Definition total_cost (W : World) (items : list pydict) : Z :=
  fold_right (fun d acc => cost_or_zero W d + acc) 0 items.

Definition key_of (W : World) (d : pydict) : string :=
  py_str W (dict_get d "key" (JStr "")).

(** The total cost of the catalog entries that a list of keys names. *)
Definition cost_of_keys (W : World) (keys : list string) (items : list pydict) : Z :=
  total_cost W (filter (fun d => str_in (key_of W d) keys) items).

(** An entry whose key is present and whose cost [int] converts. *)
Definition has_key_and_cost (W : World) (d : pydict) : bool :=
  match dict_lookup "key" d, py_int W (dict_get d "cost" (JInt 0)) with
  | Some _, inr _ => true
  | _, _ => false
  end.

(** What a lookup by primary key raises when the endpoint finds no row:
    the endpoint's own error [e] for a key that SQLite can hold, the
    [OverflowError] of the driver for any other. *)
Definition lookup_failure (i : Z) (e : pyexc) : pyexc :=
  if sqlite_integer i then e else OverflowError.

(** A session computation that never commits. *)
Definition keeps_db {A} (m : M A) : Prop :=
  forall s, db (snd (m s)) = db s.

(** The database once the resolution of a step, and nothing else, is
    stored. *)
Definition store_resolution (W : World) (payload : WorkflowResolvePayload)
    (step : WorkflowStep) (d : Store) : Store :=
  txn (snd (update_step (mark_resolved W payload step) (open_session d))).

(** The marks of the first-fit pass: which items it takes. *)
Fixpoint first_fit_marks (W : World) (remaining : Z) (items : list pydict) : list bool :=
  match items with
  | [] => []
  | d :: rest =>
      if cost_or_zero W d <=? remaining
      then true :: first_fit_marks W (remaining - cost_or_zero W d) rest
      else false :: first_fit_marks W remaining rest
  end.

(* ===================================================================== *)
(** ** Vocabulary for the life of a workflow *)
(* ===================================================================== *)

(** A step the founder still has to act on. *)
Definition is_active (w : WorkflowStep) : bool := String.eqb (ws_status w) "active".

(** The active steps of a project. *)
Definition active_steps (l : list WorkflowStep) (pid : Z) : list WorkflowStep :=
  filter (fun w => (ws_project_id w =? pid) && is_active w) l.

(** [model.project_id == project_id] on a nullable column. *)
Definition opt_is (o : option Z) (pid : Z) : bool :=
  match o with
  | Some i => i =? pid
  | None => false
  end.

(** The rows of the database that do not belong to a project: the other
    projects with their steps, documents, tasks and deliverables, and the
    tasks of no project. *)
Definition outside (pid : Z) (d : Store) : Store :=
  {| projects := filter (fun p => negb (p_id p =? pid)) (projects d);
     steps := filter (fun w => negb (ws_project_id w =? pid)) (steps d);
     documents := filter (fun x => negb (doc_project_id x =? pid)) (documents d);
     tasks := filter (fun t => negb (opt_is (task_project_id t) pid)) (tasks d);
     deliverables := filter (fun x => negb (dl_project_id x =? pid)) (deliverables d) |}.

(** The primary key of the steps: no two rows with one id. *)
Definition unique_step_ids (l : list WorkflowStep) : Prop :=
  forall w1 w2, In w1 l -> In w2 l -> ws_id w1 = ws_id w2 -> w1 = w2.

(** Every primary key the database holds is a SQLite INTEGER. *)
Definition sqlite_rows (d : Store) : Prop :=
  (forall p, In p (projects d) -> sqlite_integer (p_id p) = true)
  /\ (forall w i, In w (steps d) -> ws_id w = Some i -> sqlite_integer i = true).


(** Whether an option carries the chosen key: [o["key"] == chosen]. *)
Definition key_is (chosen : string) (o : json) : bool :=
  match py_getitem o "key" with
  | inr k => py_eq_str k chosen
  | inl _ => false
  end.

(** The direction a resolution works with, in words: the first option
    whose key is the chosen one and, if there is none, the first option. *)
Definition pick_direction (chosen : string) (options : list json) (first : json) : json :=
  match find (key_is chosen) options with
  | Some o => o
  | None => first
  end.
(* ===================================================================== *)
(** ** Vocabulary for the comma-separated inputs *)
(* ===================================================================== *)

(** A text without a comma. *)
Fixpoint no_comma (s : string) : bool :=
  match s with
  | EmptyString => true
  | String c s' => negb (Ascii.eqb c ","%char) && no_comma s'
  end.

(** A text with no white space at either end: no white-space character
    starts it and none ends it. *)
Definition is_trimmed (s : string) : Prop :=
  forall w r, In w white_space -> s <> (w ++ r)%string /\ s <> (r ++ w)%string.

(** One entry of a comma-separated list, as [comma_list] returns them:
    not empty, trimmed, and without a comma. *)
Definition is_entry (s : string) : Prop :=
  s <> ""%string /\ is_trimmed s /\ no_comma s = true.

(** A text of white space only: white-space characters one after the
    other. *)
Inductive all_space : string -> Prop :=
| all_space_nil : all_space ""
| all_space_cons w s : In w white_space -> all_space s -> all_space (w ++ s).


(* ===================================================================== *)
(** ** The whole database, and the endpoints around the workflow
       ([src/shared/db.py], [src/dashboard_api/main.py]) *)
(* ===================================================================== *)

Module Studio.

(** The tables the workflow engine does not touch, with the columns the
    endpoints below read or write. *)
Record AgentLog := {
  log_project_id : Z;
  log_agent_name : string;
  log_message : string;
  log_severity : string;
}.

Record Risk := {
  risk_project_id : Z;
  risk_description : string;
  risk_severity : string;
  risk_status : string;
}.

Record Invoice := {
  inv_project_id : Z;
  inv_amount : pyfloat;
  inv_status : string;
}.

Record AgentRequest := {
  req_project_id : Z;
  req_target_agent : string;
  req_request : string;
  req_status : string;
}.

Record InterventionRequest := {
  ir_project_id : Z;
  ir_requesting_agent : string;
  ir_description : string;
  ir_status : string;
}.

Record CalendarEvent := {
  ev_title : string;
  ev_project_id : option Z;
}.

(** The database: the five tables of the workflow engine ([core]) and the
    six others. *)
Record Database := {
  core : Store;
  agent_logs : list AgentLog;
  risks : list Risk;
  invoices : list Invoice;
  agent_requests : list AgentRequest;
  interventions : list InterventionRequest;
  calendar : list CalendarEvent;
}.

Definition with_core (st : Store) (d : Database) : Database :=
  {| core := st; agent_logs := agent_logs d; risks := risks d; invoices := invoices d;
     agent_requests := agent_requests d; interventions := interventions d;
     calendar := calendar d |}.

(** A session on the whole database, as [Session] is one on its core. *)
Record WideSession := {
  wdb : Database;
  wtxn : Database;
}.

Definition open_wide (d : Database) : WideSession := {| wdb := d; wtxn := d |}.

Definition MW (A : Type) : Type := WideSession -> result A * WideSession.

Definition wret {A} (a : A) : MW A := fun s => (inr a, s).

Definition wbind {A B} (m : MW A) (k : A -> MW B) : MW B :=
  fun s =>
    match m s with
    | (inr a, s') => k a s'
    | (inl e, s') => (inl e, s')
    end.

Definition wthrow {A} (e : pyexc) : MW A := fun s => (inl e, s).

Definition wlift {A} (r : result A) : MW A := fun s => (r, s).

Definition on_wtxn (f : Database -> Database) : MW unit :=
  fun s => (inr tt, {| wdb := wdb s; wtxn := f (wtxn s) |}).

(** [session.commit()] *)
Definition wcommit : MW unit :=
  fun s => (inr tt, {| wdb := wtxn s; wtxn := wtxn s |}).

(** An operation of the engine's session that does not commit, run on the
    core tables of the open transaction. *)
Definition in_core {A} (m : M A) : MW A :=
  fun s =>
    let r := m {| db := core (wdb s); txn := core (wtxn s) |} in
    (fst r, {| wdb := wdb s; wtxn := with_core (txn (snd r)) (wtxn s) |}).

(** [session.add(AgentLog(...))] *)
Definition add_log (l : AgentLog) : MW unit :=
  on_wtxn (fun d =>
    {| core := core d; agent_logs := (agent_logs d ++ [l])%list; risks := risks d;
       invoices := invoices d; agent_requests := agent_requests d;
       interventions := interventions d; calendar := calendar d |}).

(** One request on the whole database. *)
Definition wrequest {A} (m : MW A) (d : Database) : result A * Database :=
  let r := m (open_wide d) in (fst r, wdb (snd r)).

End Studio.
Import Studio.

Declare Scope wide_scope.
Delimit Scope wide_scope with wide.
Bind Scope wide_scope with MW.
Notation "x <- c1 ;; c2" := (wbind c1 (fun x => c2))
  (at level 61, c1 at next level, right associativity) : wide_scope.
Notation "c1 ;; c2" := (wbind c1 (fun _ => c2))
  (at level 61, right associativity) : wide_scope.

Module Strings.

(** Letters, on ASCII text. *)
Definition is_upper (c : ascii) : bool :=
  let n := nat_of_ascii c in ((65 <=? n)%nat && (n <=? 90)%nat).

Definition is_lower (c : ascii) : bool :=
  let n := nat_of_ascii c in ((97 <=? n)%nat && (n <=? 122)%nat).

Definition to_upper (c : ascii) : ascii :=
  if is_lower c then ascii_of_nat (nat_of_ascii c - 32) else c.

Definition to_lower (c : ascii) : ascii :=
  if is_upper c then ascii_of_nat (nat_of_ascii c + 32) else c.

(** [s.replace(a, b)] for one-character [a] and [b]. *)
Fixpoint replace_char (a b : ascii) (s : string) : string :=
  match s with
  | EmptyString => EmptyString
  | String c s' => String (if Ascii.eqb c a then b else c) (replace_char a b s')
  end.

(** [s.title()]: a letter that follows a letter is lowered, any other
    letter is raised. *)
Fixpoint title_from (after_letter : bool) (s : string) : string :=
  match s with
  | EmptyString => EmptyString
  | String c s' =>
      if is_upper c || is_lower c
      then String (if after_letter then to_lower c else to_upper c) (title_from true s')
      else String c (title_from false s')
  end.

Definition str_title (s : string) : string := title_from false s.

End Strings.
Import Strings.

Module Endpoints.

(** [len(o)]; a text counts one per character. *)
Definition py_len (o : json) : result Z :=
  match o with
  | JArr l => ok (Z.of_nat (length l))
  | JObj d => ok (Z.of_nat (length d))
  | JStr s => ok (Z.of_nat (length (code_points s)))
  | _ => raise TypeError
  end.

Record RunStrategyResponse := {
  rs_status : string;
  rs_directions : json;
  rs_next_step : string;
}.

Record DeleteResponse := {
  del_status : string;
  del_project_id : Z;
}.

(** [project.client_brief or project.executive_summary or project.name] *)
Definition strategy_brief (project : Project) : string :=
  a_or_b (p_client_brief project) (str_or (p_executive_summary project) (p_name project)).

(** The body of the decision gate of [run_strategy] (line 572). *)
Definition exploratory_body (brief : string) : string :=
  "Based on the brief — " ++ dq ++ brief ++ dq ++
  " — I've analyzed the market positioning and competitive landscape. Here are 3 distinct strategic directions. Review the initial research documents in the 'Documents' tab, then choose the direction that best aligns with your vision.".

(** [WorkflowStep(step_type="decision_gate", title="Strategic Direction",
    ..., sort_order=1)] (lines 567-577) *)
Definition exploratory_step (project_id : Z) (brief : string) (directions : json)
  : WorkflowStep :=
  {| ws_id := None; ws_project_id := project_id;
     ws_step_type := "decision_gate"; ws_agent := "Strategist";
     ws_title := "Strategic Direction"; ws_body := exploratory_body brief;
     ws_options_json := directions; ws_chosen_option := None;
     ws_status := "active"; ws_phase := "strategy";
     ws_sort_order := 1; ws_resolved_at := None |}.

Definition phase1_tasks : list string :=
  ["Phase 1: Review Market Analysis"; "Phase 1: Select Strategic Direction"].

Section Endpoints.
Context (W : World).

(** [Document(project_id=..., name=doc_type.replace("_", " ").title(),
    category="Research", doc_type="html", content=...)] (lines 556-564) *)
Definition research_document (project_id : Z) (project : Project) (brief doc_type : string)
  : Document :=
  html_document project_id (str_title (replace_char "_" " " doc_type)) "Research"
    (generate_research_doc_content W doc_type (p_name project) brief "Exploratory Phase").

(** [for doc_type in [...]: session.add(Document(...))] *)
Fixpoint add_research_documents (project_id : Z) (project : Project) (brief : string)
    (doc_types : list string) : M unit :=
  match doc_types with
  | [] => ret tt
  | doc_type :: rest =>
      (add_document (research_document project_id project brief doc_type) ;;
       add_research_documents project_id project brief rest)%ses
  end.

(** [run_strategy] (main.py, lines 543-604) *)
Definition run_strategy (project_id : Z) : MW RunStrategyResponse :=
  (found <- in_core (get_project project_id) ;;
   match found with
   | None => wthrow (HTTPException 404 "Project not found")
   | Some project =>
       let brief := strategy_brief project in
       let directions := generate_strategic_directions_llm W (p_name project) brief in
       in_core (add_research_documents project_id project brief
                  ["market_landscape"; "competitor_analysis"]) ;;
       in_core (add_step (exploratory_step project_id brief directions)) ;;
       in_core (update_project (with_review_status "PENDING" project)) ;;
       in_core (add_tasks W project_id phase1_tasks 2) ;;
       n <- wlift (py_len directions) ;;
       add_log {| log_project_id := project_id; log_agent_name := "Strategist";
                  log_message := "Strategic analysis complete. " ++ str_of_Z n ++
                                 " directions proposed for review.";
                  log_severity := "INFO" |} ;;
       wcommit ;;
       wret {| rs_status := "ok"; rs_directions := directions;
               rs_next_step := "decision_gate" |}
   end)%wide.

End Endpoints.

(** [session.delete(item)] for every row of a table with
    [model.project_id == project_id], over the eight tables of the loop
    (lines 615-618).  The engine is created by [create_engine(sqlite_url)]
    alone (db.py, line 157), with no [PRAGMA foreign_keys]: SQLite then
    does not check the [foreign_key] of a column, and a row that refers to
    a project that is gone is stored like any other. *)
Definition delete_rows_of (project_id : Z) (d : Database) : Database :=
  {| core :=
       {| projects := projects (core d);
          steps := filter (fun w => negb (ws_project_id w =? project_id)) (steps (core d));
          documents := filter (fun x => negb (doc_project_id x =? project_id))
                         (documents (core d));
          tasks := filter (fun t => negb (opt_is (task_project_id t) project_id))
                     (tasks (core d));
          deliverables := filter (fun x => negb (dl_project_id x =? project_id))
                            (deliverables (core d)) |};
     agent_logs := filter (fun l => negb (log_project_id l =? project_id)) (agent_logs d);
     risks := filter (fun r => negb (risk_project_id r =? project_id)) (risks d);
     invoices := filter (fun i => negb (inv_project_id i =? project_id)) (invoices d);
     agent_requests := filter (fun r => negb (req_project_id r =? project_id))
                         (agent_requests d);
     interventions := interventions d;
     calendar := calendar d |}.

(** [session.delete(project)]: the row with the primary key of the loaded
    project goes. *)
Definition delete_project_row (project : Project) (d : Database) : Database :=
  with_core (set_projects (filter (fun p => negb (p_id p =? p_id project))) (core d)) d.

(** [delete_project] (main.py, lines 607-622) *)
Definition delete_project (project_id : Z) : MW DeleteResponse :=
  (found <- in_core (get_project project_id) ;;
   match found with
   | None => wthrow (HTTPException 404 "Project not found")
   | Some project =>
       on_wtxn (delete_rows_of project_id) ;;
       on_wtxn (delete_project_row project) ;;
       wcommit ;;
       wret {| del_status := "deleted"; del_project_id := project_id |}
   end)%wide.

End Endpoints.
Import Endpoints.

(* ===================================================================== *)
(** ** Vocabulary for the endpoints around the workflow *)
(* ===================================================================== *)

(** The directions [run_strategy] works with for a project. *)
Definition directions_of (W : World) (project : Project) : json :=
  generate_strategic_directions_llm W (p_name project) (strategy_brief project).

(** The log entry of [run_strategy] for [n] directions. *)
Definition strategy_log (project_id n : Z) : AgentLog :=
  {| log_project_id := project_id; log_agent_name := "Strategist";
     log_message := "Strategic analysis complete. " ++ str_of_Z n ++
                    " directions proposed for review.";
     log_severity := "INFO" |}.

(** The database after a run of [run_strategy] that found [project] and
    counted [n] directions. *)
Definition after_strategy (W : World) (project_id : Z) (project : Project) (n : Z)
    (d : Database) : Database :=
  {| core :=
       {| projects := map (fun p' => if p_id p' =? p_id project
                                     then with_review_status "PENDING" project else p')
                        (projects (core d));
          steps := insert_steps (steps (core d))
                     [exploratory_step project_id (strategy_brief project)
                        (directions_of W project)];
          documents :=
            documents (core d)
            ++ [html_document project_id "Market Landscape" "Research"
                  (generate_research_doc_content W "market_landscape" (p_name project)
                     (strategy_brief project) "Exploratory Phase");
                html_document project_id "Competitor Analysis" "Research"
                  (generate_research_doc_content W "competitor_analysis" (p_name project)
                     (strategy_brief project) "Exploratory Phase")];
          tasks := tasks (core d)
                   ++ [high_task W project_id "Phase 1: Review Market Analysis" 2;
                       high_task W project_id "Phase 1: Select Strategic Direction" 2];
          deliverables := deliverables (core d) |};
     agent_logs := agent_logs d ++ [strategy_log project_id n];
     risks := risks d; invoices := invoices d; agent_requests := agent_requests d;
     interventions := interventions d; calendar := calendar d |}.

(* ===================================================================== *)
(** ** The listing of a workflow ([get_workflow], main.py, lines 652-676) *)
(* ===================================================================== *)

From Stdlib Require Import Permutation.

Module Listing.

(** One entry of the listing.  [options] is [json.loads(s.options_json)]:
    the value that the column holds in this model.  The entry of the
    source has [created_at] too, a column that [WorkflowStep] leaves out
    here: no code of the engine reads it. *)
Record StepView := {
  sv_id : option Z;
  sv_step_type : string;
  sv_agent : string;
  sv_title : string;
  sv_body : string;
  sv_options : json;
  sv_chosen_option : option string;
  sv_status : string;
  sv_phase : string;
  sv_sort_order : Z;
  sv_resolved_at : option Z;
}.

Definition step_view (s : WorkflowStep) : StepView :=
  {| sv_id := ws_id s; sv_step_type := ws_step_type s; sv_agent := ws_agent s;
     sv_title := ws_title s; sv_body := ws_body s; sv_options := ws_options_json s;
     sv_chosen_option := ws_chosen_option s; sv_status := ws_status s;
     sv_phase := ws_phase s; sv_sort_order := ws_sort_order s;
     sv_resolved_at := ws_resolved_at s |}.

Section Listing.

(** [ORDER BY] of the database: SQL fixes the order of the rows up to the
    order of rows with equal keys, so the operation is a parameter. *)
Variable order_by : (WorkflowStep -> Z) -> list WorkflowStep -> list WorkflowStep.

(** [select(WorkflowStep).where(WorkflowStep.project_id == project_id)
      .order_by(WorkflowStep.sort_order)] *)
Definition steps_of (project_id : Z) (st : Store) : list WorkflowStep :=
  order_by ws_sort_order (filter (fun w => ws_project_id w =? project_id) (steps st)).

(** [get_workflow].  A [project_id] that is not a SQLite INTEGER cannot be
    bound to the query, which then raises [OverflowError]; no row has
    such a [project_id]. *)
Definition get_workflow (project_id : Z) : M (list StepView) :=
  fun s =>
    match steps_of project_id (txn s) with
    | [] => if sqlite_integer project_id then (inr [], s) else (inl OverflowError, s)
    | rows => (inr (map step_view rows), s)
    end.

End Listing.

(** What [ORDER BY] guarantees: the same rows, in ascending order of the
    key. *)
Definition orders (order_by : (WorkflowStep -> Z) -> list WorkflowStep -> list WorkflowStep)
  : Prop :=
  forall key l,
    Permutation (order_by key l) l
    /\ StronglySorted (fun a b => key a <= key b) (order_by key l).

(** An [ORDER BY] that keeps rows with equal keys in table order:
    insertion sort. *)
Fixpoint insert_by (key : WorkflowStep -> Z) (w : WorkflowStep) (l : list WorkflowStep)
  : list WorkflowStep :=
  match l with
  | [] => [w]
  | x :: rest => if key w <=? key x then w :: x :: rest else x :: insert_by key w rest
  end.

Definition stable_order_by (key : WorkflowStep -> Z) (l : list WorkflowStep)
  : list WorkflowStep :=
  fold_right (insert_by key) [] l.

End Listing.
Import Listing.

(* ===================================================================== *)
(** ** Cleaning the reply of the LLM ([_clean_json], [_clean_html],
       agent_intel.py, lines 15-23 and 214-223) *)
(* ===================================================================== *)

Module Fences.

(** [s[n:]] *)
Fixpoint drop (n : nat) (s : string) : string :=
  match n, s with
  | O, _ => s
  | S n', String _ s' => drop n' s'
  | S _, EmptyString => EmptyString
  end.

(** [s[:n]] *)
Fixpoint take (n : nat) (s : string) : string :=
  match n, s with
  | O, _ => EmptyString
  | S n', String c s' => String c (take n' s')
  | S _, EmptyString => EmptyString
  end.

(** [s.startswith(p)] *)
Definition startswith (p s : string) : bool := String.prefix p s.

(** [s.endswith(p)]: some tail of [s] is [p]. *)
Fixpoint endswith (p s : string) : bool :=
  String.eqb s p
  || match s with
     | EmptyString => false
     | String _ s' => endswith p s'
     end.

(** [s.replace(old, "", 1)] for a non-empty [old]: the leftmost
    occurrence goes. *)
Fixpoint remove_first (old s : string) : string :=
  if String.prefix old s then drop (String.length old) s
  else match s with
       | EmptyString => EmptyString
       | String c s' => String c (remove_first old s')
       end.

(** [s.removesuffix(p)] *)
Definition removesuffix (p s : string) : string :=
  if endswith p s then take (String.length s - String.length p) s else s.

Definition fence : string := "```".
Definition json_fence : string := "```json".
Definition html_fence : string := "```html".

(** [_clean_json]; [str(text)] is the text itself. *)
Definition _clean_json (text : string) : string :=
  let text := strip text in
  let text := if startswith json_fence text then remove_first json_fence text else text in
  let text := if endswith fence text then removesuffix fence text else text in
  strip text.

(** [_clean_html] *)
Definition _clean_html (text : string) : string :=
  let text := strip text in
  let text := if startswith html_fence text then remove_first html_fence text
              else if startswith fence text then remove_first fence text
              else text in
  let text := if endswith fence text then removesuffix fence text else text in
  strip text.

End Fences.
Import Fences.


(* ===================================================================== *)
(** ** Vocabulary for a whole run of the workflow *)
(* ===================================================================== *)

(** The project waits for the founder on exactly one step: the step with
    id [i], which has the given title. *)
Definition awaits (d : Store) (pid i : Z) (title : string) : Prop :=
  exists w,
    find (has_id i) (steps d) = Some w
    /\ ws_title w = title
    /\ active_steps (steps d) pid = [w].

(** The payloads of the four resolutions of a run. *)
Definition submit_brief (i : Z) (text : option string) : WorkflowResolvePayload :=
  {| step_id := i; action := "input"; chosen_option := None; input_text := text |}.

Definition choose_direction (i : Z) (choice : option string) : WorkflowResolvePayload :=
  {| step_id := i; action := "choose"; chosen_option := choice; input_text := None |}.

Definition approve_strategy (i : Z) : WorkflowResolvePayload :=
  {| step_id := i; action := "approve"; chosen_option := None; input_text := None |}.

Definition confirm_deliverables (i : Z) (keys customs : option string)
  : WorkflowResolvePayload :=
  {| step_id := i; action := "choose"; chosen_option := keys; input_text := customs |}.

(* ===================================================================== *)
(** ** The request for a research document
       ([generate_research_doc_content], agent_intel.py, lines 164-212) *)
(* ===================================================================== *)

Module Research.

(** Twelve spaces, the indentation of the prompts, and eight, the one of
    their last line. *)
Definition pad12 : string := "            ".
Definition pad8 : string := "        ".

(** The dictionary [prompts] (lines 171-195), in the order of the source. *)
Definition prompts (project_name brief strategy_context : string) : list (string * string) :=
  [("market_landscape",
    (nl ++ pad12 ++ "Analyze the market landscape for " ++ project_name ++ " (" ++ brief
       ++ "). " ++ nl ++
    pad12 ++ "Cover: Industry Trends, Market Shifts, and Opportunities." ++ nl ++
    pad12 ++ "Output as semantic HTML (no <html> definition, just body content: <h2>, <p>, <ul>)."
       ++ nl ++
    pad12 ++ "Keep it professional, insightful, and concise." ++ nl ++ pad8)%string);
   ("competitor_analysis",
    (nl ++ pad12 ++ "Analyze potential competitors for " ++ project_name ++ " (" ++ brief
       ++ ")." ++ nl ++
    pad12 ++ "Identify 3 archetypal competitors (Direct, Indirect, Aspirational)." ++ nl ++
    pad12 ++ "Output as semantic HTML (no <html> definition, just body content)." ++ nl
       ++ pad8)%string);
   ("target_audience",
    (nl ++ pad12 ++ "Create a Target Audience Profile for " ++ project_name ++ "." ++ nl ++
    pad12 ++ "Context: " ++ strategy_context ++ nl ++
    pad12 ++ "Cover: Demographics, Psychographics, Pain Points, and " ++ dq
       ++ "A Day in the Life" ++ dq ++ "." ++ nl ++
    pad12 ++ "Output as semantic HTML." ++ nl ++ pad8)%string);
   ("brand_positioning",
    (nl ++ pad12 ++ "Draft a Brand Positioning Report for " ++ project_name ++ "." ++ nl ++
    pad12 ++ "Strategy: " ++ strategy_context ++ nl ++
    pad12 ++ "Cover: The " ++ dq ++ "Why" ++ dq ++ ", The " ++ dq ++ "How" ++ dq
       ++ ", and The " ++ dq ++ "What" ++ dq ++ "." ++ nl ++
    pad12 ++ "Output as semantic HTML." ++ nl ++ pad8)%string)].

(** [prompts.get(doc_type, f"Write a {doc_type} for {project_name}")] *)
Definition requested_prompt (doc_type project_name brief strategy_context : string)
  : string :=
  match find (fun kv => String.eqb (fst kv) doc_type)
          (prompts project_name brief strategy_context) with
  | Some kv => snd kv
  | None => ("Write a " ++ doc_type ++ " for " ++ project_name)%string
  end.

(** The [contents] of the call to the model (line 204). *)
Definition research_request (doc_type project_name brief strategy_context : string)
  : string :=
  (requested_prompt doc_type project_name brief strategy_context ++ nl
   ++ "Return ONLY clean HTML tags.")%string.

(** The function itself; [client] is what the one call to the model
    answers to its [contents]: a text, or an exception with its message. *)
Definition generate_research_doc_content_with
    (client : option (string -> string + string))
    (doc_type project_name brief strategy_context : string) : string :=
  match client with
  | None => ("<p>LLM unavailable. Mock content for " ++ doc_type ++ " based on " ++ brief
             ++ "</p>")%string
  | Some generate_content =>
      match generate_content
              (research_request doc_type project_name brief strategy_context) with
      | inr text => _clean_html text
      | inl e => ("<p>Error generating content: " ++ e ++ "</p>")%string
      end
  end.

End Research.
Import Research.

(** The document types that have a prompt of their own. *)
Definition has_own_prompt (doc_type : string) : bool :=
  str_in doc_type ["market_landscape"; "competitor_analysis"; "target_audience";
                   "brand_positioning"]%string.

(* ===================================================================== *)
(** ** Vocabulary: the rows of the other projects, in the whole database *)
(* ===================================================================== *)

(** The rows of the whole database that do not belong to a project. *)
Definition wide_outside (pid : Z) (d : Database) : Database :=
  {| core := outside pid (core d);
     agent_logs := filter (fun l => negb (log_project_id l =? pid)) (agent_logs d);
     risks := filter (fun r => negb (risk_project_id r =? pid)) (risks d);
     invoices := filter (fun i => negb (inv_project_id i =? pid)) (invoices d);
     agent_requests := filter (fun r => negb (req_project_id r =? pid)) (agent_requests d);
     interventions := filter (fun r => negb (ir_project_id r =? pid)) (interventions d);
     calendar := filter (fun e => negb (opt_is (ev_project_id e) pid)) (calendar d) |}.

(* ===================================================================== *)
(** ** Categories ([_slug], [get_category_projects], main.py, lines 38-87) *)
(* ===================================================================== *)

Module Categories.

(** [s.lower()] on a text of ASCII characters: the capitals A to Z are
    lowered and nothing else changes.  (Python also lowers the cased
    letters outside ASCII; the properties below are about ASCII names.) *)
Fixpoint lower (s : string) : string :=
  match s with
  | EmptyString => EmptyString
  | String c s' => String (to_lower c) (lower s')
  end.

(** [s.replace(a, b)] for a character [a] and a text [b]. *)
Fixpoint replace_with (a : ascii) (b : string) (s : string) : string :=
  match s with
  | EmptyString => EmptyString
  | String c s' =>
      if Ascii.eqb c a then (b ++ replace_with a b s')%string
      else String c (replace_with a b s')
  end.

(** [name.lower().replace(" ", "-").replace("&", "and")] *)
Definition _slug (name : string) : string :=
  replace_with "&" "and" (replace_with " " "-" (lower name)).

(** The names of the default categories, the keys of [CATEGORY_ICONS]. *)
Definition default_categories : list string :=
  ["Brand Identity"; "Web Design"; "Packaging"; "Product Design"]%string.

Section Rows.

(** The rows of the table of projects and their column [category]. *)
Variable Row : Type.
Variable category : Row -> string.

(** [get_category_projects]: [projects] is the table. *)
Definition get_category_projects (slug : string) (projects : list Row)
  : result (list Row) :=
  let filtered := filter (fun p => String.eqb (_slug (category p)) slug) projects in
  if match filtered with [] => true | _ => false end
     && negb (str_in slug (map _slug default_categories))
  then raise (HTTPException 404 ("Category '" ++ slug ++ "' not found"))
  else ok filtered.

End Rows.

End Categories.
Import Categories.

(** A text in which no character satisfies [bad]. *)
Fixpoint free_of (bad : ascii -> bool) (s : string) : bool :=
  match s with
  | EmptyString => true
  | String c s' => negb (bad c) && free_of bad s'
  end.

(** A text of ASCII characters only: every byte is below 128. *)
Definition is_ascii (s : string) : bool :=
  free_of (fun c => (128 <=? nat_of_ascii c)%nat) s.

(** What a slug must not contain: a space, an ampersand, a capital. *)
Definition unsluggish (c : ascii) : bool :=
  Ascii.eqb c " "%char || Ascii.eqb c "&"%char || is_upper c.

(* ===================================================================== *)
(** ** More sample data *)
(* ===================================================================== *)

Module Cases.

(** A second project, with its own row in every table. *)
Definition neighbour : Project :=
  {| p_id := 2; p_name := "Taller Sur"; p_status := "Design";
     p_review_status := "APPROVED"; p_client_brief := "A ceramics studio";
     p_budget_cap := Finite 5000; p_executive_summary := None;
     p_strategic_tensions := None; p_design_principles := None;
     p_stage := "Design" |}.

Definition neighbour_step : WorkflowStep :=
  {| ws_id := Some 7; ws_project_id := 2; ws_step_type := "agent_output";
     ws_agent := "CFO"; ws_title := "Budget Allocation"; ws_body := "";
     ws_options_json := JArr []; ws_chosen_option := None;
     ws_status := "active"; ws_phase := "design"; ws_sort_order := 6;
     ws_resolved_at := None |}.

(** Two projects: the first awaits the review of its strategy. *)
Definition shared_db : Store :=
  {| projects := [Sample.project 3000; neighbour];
     steps := [neighbour_step; Sample.review_step];
     documents := [html_document 2 "Brand Strategy Document" "Strategy" "<p>...</p>"];
     tasks := [{| task_project_id := None; task_title := "Renew domain";
                  task_priority := "Normal"; task_status := "Todo";
                  task_due_date := 1700000000 |};
               {| task_project_id := Some 2; task_title := "Phase 2: Review Full Strategy";
                  task_priority := "High"; task_status := "Todo";
                  task_due_date := 1700000000 |}];
     deliverables := [agent_deliverable 2 "Logo & Identity System"] |}.

Definition reject : WorkflowResolvePayload := Sample.payload 3 "reject" None None.

Definition approve : WorkflowResolvePayload := Sample.payload 3 "approve" None None.

(** A "Strategic Direction" step with the three fallback directions, and
    a choice that names none of them. *)
Definition choose_unknown : WorkflowResolvePayload :=
  Sample.payload 2 "choose" (Some "Z"%string) None.

(** A bare approval of the selection: no chosen option, no input. *)
Definition bare_approval : WorkflowResolvePayload := Sample.payload 5 "approve" None None.

(** The whole database around the two projects: the first one has a log
    entry, a risk, an invoice, a request to an agent, an intervention
    request and a calendar event of its own. *)
Definition studio_db : Database :=
  {| core := shared_db;
     agent_logs := [{| log_project_id := 1; log_agent_name := "Strategist";
                       log_message := "Analyzing Brief"; log_severity := "INFO" |};
                    {| log_project_id := 2; log_agent_name := "CFO";
                       log_message := "Generating Quotation"; log_severity := "INFO" |}];
     risks := [{| risk_project_id := 1; risk_description := "Scope creep";
                  risk_severity := "High"; risk_status := "Active" |}];
     invoices := [{| inv_project_id := 1; inv_amount := Finite 1500;
                     inv_status := "Draft" |};
                  {| inv_project_id := 2; inv_amount := Finite 900;
                     inv_status := "Sent" |}];
     agent_requests := [{| req_project_id := 1; req_target_agent := "Designer";
                           req_request := "Moodboard"; req_status := "Pending" |}];
     interventions := [{| ir_project_id := 1; ir_requesting_agent := "CFO";
                          ir_description := "Budget overrun"; ir_status := "PENDING" |}];
     calendar := [{| ev_title := "Kick-off"; ev_project_id := Some 1 |};
                  {| ev_title := "Studio review"; ev_project_id := None |}] |}.

(** An LLM that answers with a bare number, and one that answers with an
    empty list. *)
Definition number_reply : World := Sample.world (LlmReturns (JInt 3)).

Definition empty_reply : World := Sample.world (LlmReturns (JArr [])).

End Cases.

(* ===================================================================== *)
(** ** Reasoning about results *)
(* ===================================================================== *)

Section ResultFacts.

(** A chain of fallible steps that returned went through each of them. *)
Lemma rbind_inv {A B} (r : result A) (k : A -> result B) b :
  rbind r k = inr b -> exists a, r = inr a /\ k a = inr b.
Proof.
  destruct r as [e | a]; simpl; intros H.
  - discriminate.
  - exists a. split; [reflexivity | exact H].
Qed.

End ResultFacts.

(* ===================================================================== *)
(** ** Lookups by primary key *)
(* ===================================================================== *)

Section Lookups.

Lemma get_step_found {B} i w (k : option WorkflowStep -> M B) s :
  find (has_id i) (steps (txn s)) = Some w ->
  bind (get_step i) k s = k (Some w) s.
Proof. intros H. unfold bind, get_step. rewrite H. reflexivity. Qed.

Lemma get_step_missing {B} i (k : option WorkflowStep -> M B) s :
  find (has_id i) (steps (txn s)) = None ->
  bind (get_step i) k s
  = if sqlite_integer i then k None s else (inl OverflowError, s).
Proof.
  intros H. unfold bind, get_step, no_row. rewrite H.
  destruct (sqlite_integer i); reflexivity.
Qed.

Lemma get_project_found {B} i p (k : option Project -> M B) s :
  find (fun q => p_id q =? i) (projects (txn s)) = Some p ->
  bind (get_project i) k s = k (Some p) s.
Proof. intros H. unfold bind, get_project. rewrite H. reflexivity. Qed.

Lemma get_project_missing {B} i (k : option Project -> M B) s :
  find (fun q => p_id q =? i) (projects (txn s)) = None ->
  bind (get_project i) k s
  = if sqlite_integer i then k None s else (inl OverflowError, s).
Proof.
  intros H. unfold bind, get_project, no_row. rewrite H.
  destruct (sqlite_integer i); reflexivity.
Qed.

End Lookups.

(* ===================================================================== *)
(** ** Seeding *)
(* ===================================================================== *)

Section Seeding.

Lemma find_app_none {A} (f : A -> bool) l x :
  find f l = None -> find f (l ++ [x]) = if f x then Some x else None.
Proof.
  induction l as [| y l IH]; simpl; intros H.
  - reflexivity.
  - destruct (f y); [discriminate | auto].
Qed.

Lemma filter_none {A} (f g : A -> bool) l :
  find f l = None -> (forall x, g x = true -> f x = true) -> filter g l = [].
Proof.
  induction l as [| y l IH]; simpl; intros Hf Hg.
  - reflexivity.
  - destruct (f y) eqn:Ef; [discriminate |].
    destruct (g y) eqn:Eg.
    + rewrite (Hg y Eg) in Ef. discriminate.
    + auto.
Qed.

(** C8. Seeding is idempotent.  For a project of the database: (1) when the
    project has no step, the call answers "seeded" and adds exactly one
    step, the active input_needed step "Project Brief" with sort order 0,
    and nothing else changes; (2) when the project has a step, the call
    answers "exists" and the database is unchanged; (3) hence, whatever the
    database was, a second call answers "exists" and changes nothing, and
    after two calls on a project without steps there is exactly one
    "Project Brief" step. *)
Theorem seed_workflow_idempotent (d : Store) (pid : Z) (p : Project)
    (Hp : project_row d pid = Some p) :
  (find (fun w => ws_project_id w =? pid) (steps d) = None ->
     exists w i,
       request (seed_workflow pid) d
         = (inr {| seed_status := "seeded"; seed_step_id := Some i |},
            set_steps (fun l => l ++ [w]) d)
       /\ ws_id w = Some i /\ ws_project_id w = pid
       /\ ws_step_type w = "input_needed" /\ ws_title w = "Project Brief"
       /\ ws_status w = "active" /\ ws_sort_order w = 0
       /\ brief_steps (snd (request (seed_workflow pid) d)) pid = [w])
  /\ (forall w, find (fun w => ws_project_id w =? pid) (steps d) = Some w ->
        request (seed_workflow pid) d
          = (inr {| seed_status := "exists"; seed_step_id := None |}, d))
  /\ (let d1 := snd (request (seed_workflow pid) d) in
      request (seed_workflow pid) d1
        = (inr {| seed_status := "exists"; seed_step_id := None |}, d1)).
Proof.
  assert (Hnew : find (fun w => ws_project_id w =? pid) (steps d) = None ->
           request (seed_workflow pid) d
           = (inr {| seed_status := "seeded";
                     seed_step_id := Some (next_step_id (steps d)) |},
              set_steps (fun l => l ++ [with_id (next_step_id (steps d))
                                          (project_brief_step pid p)]) d)).
  { intros Hn. unfold request, seed_workflow, bind, get_project, first_step_of,
      upcoming_step_id, add_step, commit, on_txn, ret, committed, open_session.
    unfold project_row in Hp. simpl. rewrite Hp. simpl. rewrite Hn. reflexivity. }
  assert (Hold : forall w, find (fun w => ws_project_id w =? pid) (steps d) = Some w ->
           request (seed_workflow pid) d
           = (inr {| seed_status := "exists"; seed_step_id := None |}, d)).
  { intros w Hw. unfold request, seed_workflow, bind, get_project, first_step_of,
      ret, committed, open_session.
    unfold project_row in Hp. simpl. rewrite Hp. simpl. rewrite Hw. reflexivity. }
  split; [| split].
  - intros Hn. eexists. exists (next_step_id (steps d)).
    rewrite (Hnew Hn). split; [reflexivity |].
    repeat (split; [reflexivity |]).
    unfold brief_steps, set_steps. simpl. rewrite filter_app. simpl.
    rewrite Z.eqb_refl. simpl.
    rewrite (filter_none (fun w => ws_project_id w =? pid) _ (steps d) Hn).
    + reflexivity.
    + intros x Hx. apply andb_true_iff in Hx. tauto.
  - exact Hold.
  - cbv zeta.
    destruct (find (fun w => ws_project_id w =? pid) (steps d)) as [w |] eqn:Hf.
    + rewrite (Hold w eq_refl). simpl. apply (Hold w eq_refl).
    + rewrite (Hnew eq_refl). simpl.
      unfold request, seed_workflow, bind, get_project, first_step_of,
        ret, committed, open_session.
      unfold project_row in Hp. simpl. rewrite Hp. simpl.
      rewrite (find_app_none _ _ _ Hf). simpl. rewrite Z.eqb_refl. reflexivity.
Qed.

End Seeding.

(* ===================================================================== *)
(** ** The transitions, one by one *)
(* ===================================================================== *)

(** Tactics for the session computations of the engine. *)

Ltac ext_done :=
  constructor; simpl; repeat rewrite <- app_assoc; simpl;
  try rewrite app_nil_r; reflexivity.

(** Runs the session operations that cannot fail. *)
Ltac run_in H :=
  cbv [bind lift ret throw add_step add_document add_task add_deliverable
       update_project on_txn add_tasks phase2_tasks] in H.

(** A step that can raise did not: names its value. *)
Tactic Notation "ok_in" hyp(H) "as" ident(x) :=
  match type of H with
  | context [match ?r with inl _ => _ | inr _ => _ end] =>
      let E := fresh "E" x in
      destruct r as [? | x] eqn:E; [discriminate H |]
  end.

Tactic Notation "run_ok_in" hyp(H) "as" ident(x) ident(s1) :=
  match type of H with
  | context [match ?m with pair _ _ => _ end] =>
      let E := fresh "E" x in
      destruct m as [[? | x] s1] eqn:E; [discriminate H |]
  end.

Ltac order_done :=
  repeat first [ apply Forall_nil | apply Forall_cons | apply SSorted_nil
               | apply SSorted_cons | (simpl; lia) ].

Section Transitions.
Context (W : World).

Arguments String.append : simpl never.

Lemma project_row_updated (st : Store) (p p1 : Project) :
  project_row st (p_id p) = Some p ->
  p_id p1 = p_id p ->
  find (fun q => p_id q =? p_id p)
    (map (fun p' => if p_id p' =? p_id p then p1 else p') (projects st)) = Some p1.
Proof.
  unfold project_row. intros H Hid.
  induction (projects st) as [| q l IH]; simpl in *.
  - discriminate.
  - destruct (p_id q =? p_id p) eqn:E.
    + simpl. rewrite Hid, Z.eqb_refl. reflexivity.
    + simpl. rewrite E. auto.
Qed.

Lemma on_project_brief_run max_order project payload s :
  exists s',
    on_project_brief W max_order project payload s
      = (inr [strategic_direction_step max_order project
                (brief_of project payload)
                (directions_for W (p_name project) (brief_of project payload))], s')
    /\ extends s s'
         [strategic_direction_step max_order project (brief_of project payload)
            (directions_for W (p_name project) (brief_of project payload))]
         [html_document (p_id project) "Market Landscape Analysis" "Strategy"
            (generate_research_doc_content W "market_landscape" (p_name project)
               (brief_of project payload) "");
          html_document (p_id project) "Competitive Analysis" "Strategy"
            (generate_research_doc_content W "competitor_analysis" (p_name project)
               (brief_of project payload) "")]
         [] []
    /\ projects (txn s')
       = if str_truthy (input_text payload)
         then map (fun p' => if p_id p' =? p_id project
                             then with_client_brief (str_or (input_text payload) "") project
                             else p')
                (projects (txn s))
         else projects (txn s).
Proof.
  unfold on_project_brief, brief_of.
  destruct (str_truthy (input_text payload)) eqn:Et.
  - eexists. split; [reflexivity |]. split; [ext_done | reflexivity].
  - eexists. split; [reflexivity |]. split; [ext_done | reflexivity].
Qed.
Lemma on_strategic_direction_inv max_order resolved_step project payload s created s' :
  on_strategic_direction W max_order resolved_step project payload s = (inr created, s') ->
  exists strategy_body summary description tensions principles title brief,
    let project' := with_strategy (py_str W title ++ ": " ++ py_str W description)%string
                      tensions principles project in
    created = [strategy_review_step max_order project strategy_body]
    /\ extends s s' created
         [html_document (p_id project) "Brand Positioning Report" "Strategy"
            (generate_research_doc_content W "brand_positioning" (p_name project) brief summary);
          html_document (p_id project) "Target Audience Profile" "Strategy"
            (generate_research_doc_content W "target_audience" (p_name project) brief summary)]
         (map (fun t => high_task W (p_id project) t 3) (phase2_tasks ++ phase2_tasks))
         []
    /\ projects (txn s')
       = map (fun p' => if p_id p' =? p_id project then project' else p') (projects (txn s)).
Proof.
  unfold on_strategic_direction. intros H.
  run_in H.
  ok_in H as chosen_dir. ok_in H as summary. ok_in H as body. ok_in H as project'.
  inversion H; subst; clear H.
  apply rbind_inv in Eproject'. destruct Eproject' as (title & _ & E).
  apply rbind_inv in E. destruct E as (description & _ & E).
  apply rbind_inv in E. destruct E as (tensions & _ & E).
  apply rbind_inv in E. destruct E as (principles & _ & E).
  inversion E; subst; clear E.
  exists body, summary, description, tensions, principles, title,
    (a_or_b (p_client_brief project) (p_name project)).
  cbv zeta. split; [reflexivity |]. split; [ext_done | reflexivity].
Qed.
Lemma on_strategy_review_reject_run max_order project payload s :
  String.eqb (action payload) "approve" || opt_eqb (chosen_option payload) "approve" = false ->
  exists s',
    on_strategy_review W max_order project payload s
      = (inr [strategy_revisions_step max_order project], s')
    /\ extends s s' [strategy_revisions_step max_order project] [] [] []
    /\ projects (txn s')
       = map (fun p' => if p_id p' =? p_id project
                        then with_review_status "REJECTED" project else p')
           (projects (txn s)).
Proof.
  intros Hc. unfold on_strategy_review. rewrite Hc.
  eexists. split; [reflexivity |]. split; [ext_done | reflexivity].
Qed.

Lemma on_strategy_review_approve_inv max_order project payload s created s' :
  String.eqb (action payload) "approve" || opt_eqb (chosen_option payload) "approve" = true ->
  on_strategy_review W max_order project payload s = (inr created, s') ->
  exists budget catalog' selected running_total,
    (if float_truthy (p_budget_cap project)
     then float_int (p_budget_cap project) else ok 0) = inr budget
    /\ select_loop W budget (recommended_keys_for W project budget catalog) catalog [] 0
       = inr (catalog', selected, running_total)
    /\ created = [strategy_milestone W max_order project;
                  deliverable_selection_step W max_order project budget running_total
                    catalog']
    /\ extends s s' created
         [html_document (p_id project) "Brand Strategy Document" "Strategy"
            (generate_research_doc_content W "brand_strategy_doc" (p_name project)
               (p_client_brief project) (str_or (p_executive_summary project) ""));
          html_document (p_id project) "Visual Direction Brief" "Design"
            (generate_research_doc_content W "visual_direction_brief" (p_name project)
               (p_client_brief project) (str_or (p_executive_summary project) ""))]
         [] []
    /\ projects (txn s')
       = map (fun p' => if p_id p' =? p_id project
                        then with_review_status
                               (if opt_eqb (chosen_option payload) "revise"
                                then "REJECTED" else "PENDING") project
                        else p')
           (projects (txn s)).
Proof.
  intros Hc. unfold on_strategy_review. rewrite Hc. intros H.
  run_in H.
  ok_in H as budget. ok_in H as r. destruct r as [[catalog' selected] running_total].
  inversion H; subst; clear H.
  exists budget, catalog', selected, running_total.
  split; [reflexivity |]. split; [assumption |]. split; [reflexivity |].
  split; [ext_done | reflexivity].
Qed.

Lemma deliverables_loop_inv pid chosen_keys catalog :
  forall total_cost created_titles s total_cost' created_titles' s',
  deliverables_loop W pid chosen_keys catalog total_cost created_titles s
    = (inr (total_cost', created_titles'), s') ->
  extends s s' [] [] []
    (map (fun item => agent_deliverable pid (item_title W item))
       (filter (item_chosen W chosen_keys) catalog))
  /\ projects (txn s') = projects (txn s).
Proof.
  induction catalog as [| item rest IH]; intros total_cost created_titles s tc' ct' s' H.
  - simpl in H. inversion H; subst. split; [ext_done | reflexivity].
  - simpl in H. run_in H.
    ok_in H as key.
    cbn [filter]. unfold item_chosen at 1. rewrite Ekey.
    destruct (str_in (py_str W key) chosen_keys).
    + ok_in H as title. ok_in H as item_cost.
      apply IH in H. destruct H as [He Hp]. simpl in Hp.
      split; [| exact Hp].
      destruct He as [H1 H2 H3 H4 H5]. simpl in *.
      constructor; simpl; try assumption.
      rewrite H5. rewrite <- app_assoc. simpl.
      unfold item_title. rewrite Etitle. reflexivity.
    + apply IH in H. exact H.
Qed.

Lemma custom_loop_run pid customs :
  forall created_titles s,
  exists s',
    custom_loop pid customs created_titles s
      = (inr (created_titles ++ map (fun c => (c ++ " (custom)")%string) customs), s')
    /\ extends s s' [] [] [] (map (founder_deliverable pid) customs)
    /\ projects (txn s') = projects (txn s).
Proof.
  induction customs as [| c rest IH]; intros created_titles s.
  - eexists. simpl. rewrite app_nil_r. split; [reflexivity |].
    split; [ext_done | reflexivity].
  - simpl. cbv [bind add_deliverable on_txn].
    destruct (IH (created_titles ++ [(c ++ " (custom)")%string])
                {| db := db s;
                   txn := set_deliverables (fun l => l ++ [founder_deliverable pid c])
                            (txn s) |}) as (s' & Hr & He & Hp).
    exists s'. rewrite Hr. rewrite <- app_assoc. split; [reflexivity |].
    split; [| exact Hp].
    destruct He as [H1 H2 H3 H4 H5]. simpl in *.
    constructor; simpl; try assumption.
    rewrite H5. rewrite <- app_assoc. reflexivity.
Qed.

Lemma on_deliverable_selection_inv max_order resolved_step project payload s created s' :
  on_deliverable_selection W max_order resolved_step project payload s
    = (inr created, s') ->
  exists catalog total_cost created_titles,
    py_iter (ws_options_json resolved_step) = inr catalog
    /\ created = [deliverables_milestone W max_order project created_titles;
                  budget_allocation_step W max_order project total_cost created_titles]
    /\ extends s s' created [] []
         (map (fun item => agent_deliverable (p_id project) (item_title W item))
            (filter (item_chosen W
                       (parse_chosen_keys W (str_or (chosen_option payload) "")))
               catalog)
          ++ map (founder_deliverable (p_id project))
               (comma_list (str_or (input_text payload) "")))
    /\ projects (txn s')
       = map (fun p' => if p_id p' =? p_id project
                        then with_stage_status "Design" "Design"
                               (with_review_status "APPROVED" project)
                        else p')
           (projects (txn s)).
Proof.
  unfold on_deliverable_selection. intros H.
  run_in H. ok_in H as catalog.
  run_ok_in H as r s1. destruct r as [total_cost created_titles].
  apply deliverables_loop_inv in Er. destruct Er as [He Hp].
  assert (Hc : exists s2 titles,
             (if negb (String.eqb (str_or (input_text payload) "") "")
              then custom_loop (p_id (with_review_status "APPROVED" project))
                     (comma_list (str_or (input_text payload) "")) created_titles
              else fun s => (inr created_titles, s)) s1 = (inr titles, s2)
             /\ extends s1 s2 [] [] []
                  (map (founder_deliverable (p_id project))
                     (comma_list (str_or (input_text payload) "")))
             /\ projects (txn s2) = projects (txn s1)).
  { destruct (String.eqb (str_or (input_text payload) "") "") eqn:Ei; simpl.
    - apply String.eqb_eq in Ei. rewrite Ei. exists s1, created_titles.
      split; [reflexivity |]. split; [ext_done | reflexivity].
    - destruct (custom_loop_run (p_id project)
                  (comma_list (str_or (input_text payload) "")) created_titles s1)
        as (s2 & Hr & He2 & Hp2).
      exists s2. eexists. split; [exact Hr |]. split; assumption. }
  destruct Hc as (s2 & titles & Hr & He2 & Hp2).
  rewrite Hr in H. inversion H; subst; clear H.
  exists catalog, total_cost, titles.
  split; [reflexivity |]. split; [reflexivity |].
  destruct He as [A1 A2 A3 A4 A5]. destruct He2 as [B1 B2 B3 B4 B5].
  simpl in *. split.
  - constructor; simpl.
    + congruence.
    + rewrite B2, A2. reflexivity.
    + rewrite B3, A3. rewrite !app_nil_r. reflexivity.
    + rewrite B4, A4. rewrite !app_nil_r. reflexivity.
    + rewrite B5, A5. rewrite <- app_assoc. reflexivity.
  - rewrite Hp2, Hp. rewrite map_map. apply map_ext. intros p'.
    destruct (p_id p' =? p_id project) eqn:Eid; simpl.
    + rewrite Z.eqb_refl. reflexivity.
    + rewrite Eid. reflexivity.
Qed.

(** *** When the transitions complete *)

Lemma is_direction_inv o :
  is_direction o = true ->
  exists d k t ds, o = JObj d /\ dict_lookup "key" d = Some k
    /\ dict_lookup "title" d = Some t /\ dict_lookup "description" d = Some ds.
Proof.
  destruct o as [| | | | | d]; try discriminate. simpl.
  destruct (dict_lookup "key" d) as [k |] eqn:Ek; [| discriminate].
  destruct (dict_lookup "title" d) as [t |] eqn:Et; [| discriminate].
  destruct (dict_lookup "description" d) as [ds |] eqn:Ed; [| discriminate].
  intros _. exists d, k, t, ds. repeat split; assumption.
Qed.

Lemma first_with_key_direction chosen elements :
  forall default,
  forallb is_direction elements = true -> is_direction default = true ->
  exists d, first_with_key chosen elements default = inr d /\ is_direction d = true.
Proof.
  induction elements as [| o rest IH]; intros default Hall Hd; simpl.
  - exists default. split; [reflexivity | exact Hd].
  - simpl in Hall. apply andb_true_iff in Hall. destruct Hall as [Ho Hrest].
    destruct (is_direction_inv o Ho) as (d & k & t & ds & -> & Hk & _).
    simpl. unfold dict_getitem. rewrite Hk. simpl.
    destruct (py_eq_str k chosen).
    + exists (JObj d). split; [reflexivity | exact Ho].
    + apply IH; assumption.
Qed.

Lemma on_strategic_direction_total max_order resolved_step project payload s :
  wf_directions (ws_options_json resolved_step) = true ->
  (forall j, llm W <> LlmReturns j) ->
  exists created s',
    on_strategic_direction W max_order resolved_step project payload s
      = (inr created, s').
Proof.
  intros Hwf Hllm. unfold on_strategic_direction.
  destruct (ws_options_json resolved_step) as [| | | | [| o rest] |]; try discriminate.
  unfold wf_directions in Hwf.
  assert (Ho : is_direction o = true).
  { simpl in Hwf. apply andb_true_iff in Hwf. tauto. }
  destruct (first_with_key_direction (str_or (chosen_option payload) "A")
              (o :: rest) o Hwf Ho) as (dir & Hdir & Hd).
  destruct (is_direction_inv dir Hd) as (d & k & t & ds & -> & Hk & Ht & Hds).
  assert (Hs : strategy_for W (p_name project)
                 (a_or_b (p_client_brief project) (p_name project)) (JObj d)
               = _fallback_strategy (p_name project) (JObj d)).
  { unfold strategy_for, BrandStrategist_run, expand_strategy_llm. simpl.
    unfold dict_getitem. rewrite Ht, Hds.
    destruct (llm W) as [| | j] eqn:El; try reflexivity.
    exfalso. apply (Hllm j). reflexivity. }
  cbv [bind lift]. simpl py_iter. simpl py_index0. cbv [rbind ok].
  rewrite Hdir. rewrite Hs.
  simpl. unfold dict_getitem. rewrite Ht, Hds. simpl.
  eexists. eexists. reflexivity.
Qed.
Lemma deliverables_loop_total pid chosen_keys catalog :
  forallb (is_catalog_entry W) catalog = true ->
  forall total_cost created_titles s,
  exists r s',
    deliverables_loop W pid chosen_keys catalog total_cost created_titles s = (inr r, s').
Proof.
  induction catalog as [| item rest IH]; intros Hall total_cost created_titles s.
  - simpl. eexists. eexists. reflexivity.
  - simpl in Hall. apply andb_true_iff in Hall. destruct Hall as [Hi Hrest].
    destruct item as [| | | | | d]; try discriminate. simpl in Hi.
    destruct (dict_lookup "title" d) as [t |] eqn:Et; [| discriminate].
    destruct (py_int W (dict_get d "cost" (JInt 0))) as [e | c] eqn:Ec; [discriminate |].
    simpl. cbv [bind lift add_deliverable on_txn]. simpl.
    destruct (str_in (py_str W (dict_get d "key" (JStr ""))) chosen_keys).
    + unfold dict_getitem. rewrite Et. simpl. rewrite Ec. apply IH. exact Hrest.
    + apply IH. exact Hrest.
Qed.

Lemma on_deliverable_selection_total max_order resolved_step project payload s items :
  ws_options_json resolved_step = JArr items ->
  forallb (is_catalog_entry W) items = true ->
  exists created s',
    on_deliverable_selection W max_order resolved_step project payload s
      = (inr created, s').
Proof.
  intros Ho Hall. unfold on_deliverable_selection. rewrite Ho.
  cbv [bind lift update_project on_txn]. simpl py_iter. cbv [ok].
  match goal with
  | |- context [deliverables_loop W ?pid ?keys items ?t ?c ?s0] =>
      destruct (deliverables_loop_total pid keys items Hall t c s0) as ([tc ct] & s1 & Hr)
  end.
  rewrite Hr.
  destruct (negb (String.eqb (str_or (input_text payload) "") "")).
  - match goal with
    | |- context [custom_loop ?pid ?cs ct s1] =>
        destruct (custom_loop_run pid cs ct s1) as (s2 & Hc & _)
    end.
    rewrite Hc. eexists. eexists. reflexivity.
  - eexists. eexists. reflexivity.
Qed.
End Transitions.

(* ===================================================================== *)
(** ** The selection loop *)
(* ===================================================================== *)

Section Selection.
Context (W : World).

Arguments String.append : simpl never.

Lemma dict_lookup_set_same k v d : dict_lookup k (dict_set k v d) = Some v.
Proof.
  induction d as [| [k' v'] d IH]; simpl.
  - rewrite String.eqb_refl. reflexivity.
  - destruct (String.eqb k k') eqn:E; simpl; rewrite E; [reflexivity | exact IH].
Qed.

Lemma dict_lookup_set_other k k0 v d :
  String.eqb k0 k = false -> dict_lookup k0 (dict_set k v d) = dict_lookup k0 d.
Proof.
  intros Hne. induction d as [| [k' v'] d IH]; simpl.
  - rewrite Hne. reflexivity.
  - destruct (String.eqb k k') eqn:E; simpl.
    + apply String.eqb_eq in E. subst k'. rewrite Hne. reflexivity.
    + destruct (String.eqb k0 k'); [reflexivity | exact IH].
Qed.

Lemma marked_selected b item :
  is_selected (dict_set "selected" (JBool b) item) = b.
Proof. unfold is_selected, dict_get. rewrite dict_lookup_set_same. reflexivity. Qed.

Lemma marked_cost b item :
  cost_or_zero W (dict_set "selected" (JBool b) item) = cost_or_zero W item.
Proof.
  unfold cost_or_zero, dict_get.
  rewrite dict_lookup_set_other; reflexivity.
Qed.

Lemma select_loop_spec budget recommended_keys catalog0 :
  forall selected running_total catalog' selected' total,
  select_loop W budget recommended_keys catalog0 selected running_total
    = inr (catalog', selected', total) ->
  total = running_total + selected_cost W catalog'
  /\ (0 < budget -> running_total <= budget -> total <= budget)
  /\ (budget <= 0 -> Forall (fun item => is_selected item = true) catalog')
  /\ length catalog' = length catalog0
  /\ map is_selected catalog'
     = greedy_marks W budget recommended_keys catalog0 running_total.
Proof.
  induction catalog0 as [| item rest IH];
    intros selected running_total catalog' selected' total H.
  - simpl in H. inversion H; subst. simpl.
    repeat split; try lia; constructor.
  - simpl in H.
    apply rbind_inv in H. destruct H as (cost & Hcost & H).
    apply rbind_inv in H. destruct H as (named & Hrec & H).
    destruct ((budget <=? 0)
              || (named && (running_total + cost <=? budget))) eqn:Hsel.
    + apply rbind_inv in H. destruct H as (title & _ & H).
      apply rbind_inv in H. destruct H as ([[rest' sel1] tot1] & Hrest & H).
      inversion H; subst; clear H.
      apply IH in Hrest. destruct Hrest as (Htot & Hle & Hall & Hlen & Hmarks).
      assert (Hc : cost_or_zero W item = cost).
      { unfold cost_or_zero. rewrite Hcost. reflexivity. }
      simpl. rewrite marked_selected, marked_cost, Hc.
      split; [lia |]. split; [| split; [| split]].
      * intros Hpos Hrun. apply Hle; [exact Hpos |].
        apply orb_true_iff in Hsel. destruct Hsel as [Hb | Hb].
        -- apply Z.leb_le in Hb. lia.
        -- apply andb_true_iff in Hb. destruct Hb as [_ Hb].
           apply Z.leb_le in Hb. exact Hb.
      * intros Hb. constructor; [apply marked_selected | apply Hall; exact Hb].
      * rewrite Hlen. reflexivity.
      * unfold is_recommended. rewrite Hrec.
        destruct (budget <=? 0); simpl in Hsel; [| rewrite Hsel];
          rewrite Hmarks; reflexivity.
    + apply rbind_inv in H. destruct H as ([[rest' sel1] tot1] & Hrest & H).
      inversion H; subst; clear H.
      apply IH in Hrest. destruct Hrest as (Htot & Hle & Hall & Hlen & Hmarks).
      assert (Hc : cost_or_zero W item = cost).
      { unfold cost_or_zero. rewrite Hcost. reflexivity. }
      simpl. rewrite marked_selected, Hc.
      split; [lia |]. split; [| split; [| split]].
      * exact Hle.
      * intros Hb. apply orb_false_iff in Hsel. destruct Hsel as [Hsel _].
        apply Z.leb_gt in Hsel. lia.
      * rewrite Hlen. reflexivity.
      * unfold is_recommended. rewrite Hrec.
        apply orb_false_iff in Hsel. destruct Hsel as [Hb Hsel].
        rewrite Hb, Hsel, Hmarks. reflexivity.
Qed.

Lemma select_loop_total budget recommended_keys catalog0 :
  is_container recommended_keys = true ->
  forallb (fun item => is_catalog_entry W (JObj item)) catalog0 = true ->
  forall selected running_total,
  exists r, select_loop W budget recommended_keys catalog0 selected running_total = inr r.
Proof.
  intros Hc. induction catalog0 as [| item rest IH]; intros Hall selected running_total.
  - simpl. eexists. reflexivity.
  - simpl in Hall. apply andb_true_iff in Hall. destruct Hall as [Hi Hrest].
    destruct (dict_lookup "title" item) as [t |] eqn:Et; [| discriminate].
    destruct (py_int W (dict_get item "cost" (JInt 0))) as [e | c] eqn:Ec; [discriminate |].
    assert (Hin : exists b, py_contains recommended_keys
                              (py_str W (dict_get item "key" JNull)) = inr b).
    { destruct recommended_keys; try discriminate; simpl; eexists; reflexivity. }
    destruct Hin as (b & Hin).
    simpl. rewrite Ec, Hin. simpl.
    destruct ((budget <=? 0) || (b && (running_total + c <=? budget))).
    + unfold dict_getitem. rewrite dict_lookup_set_other by reflexivity.
      rewrite Et. simpl.
      destruct (IH Hrest (selected ++ [py_str W t]) (running_total + c))
        as ([[r1 r2] r3] & Hr).
      rewrite Hr. simpl. eexists. reflexivity.
    + destruct (IH Hrest selected running_total) as ([[r1 r2] r3] & Hr).
      rewrite Hr. simpl. eexists. reflexivity.
Qed.

Lemma marked_entry b item :
  is_catalog_entry W (JObj (dict_set "selected" (JBool b) item))
  = is_catalog_entry W (JObj item).
Proof.
  unfold is_catalog_entry, dict_get.
  rewrite !dict_lookup_set_other by reflexivity. reflexivity.
Qed.

Lemma select_loop_entries budget recommended_keys catalog0 :
  forallb (fun item => is_catalog_entry W (JObj item)) catalog0 = true ->
  forall selected running_total catalog' selected' total,
  select_loop W budget recommended_keys catalog0 selected running_total
    = inr (catalog', selected', total) ->
  forallb (is_catalog_entry W) (map JObj catalog') = true.
Proof.
  induction catalog0 as [| item rest IH];
    intros Hall selected running_total catalog' selected' total H.
  - simpl in H. inversion H; subst. reflexivity.
  - cbn [forallb] in Hall. apply andb_true_iff in Hall. destruct Hall as [Hi Hrest].
    simpl in H.
    apply rbind_inv in H. destruct H as (cost & _ & H).
    apply rbind_inv in H. destruct H as (named & _ & H).
    destruct ((budget <=? 0) || (named && (running_total + cost <=? budget))).
    + apply rbind_inv in H. destruct H as (title & _ & H).
      apply rbind_inv in H. destruct H as ([[rest' sel1] tot1] & Hr & H).
      inversion H; subst; clear H. cbn [map forallb].
      rewrite marked_entry, Hi. cbn [andb]. eapply IH; eassumption.
    + apply rbind_inv in H. destruct H as ([[rest' sel1] tot1] & Hr & H).
      inversion H; subst; clear H. cbn [map forallb].
      rewrite marked_entry, Hi. cbn [andb]. eapply IH; eassumption.
Qed.

Lemma catalog_entries_wf :
  forallb (fun item => is_catalog_entry W (JObj item)) catalog = true.
Proof. reflexivity. Qed.

Lemma recommended_keys_container project budget cat :
  (forall j, llm W = LlmReturns j -> is_container j = true) ->
  is_container (recommended_keys_for W project budget cat) = true.
Proof.
  intros Hj. unfold recommended_keys_for, DirectorAgent_run, recommend_deliverables_llm.
  simpl.
  destruct (llm W) as [| | j] eqn:El.
  - destruct (simple_fit W budget cat); reflexivity.
  - destruct (catalog_entries cat); reflexivity.
  - destruct (catalog_entries cat); simpl; [reflexivity |].
    apply Hj. reflexivity.
Qed.

(** Every entry the loop returns is the entry of the catalog at the same
    place with the mark "selected" added; with a positive budget only
    recommended entries are marked selected. *)
Lemma select_loop_marks budget recommended_keys catalog0 :
  forall selected running_total catalog' selected' total,
  select_loop W budget recommended_keys catalog0 selected running_total
    = inr (catalog', selected', total) ->
  Forall2 (fun item item' =>
             item' = dict_set "selected" (JBool (is_selected item')) item
             /\ (0 < budget -> is_selected item' = true ->
                 is_recommended W recommended_keys item = true))
    catalog0 catalog'.
Proof.
  induction catalog0 as [| item rest IH];
    intros selected running_total catalog' selected' total H.
  - simpl in H. inversion H; subst. constructor.
  - simpl in H.
    apply rbind_inv in H. destruct H as (cost & Hcost & H).
    apply rbind_inv in H. destruct H as (named & Hrec & H).
    destruct ((budget <=? 0) || (named && (running_total + cost <=? budget))) eqn:Hsel.
    + apply rbind_inv in H. destruct H as (title & _ & H).
      apply rbind_inv in H. destruct H as ([[rest' sel1] tot1] & Hrest & H).
      inversion H; subst; clear H.
      constructor; [| eapply IH; exact Hrest].
      rewrite marked_selected. split; [reflexivity |].
      intros Hpos _. unfold is_recommended. rewrite Hrec.
      apply orb_true_iff in Hsel. destruct Hsel as [Hb | Hb].
      * apply Z.leb_le in Hb. lia.
      * apply andb_true_iff in Hb. tauto.
    + apply rbind_inv in H. destruct H as ([[rest' sel1] tot1] & Hrest & H).
      inversion H; subst; clear H.
      constructor; [| eapply IH; exact Hrest].
      rewrite marked_selected. split; [reflexivity |].
      intros _ Hs. discriminate Hs.
Qed.

Lemma on_strategy_review_approve_total max_order project payload s q :
  String.eqb (action payload) "approve" || opt_eqb (chosen_option payload) "approve" = true ->
  p_budget_cap project = Finite q ->
  (forall j, llm W = LlmReturns j -> is_container j = true) ->
  exists created s',
    on_strategy_review W max_order project payload s = (inr created, s').
Proof.
  intros Hc Hq Hj. unfold on_strategy_review. rewrite Hc, Hq.
  cbv [bind lift add_step add_document on_txn update_project ret].
  assert (Hb : exists budget,
             (if float_truthy (Finite q) then float_int (Finite q) else ok 0)
             = inr budget).
  { destruct (float_truthy (Finite q)); eexists; reflexivity. }
  destruct Hb as (budget & Hb). rewrite Hb.
  destruct (select_loop_total budget (recommended_keys_for W project budget catalog)
              catalog (recommended_keys_container project budget catalog Hj)
              catalog_entries_wf [] 0) as ([[c1 c2] c3] & Hr).
  rewrite Hr. eexists. eexists. reflexivity.
Qed.

End Selection.

(* ===================================================================== *)
(** ** The fallback of the recommender *)
(* ===================================================================== *)

Section Fallback.
Context (W : World).

Arguments String.append : simpl never.

Lemma fallback_loop_first_fit items :
  forall selected r_val,
  fallback_loop W items selected r_val
  = selected ++ map (key_of W) (first_fit W r_val items).
Proof.
  induction items as [| d rest IH]; intros selected r_val; simpl.
  - rewrite app_nil_r. reflexivity.
  - destruct (cost_or_zero W d <=? r_val).
    + rewrite IH. rewrite <- app_assoc. reflexivity.
    + apply IH.
Qed.

Lemma first_fit_within items :
  forall remaining, 0 <= remaining -> total_cost W (first_fit W remaining items) <= remaining.
Proof.
  induction items as [| d rest IH]; intros remaining Hr; simpl.
  - exact Hr.
  - destruct (cost_or_zero W d <=? remaining) eqn:E.
    + apply Z.leb_le in E. simpl.
      specialize (IH (remaining - cost_or_zero W d)). lia.
    + apply IH. exact Hr.
Qed.

Lemma simple_fit_filter budget items :
  forallb (has_key_and_cost W) items = true ->
  simple_fit W budget items
  = inr (map (key_of W) (filter (fun d => cost_or_zero W d <=? budget) items)).
Proof.
  induction items as [| d rest IH]; intros Hall; simpl.
  - reflexivity.
  - simpl in Hall. apply andb_true_iff in Hall. destruct Hall as [Hd Hrest].
    unfold has_key_and_cost in Hd.
    destruct (dict_lookup "key" d) as [k |] eqn:Ek; [| discriminate].
    destruct (py_int W (dict_get d "cost" (JInt 0))) as [e | c] eqn:Ec; [discriminate |].
    unfold cost_or_zero. rewrite Ec. simpl.
    destruct (c <=? budget).
    + unfold dict_getitem. rewrite Ek. simpl. rewrite (IH Hrest). simpl.
      unfold key_of, dict_get. rewrite Ek. reflexivity.
    + apply IH. exact Hrest.
Qed.
End Fallback.

(* ===================================================================== *)
(** ** The greedy pass over a fallback recommendation *)
(* ===================================================================== *)

Section EngineSelection.
Context (W : World).

Lemma greedy_marks_first_fit budget recommended_keys items :
  0 < budget ->
  forall running_total,
  (forall d, In d (first_fit W (budget - running_total) items) ->
             is_recommended W recommended_keys d = true) ->
  greedy_marks W budget recommended_keys items running_total
  = first_fit_marks W (budget - running_total) items.
Proof.
  intros Hb. induction items as [| d rest IH]; intros running_total Hrec; simpl.
  - reflexivity.
  - assert (Hneg : (budget <=? 0) = false) by (apply Z.leb_gt; exact Hb).
    rewrite Hneg. simpl in Hrec.
    assert (Hsame : (running_total + cost_or_zero W d <=? budget)
                    = (cost_or_zero W d <=? budget - running_total)).
    { destruct (Z.leb_spec (cost_or_zero W d) (budget - running_total));
        [apply Z.leb_le | apply Z.leb_gt]; lia. }
    rewrite Hsame.
    destruct (cost_or_zero W d <=? budget - running_total) eqn:Efit.
    + rewrite (Hrec d (or_introl eq_refl)). simpl.
      replace (budget - running_total - cost_or_zero W d)
        with (budget - (running_total + cost_or_zero W d)) by lia.
      rewrite IH; [reflexivity |].
      intros d' Hin. apply Hrec. right.
      replace (budget - running_total - cost_or_zero W d)
        with (budget - (running_total + cost_or_zero W d)) by lia.
      exact Hin.
    + rewrite andb_false_r. rewrite IH; [reflexivity | exact Hrec].
Qed.

Lemma first_fit_incl remaining items :
  forall d, In d (first_fit W remaining items) -> In d items.
Proof.
  revert remaining. induction items as [| x rest IH]; intros remaining d; simpl.
  - tauto.
  - destruct (cost_or_zero W x <=? remaining); simpl.
    + intros [-> | Hin]; [left; reflexivity | right; eapply IH; exact Hin].
    + intros Hin. right. eapply IH. exact Hin.
Qed.

Lemma first_fit_affordable remaining items :
  Forall (fun d => 0 <= cost_or_zero W d) items ->
  forall d, In d (first_fit W remaining items) -> cost_or_zero W d <= remaining.
Proof.
  intros Hpos. revert remaining.
  induction Hpos as [| x rest Hx Hrest IH]; intros remaining d; simpl.
  - tauto.
  - destruct (cost_or_zero W x <=? remaining) eqn:E; simpl.
    + apply Z.leb_le in E. intros [-> | Hin]; [exact E |].
      specialize (IH _ _ Hin). lia.
    + apply IH.
Qed.

Lemma str_in_map {A} (f : A -> string) (x : A) (l : list A) :
  In x l -> str_in (f x) (map f l) = true.
Proof.
  intros Hin. unfold str_in. apply existsb_exists. exists (f x).
  split; [apply in_map; exact Hin | apply String.eqb_refl].
Qed.

Lemma is_recommended_keys keys d k :
  dict_lookup "key" d = Some k ->
  is_recommended W (JArr (map JStr keys)) d = str_in (key_of W d) keys.
Proof.
  intros Hk. unfold is_recommended, key_of, dict_get. rewrite Hk. simpl.
  unfold str_in. induction keys as [| x rest IH]; simpl.
  - reflexivity.
  - rewrite IH. rewrite (String.eqb_sym x). reflexivity.
Qed.

Lemma has_key_inv d :
  has_key_and_cost W d = true -> exists k, dict_lookup "key" d = Some k.
Proof.
  unfold has_key_and_cost. destruct (dict_lookup "key" d) as [k |]; [| discriminate].
  intros _. exists k. reflexivity.
Qed.

(** In the engine, the greedy pass over the recommendation of either
    unavailability case marks exactly the items of the first-fit pass. *)
Lemma engine_selection_first_fit project_name brief budget items recommended_keys
    catalog' selected total :
  0 < budget ->
  forallb (has_key_and_cost W) items = true ->
  Forall (fun d => 0 <= cost_or_zero W d) items ->
  llm W = NoClient \/ llm W = LlmFails ->
  recommend_deliverables_llm W project_name brief budget items = inr recommended_keys ->
  select_loop W budget recommended_keys items [] 0 = inr (catalog', selected, total) ->
  map is_selected catalog' = first_fit_marks W budget items.
Proof.
  intros Hb Hall Hpos Hllm Hrec Hsel.
  apply select_loop_spec in Hsel. destruct Hsel as (_ & _ & _ & _ & Hmarks).
  rewrite Hmarks. replace budget with (budget - 0) at 2 by lia.
  apply greedy_marks_first_fit; [exact Hb |].
  intros d Hin. rewrite Z.sub_0_r in Hin.
  assert (Hd : In d items) by (eapply first_fit_incl; exact Hin).
  assert (Hk : exists k, dict_lookup "key" d = Some k).
  { apply has_key_inv. rewrite forallb_forall in Hall. apply Hall. exact Hd. }
  destruct Hk as (k & Hk).
  unfold recommend_deliverables_llm in Hrec.
  destruct Hllm as [Hl | Hl]; rewrite Hl in Hrec.
  - rewrite (simple_fit_filter W budget items Hall) in Hrec.
    inversion Hrec; subst recommended_keys; clear Hrec.
    rewrite (is_recommended_keys _ d k Hk).
    apply str_in_map. apply filter_In. split; [exact Hd |].
    apply Z.leb_le. apply (first_fit_affordable budget items Hpos d Hin).
  - destruct (catalog_entries items); [discriminate |].
    inversion Hrec; subst recommended_keys; clear Hrec.
    rewrite (is_recommended_keys _ d k Hk).
    unfold _fallback_deliverables. rewrite fallback_loop_first_fit. simpl.
    apply str_in_map. exact Hin.
Qed.
End EngineSelection.

(* ===================================================================== *)
(** ** Generation never commits *)
(* ===================================================================== *)

Section NoCommit.
Context (W : World).

Arguments String.append : simpl never.

Lemma keeps_ret {A} (a : A) : keeps_db (ret a).
Proof. intros s. reflexivity. Qed.

Lemma keeps_lift {A} (r : result A) : keeps_db (lift r).
Proof. intros s. reflexivity. Qed.

Lemma keeps_on_txn f : keeps_db (on_txn f).
Proof. intros s. reflexivity. Qed.

Lemma keeps_bind {A B} (m : M A) (k : A -> M B) :
  keeps_db m -> (forall a, keeps_db (k a)) -> keeps_db (bind m k).
Proof.
  intros Hm Hk s. unfold bind. specialize (Hm s).
  destruct (m s) as [[e | a] s1]; simpl in *.
  - exact Hm.
  - rewrite (Hk a s1). exact Hm.
Qed.

Lemma keeps_add_tasks pid titles days : keeps_db (add_tasks W pid titles days).
Proof.
  induction titles as [| t rest IH]; simpl.
  - apply keeps_ret.
  - apply keeps_bind; [apply keeps_on_txn | intros _; exact IH].
Qed.

Lemma keeps_deliverables_loop pid keys catalog :
  forall total titles, keeps_db (deliverables_loop W pid keys catalog total titles).
Proof.
  induction catalog as [| item rest IH]; intros total titles; simpl.
  - apply keeps_ret.
  - apply keeps_bind; [apply keeps_lift | intros key].
    destruct (str_in (py_str W key) keys); [| apply IH].
    apply keeps_bind; [apply keeps_lift | intros title].
    apply keeps_bind; [apply keeps_on_txn | intros _].
    apply keeps_bind; [apply keeps_lift | intros c]. apply IH.
Qed.

Lemma keeps_custom_loop pid customs :
  forall titles, keeps_db (custom_loop pid customs titles).
Proof.
  induction customs as [| c rest IH]; intros titles; simpl.
  - apply keeps_ret.
  - apply keeps_bind; [apply keeps_on_txn | intros _; apply IH].
Qed.

Ltac keeps :=
  repeat first
    [ apply keeps_ret | apply keeps_lift | apply keeps_on_txn
    | apply keeps_add_tasks | apply keeps_deliverables_loop | apply keeps_custom_loop
    | apply keeps_bind; [| intros]
    | match goal with
      | |- keeps_db (if ?c then _ else _) => destruct c
      | |- keeps_db (match ?r with _ => _ end) => destruct r
      end ].

Lemma generate_next_steps_keeps_db resolved_step project payload :
  keeps_db (generate_next_steps W resolved_step project payload).
Proof.
  unfold generate_next_steps, on_project_brief, on_strategic_direction,
    on_strategy_review, on_deliverable_selection,
    add_step, add_document, update_project.
  keeps.
Qed.
End NoCommit.

(* ===================================================================== *)
(** ** Properties of the dispatch *)
(* ===================================================================== *)

Section Dispatch.
Context (W : World).

(** C9. A resolved step whose [(step_type, title)] pair is none of the four
    known transitions raises no error and creates nothing: the created
    list is empty and the session (steps, documents, tasks, deliverables,
    project rows) is left exactly as it was. *)
Theorem unrecognized_step_creates_nothing (resolved_step : WorkflowStep)
    (project : Project) (payload : WorkflowResolvePayload) (s : Session)
    (Hunknown : known_transition (ws_step_type resolved_step)
                  (ws_title resolved_step) = false) :
  generate_next_steps W resolved_step project payload s = (inr [], s).
Proof.
  unfold known_transition in Hunknown.
  apply orb_false_iff in Hunknown. destruct Hunknown as [H123 H4].
  apply orb_false_iff in H123. destruct H123 as [H12 H3].
  apply orb_false_iff in H12. destruct H12 as [H1 H2].
  unfold generate_next_steps. rewrite H1, H2, H3, H4. reflexivity.
Qed.

(** C5. Whenever a resolve call creates steps, whatever the transition,
    every created step has a sort order strictly greater than that of the
    resolved step, and the created steps, in the order of their creation,
    have strictly increasing sort orders. *)
Theorem created_steps_sort_order (resolved_step : WorkflowStep) (project : Project)
    (payload : WorkflowResolvePayload) (s s' : Session) (created : list WorkflowStep)
    (Hrun : generate_next_steps W resolved_step project payload s = (inr created, s')) :
  Forall (fun w => ws_sort_order resolved_step < ws_sort_order w) created
  /\ StronglySorted Z.lt (map ws_sort_order created).
Proof.
  unfold generate_next_steps in Hrun.
  destruct (String.eqb (ws_step_type resolved_step) "input_needed"
            && String.eqb (ws_title resolved_step) "Project Brief").
  { destruct (on_project_brief_run W (ws_sort_order resolved_step) project payload s)
      as (s1 & Hr & _).
    rewrite Hr in Hrun. inversion Hrun; subst. simpl.
    split; order_done. }
  destruct (String.eqb (ws_step_type resolved_step) "decision_gate"
            && String.eqb (ws_title resolved_step) "Strategic Direction").
  { apply on_strategic_direction_inv in Hrun.
    destruct Hrun as (b & sm & d & t & pr & ti & br & Hc & _). subst created. simpl.
    split; order_done. }
  destruct (String.eqb (ws_step_type resolved_step) "approval_gate"
            && String.eqb (ws_title resolved_step) "Strategy Review").
  { destruct (String.eqb (action payload) "approve"
              || opt_eqb (chosen_option payload) "approve") eqn:Ea.
    - apply (on_strategy_review_approve_inv W _ _ _ _ _ _ Ea) in Hrun.
      destruct Hrun as (b & c & sel & t & _ & _ & Hc & _). subst created. simpl.
      split; order_done.
    - destruct (on_strategy_review_reject_run W (ws_sort_order resolved_step)
                  project payload s Ea) as (s1 & Hr & _).
      rewrite Hr in Hrun. inversion Hrun; subst. simpl.
      split; order_done. }
  destruct (String.eqb (ws_step_type resolved_step) "decision_gate"
            && String.eqb (ws_title resolved_step) "Deliverable Selection").
  { apply on_deliverable_selection_inv in Hrun.
    destruct Hrun as (c & t & ct & _ & Hc & _). subst created. simpl.
    split; order_done. }
  inversion Hrun; subst. simpl. split; order_done.
Qed.

(** C4, as amended.  Resolving the approval gate "Strategy Review" with an
    action other than "approve" and a chosen option other than "approve"
    always succeeds, creates exactly one step, the active input_needed
    step "Strategy Revisions" (so no "Strategy Phase Complete" milestone),
    and sets the review status of the project to "REJECTED". *)
Theorem strategy_review_rejection (resolved_step : WorkflowStep) (project : Project)
    (payload : WorkflowResolvePayload) (s : Session)
    (Htype : ws_step_type resolved_step = "approval_gate"%string)
    (Htitle : ws_title resolved_step = "Strategy Review"%string)
    (Hrow : project_row (txn s) (p_id project) = Some project)
    (Haction : action payload <> "approve"%string)
    (Hchosen : chosen_option payload <> Some "approve"%string) :
  exists st s' p',
    generate_next_steps W resolved_step project payload s = (inr [st], s')
    /\ steps (txn s') = insert_steps (steps (txn s)) [st]
    /\ ws_step_type st = "input_needed"%string
    /\ ws_title st = "Strategy Revisions"%string
    /\ ws_title st <> "Strategy Phase Complete"%string
    /\ ws_status st = "active"%string
    /\ project_row (txn s') (p_id project) = Some p'
    /\ p_review_status p' = "REJECTED"%string.
Proof.
  assert (Ea : String.eqb (action payload) "approve"
               || opt_eqb (chosen_option payload) "approve" = false).
  { apply orb_false_iff. split.
    - apply String.eqb_neq. exact Haction.
    - unfold opt_eqb. destruct (chosen_option payload) as [c |]; [| reflexivity].
      apply String.eqb_neq. intros ->. apply Hchosen. reflexivity. }
  destruct (on_strategy_review_reject_run W (ws_sort_order resolved_step)
              project payload s Ea) as (s1 & Hr & He & Hp).
  exists (strategy_revisions_step (ws_sort_order resolved_step) project), s1,
    (with_review_status "REJECTED" project).
  split.
  { unfold generate_next_steps. rewrite Htype, Htitle. simpl. exact Hr. }
  split; [apply (ext_steps _ _ _ _ _ _ He) |].
  split; [reflexivity |]. split; [reflexivity |].
  split; [discriminate |]. split; [reflexivity |].
  split; [| reflexivity].
  unfold project_row at 1. rewrite Hp.
  apply project_row_updated; [exact Hrow | reflexivity].
Qed.

(** C6, as amended.  Resolving the input_needed step "Project Brief" with a
    non-empty input text always succeeds, stores the text as the client
    brief of the project and creates exactly one step, the decision gate
    "Strategic Direction".  Its options are the generated directions: the
    three fallback directions when no LLM is configured or its call fails,
    the reply of the LLM when that is not empty, and the single option
    "Strategy Error" when the reply is empty. *)
Theorem project_brief_submission (resolved_step : WorkflowStep) (project : Project)
    (payload : WorkflowResolvePayload) (s : Session) (text : string)
    (Htype : ws_step_type resolved_step = "input_needed"%string)
    (Htitle : ws_title resolved_step = "Project Brief"%string)
    (Hrow : project_row (txn s) (p_id project) = Some project)
    (Hinput : input_text payload = Some text)
    (Htext : text <> ""%string) :
  exists st s',
    generate_next_steps W resolved_step project payload s = (inr [st], s')
    /\ steps (txn s') = insert_steps (steps (txn s)) [st]
    /\ ws_step_type st = "decision_gate"%string
    /\ ws_title st = "Strategic Direction"%string
    /\ project_row (txn s') (p_id project) = Some (with_client_brief text project)
    /\ (llm W = NoClient \/ llm W = LlmFails ->
        ws_options_json st = _fallback_directions (p_name project)
        /\ exists a b c, ws_options_json st = JArr [a; b; c])
    /\ (forall j, llm W = LlmReturns j ->
        ws_options_json st
        = if py_truthy j then j
          else error_direction "Strategy Error" "Could not generate strategy.").
Proof.
  destruct (on_project_brief_run W (ws_sort_order resolved_step) project payload s)
    as (s1 & Hr & He & Hp).
  assert (Et : str_truthy (input_text payload) = true).
  { rewrite Hinput. simpl. apply negb_true_iff. apply String.eqb_neq. exact Htext. }
  assert (Eo : str_or (input_text payload) "" = text).
  { rewrite Hinput. simpl. apply String.eqb_neq in Htext. rewrite Htext. reflexivity. }
  eexists. exists s1. split.
  { unfold generate_next_steps. rewrite Htype, Htitle. simpl. exact Hr. }
  split; [apply (ext_steps _ _ _ _ _ _ He) |].
  split; [reflexivity |]. split; [reflexivity |].
  split.
  { unfold project_row at 1. rewrite Hp, Et, Eo.
    apply project_row_updated; [exact Hrow | reflexivity]. }
  unfold strategic_direction_step, ws_options_json, directions_for,
    BrandStrategist_run, generate_strategic_directions_llm.
  simpl. split.
  - intros [Hl | Hl]; rewrite Hl; simpl; (split; [reflexivity |]);
      unfold _fallback_directions; eexists; eexists; eexists; reflexivity.
  - intros j Hl. rewrite Hl. simpl. reflexivity.
Qed.

(** C10, as amended.  Resolving the decision gate "Strategic Direction":
    whenever the generation of the next steps completes, it has added
    exactly four GlobalTask rows for the project, the two Phase 2 titles
    each twice, in the order review, approve, review, approve.  The
    generation does complete when the options of the step are a non-empty
    list of directions and the strategy comes from the fallback (no LLM
    configured, or its call fails).  It does not always complete: it
    raises [IndexError] when the options of the step are an empty list,
    and whenever it raises, nothing it wrote is committed, so that no
    task is stored. *)
Theorem strategic_direction_duplicate_tasks (resolved_step : WorkflowStep)
    (project : Project) (payload : WorkflowResolvePayload) (s : Session)
    (Htype : ws_step_type resolved_step = "decision_gate"%string)
    (Htitle : ws_title resolved_step = "Strategic Direction"%string) :
  (forall created s',
     generate_next_steps W resolved_step project payload s = (inr created, s') ->
     tasks (txn s') = tasks (txn s) ++ phase2_rows W (p_id project)
     /\ map task_title (phase2_rows W (p_id project))
        = ["Phase 2: Review Full Strategy"; "Phase 2: Approve Brand Pillars";
           "Phase 2: Review Full Strategy"; "Phase 2: Approve Brand Pillars"]%string
     /\ Forall (fun t => task_project_id t = Some (p_id project))
          (phase2_rows W (p_id project)))
  /\ (wf_directions (ws_options_json resolved_step) = true ->
      (forall j, llm W <> LlmReturns j) ->
      exists created s',
        generate_next_steps W resolved_step project payload s = (inr created, s'))
  /\ (ws_options_json resolved_step = JArr [] ->
      generate_next_steps W resolved_step project payload s = (inl IndexError, s))
  /\ (forall e s',
        generate_next_steps W resolved_step project payload s = (inl e, s') ->
        db s' = db s).
Proof.
  assert (Hg : generate_next_steps W resolved_step project payload s
               = on_strategic_direction W (ws_sort_order resolved_step) resolved_step
                   project payload s).
  { unfold generate_next_steps. rewrite Htype, Htitle. reflexivity. }
  split; [| split; [| split]].
  - rewrite Hg. intros created s' Hrun.
    apply on_strategic_direction_inv in Hrun.
    destruct Hrun as (b & sm & d & t & pr & ti & br & _ & He & _).
    split; [apply (ext_tasks _ _ _ _ _ _ He) |].
    split; [reflexivity |]. repeat constructor.
  - rewrite Hg. intros Hwf Hllm. apply on_strategic_direction_total; assumption.
  - rewrite Hg. intros Ho. unfold on_strategic_direction. rewrite Ho. reflexivity.
  - intros e s' Hrun.
    pose proof (generate_next_steps_keeps_db W resolved_step project payload s) as Hk.
    rewrite Hrun in Hk. exact Hk.
Qed.


(** The "Deliverable Selection" step that the approval writes is one the
    engine can resolve: whatever the payload, the generation of the next
    steps completes on it. *)
Lemma written_selection_resolves (max_order : Z) (project : Project)
    (payload : WorkflowResolvePayload) (s s' : Session) (milestone selection : WorkflowStep)
    (project' : Project) (payload' : WorkflowResolvePayload) (s2 : Session) :
  String.eqb (action payload) "approve"
    || opt_eqb (chosen_option payload) "approve" = true ->
  on_strategy_review W max_order project payload s = (inr [milestone; selection], s') ->
  exists created s3,
    generate_next_steps W selection project' payload' s2 = (inr created, s3).
Proof.
  intros Ha Hrun.
  apply (on_strategy_review_approve_inv W _ _ _ _ _ _ Ha) in Hrun.
  destruct Hrun as (budget & catalog' & selected & total & _ & Hs & Hc & _).
  inversion Hc; subst milestone selection; clear Hc.
  apply (select_loop_entries W _ _ _ (catalog_entries_wf W)) in Hs.
  unfold generate_next_steps. simpl.
  eapply on_deliverable_selection_total; [reflexivity | exact Hs].
Qed.

(** C2. The budget selection.  (1) For every catalog, budget and
    recommendation on which the selection loop completes: the running
    total it returns is the sum of the costs of the entries it marked
    selected; if the budget is positive that sum is at most the budget; if
    the budget is zero or negative every entry is marked selected; every
    entry of the catalog is annotated, and the marks are those of the
    greedy pass in catalog order.  (2) Resolving "Strategy Review" with
    approve, whenever it completes, creates the "Deliverable Selection"
    step whose options are the catalog of the engine, entry by entry in
    catalog order, each with its mark "selected" added; for the budget
    [int(project.budget_cap or 0)] and the recommendation of the director
    these marks are those of the greedy pass (recommended entries
    accepted in catalog order while [running_total + cost <= budget], all
    entries when the budget is not positive), so that the selected costs
    sum to at most a positive budget.  (3) It does complete when the
    budget cap is a finite number and the recommendation, if it comes from
    the LLM, is a list, a dict or a string. *)
Theorem budget_selection_totals :
  (forall budget recommended_keys catalog0 catalog' selected total,
     select_loop W budget recommended_keys catalog0 [] 0
       = inr (catalog', selected, total) ->
     total = selected_cost W catalog'
     /\ (0 < budget -> selected_cost W catalog' <= budget)
     /\ (budget <= 0 -> Forall (fun item => is_selected item = true) catalog')
     /\ length catalog' = length catalog0
     /\ map is_selected catalog' = greedy_marks W budget recommended_keys catalog0 0)
  /\ (forall resolved_step project payload s created s',
        ws_step_type resolved_step = "approval_gate"%string ->
        ws_title resolved_step = "Strategy Review"%string ->
        String.eqb (action payload) "approve"
          || opt_eqb (chosen_option payload) "approve" = true ->
        generate_next_steps W resolved_step project payload s = (inr created, s') ->
        exists budget catalog' milestone selection,
          (if float_truthy (p_budget_cap project)
           then float_int (p_budget_cap project) else ok 0) = inr budget
          /\ created = [milestone; selection]
          /\ ws_title selection = "Deliverable Selection"%string
          /\ ws_options_json selection = JArr (map JObj catalog')
          /\ Forall2 (fun item item' =>
                        item' = dict_set "selected" (JBool (is_selected item')) item)
               catalog catalog'
          /\ map is_selected catalog'
             = greedy_marks W budget (recommended_keys_for W project budget catalog)
                 catalog 0
          /\ length catalog' = length catalog
          /\ (0 < budget -> selected_cost W catalog' <= budget)
          /\ (budget <= 0 -> Forall (fun item => is_selected item = true) catalog'))
  /\ (forall resolved_step project payload s q,
        ws_step_type resolved_step = "approval_gate"%string ->
        ws_title resolved_step = "Strategy Review"%string ->
        String.eqb (action payload) "approve"
          || opt_eqb (chosen_option payload) "approve" = true ->
        p_budget_cap project = Finite q ->
        (forall j, llm W = LlmReturns j -> is_container j = true) ->
        exists created s',
          generate_next_steps W resolved_step project payload s = (inr created, s')).
Proof.
  assert (A : forall budget recommended_keys catalog0 catalog' selected total,
             select_loop W budget recommended_keys catalog0 [] 0
               = inr (catalog', selected, total) ->
             total = selected_cost W catalog'
             /\ (0 < budget -> selected_cost W catalog' <= budget)
             /\ (budget <= 0 -> Forall (fun item => is_selected item = true) catalog')
             /\ length catalog' = length catalog0
             /\ map is_selected catalog'
                = greedy_marks W budget recommended_keys catalog0 0).
  { intros budget rec catalog0 catalog' selected total H.
    apply select_loop_spec in H. destruct H as (Ht & Hle & Hall & Hlen & Hmarks).
    simpl in Ht. subst total.
    split; [reflexivity |]. split; [| split; [| split]]; try assumption.
    intros Hpos. apply Hle; lia. }
  split; [exact A |]. split.
  - intros resolved_step project payload s created s' Htype Htitle Ha Hrun.
    unfold generate_next_steps in Hrun. rewrite Htype, Htitle in Hrun. simpl in Hrun.
    apply (on_strategy_review_approve_inv W _ _ _ _ _ _ Ha) in Hrun.
    destruct Hrun as (budget & catalog' & selected & total & Hb & Hs & Hc & _).
    destruct (A _ _ _ _ _ _ Hs) as (_ & Hle & Hall & Hlen & Hmarks).
    exists budget, catalog'. eexists. eexists.
    split; [exact Hb |]. split; [exact Hc |].
    split; [reflexivity |]. split; [reflexivity |].
    split.
    { apply (select_loop_marks W) in Hs.
      clear - Hs. induction Hs as [| item item' rest rest' [Hi _] _ IH];
        constructor; assumption. }
    split; [exact Hmarks |].
    split; [exact Hlen |]. split; assumption.
  - intros resolved_step project payload s q Htype Htitle Ha Hq Hj.
    unfold generate_next_steps. rewrite Htype, Htitle. simpl.
    apply (on_strategy_review_approve_total W _ _ _ _ q); assumption.
Qed.

(** C3, as amended.  (1) [_fallback_deliverables] is the first-fit pass in
    catalog order: it returns the keys of the items whose cost is at most
    the remaining budget, the remaining budget being decremented as items
    are taken.  (2) For a budget that is not negative, the total cost of
    the items it takes is at most the budget.  (3) Its result depends on
    the catalog, the budget and the conversions of Python only, not on the
    LLM or the clock.  (4) When the call to the LLM fails, the recommender
    returns this first-fit selection.  (5) When no LLM is configured, the
    recommender returns instead the key of every item whose own cost is at
    most the budget, without decrementing. *)
Theorem fallback_selection :
  (forall budget items,
     _fallback_deliverables W budget items
     = map (key_of W) (first_fit W budget items))
  /\ (forall budget items,
        0 <= budget -> total_cost W (first_fit W budget items) <= budget)
  /\ (forall W' budget items,
        (forall t, int_of_str W' t = int_of_str W t) ->
        (forall j, py_repr W' j = py_repr W j) ->
        _fallback_deliverables W' budget items = _fallback_deliverables W budget items)
  /\ (forall project_name brief budget items entries,
        llm W = LlmFails ->
        catalog_entries items = inr entries ->
        recommend_deliverables_llm W project_name brief budget items
        = inr (JArr (map JStr (_fallback_deliverables W budget items))))
  /\ (forall project_name brief budget items,
        llm W = NoClient ->
        forallb (has_key_and_cost W) items = true ->
        recommend_deliverables_llm W project_name brief budget items
        = inr (JArr (map JStr (map (key_of W)
                 (filter (fun d => cost_or_zero W d <=? budget) items))))).
Proof.
  split; [| split; [| split; [| split]]].
  - intros budget items. unfold _fallback_deliverables.
    rewrite fallback_loop_first_fit. reflexivity.
  - intros budget items Hb. apply first_fit_within. exact Hb.
  - intros W' budget items Hint Hrepr. unfold _fallback_deliverables.
    generalize (@nil string) as selected. revert budget.
    induction items as [| d rest IH]; intros r_val selected; simpl.
    + reflexivity.
    + assert (Hc : cost_or_zero W' d = cost_or_zero W d).
      { unfold cost_or_zero, py_int.
        destruct (dict_get d "cost" (JInt 0)); try reflexivity.
        rewrite Hint. reflexivity. }
      assert (Hk : py_str W' (dict_get d "key" (JStr "")) = py_str W (dict_get d "key" (JStr ""))).
      { unfold py_str. destruct (dict_get d "key" (JStr "")); try reflexivity;
          apply Hrepr. }
      rewrite Hc, Hk. destruct (cost_or_zero W d <=? r_val); apply IH.
  - intros project_name brief budget items entries Hl He.
    unfold recommend_deliverables_llm. rewrite Hl, He. reflexivity.
  - intros project_name brief budget items Hl Hall.
    unfold recommend_deliverables_llm. rewrite Hl.
    rewrite (simple_fit_filter W budget items Hall). reflexivity.
Qed.

End Dispatch.

(* ===================================================================== *)
(** ** The resolve endpoint *)
(* ===================================================================== *)

Section Resolve.
Context (W : World).

(** The three ways a resolve request goes: no step of that id, a step of
    another project, a step of the project. *)
Lemma resolve_missing project_id payload d :
  find (has_id (step_id payload)) (steps d) = None ->
  request (resolve_workflow_step W project_id payload) d
  = (inl (lookup_failure (step_id payload) (HTTPException 404 "Step not found")), d).
Proof.
  intros Ef. unfold request, resolve_workflow_step, lookup_failure.
  rewrite (get_step_missing _ _ (open_session d) Ef).
  destruct (sqlite_integer (step_id payload)); reflexivity.
Qed.

Lemma resolve_foreign project_id payload d step :
  find (has_id (step_id payload)) (steps d) = Some step ->
  (ws_project_id step =? project_id) = false ->
  request (resolve_workflow_step W project_id payload) d
  = (inl (HTTPException 404 "Step not found"), d).
Proof.
  intros Ef Epid. unfold request, resolve_workflow_step.
  rewrite (get_step_found _ _ _ (open_session d) Ef), Epid. reflexivity.
Qed.

Lemma resolve_found project_id payload d step :
  find (has_id (step_id payload)) (steps d) = Some step ->
  (ws_project_id step =? project_id) = true ->
  request (resolve_workflow_step W project_id payload) d
  = match project_row (store_resolution W payload step d) project_id with
    | None =>
        (inl (lookup_failure project_id (HTTPException 404 "Not Found")),
         store_resolution W payload step d)
    | Some project =>
        match generate_next_steps W (mark_resolved W payload step) project payload
                (open_session (store_resolution W payload step d)) with
        | (inl e, _) => (inl e, store_resolution W payload step d)
        | (inr created, s2) =>
            (inr {| resp_status := "resolved";
                    resp_step_id := ws_id step;
                    next_steps_created := length created |}, txn s2)
        end
    end.
Proof.
  intros Ef Epid.
  unfold request, resolve_workflow_step, store_resolution, lookup_failure, project_row.
  rewrite (get_step_found _ _ _ (open_session d) Ef), Epid.
  cbn [negb bind open_session committed throw commit update_step
       on_txn ret fst snd db txn].
  match goal with
  | |- _ = match find ?f ?l with _ => _ end => destruct (find f l) as [project |] eqn:Ep
  end.
  2: { erewrite !get_project_missing by exact Ep.
       destruct (sqlite_integer project_id); reflexivity. }
  erewrite !get_project_found by exact Ep.
  unfold bind, open_session.
  match goal with
  | |- context [generate_next_steps W ?st ?p ?pl ?s0] =>
      pose proof (generate_next_steps_keeps_db W st p pl s0) as Hk;
      destruct (generate_next_steps W st p pl s0) as [[e | created] s2]
  end.
  - unfold committed. cbn [fst snd] in *. rewrite Hk. reflexivity.
  - reflexivity.
Qed.

(** C1, as amended.  A resolve call commits twice.  When the step does not
    exist or belongs to another project, nothing is written: the request
    fails with 404, or, for a step id that is not a 64-bit integer, with
    the [OverflowError] of the lookup.  Otherwise the resolution of the
    step is committed on its own; then, if the project is missing or the
    generation of the next steps raises, the database holds that
    resolution and none of the writes of the generation; and if the
    generation completes, the database holds the resolution and all the
    writes of the generation. *)
Theorem resolve_commits_in_two_units (project_id : Z)
    (payload : WorkflowResolvePayload) (d : Store) :
  let out := request (resolve_workflow_step W project_id payload) d in
  match find (has_id (step_id payload)) (steps d) with
  | None =>
      out = (inl (lookup_failure (step_id payload)
                    (HTTPException 404 "Step not found")), d)
  | Some step =>
      if ws_project_id step =? project_id
      then
        let d1 := store_resolution W payload step d in
        match project_row d1 project_id with
        | None =>
            out = (inl (lookup_failure project_id (HTTPException 404 "Not Found")), d1)
        | Some project =>
            match generate_next_steps W (mark_resolved W payload step) project payload
                    (open_session d1) with
            | (inl e, _) => out = (inl e, d1)
            | (inr created, s2) =>
                out = (inr {| resp_status := "resolved";
                              resp_step_id := ws_id step;
                              next_steps_created := length created |}, txn s2)
            end
        end
      else out = (inl (HTTPException 404 "Step not found"), d)
  end.
Proof.
  cbv zeta.
  destruct (find (has_id (step_id payload)) (steps d)) as [step |] eqn:Ef.
  - destruct (ws_project_id step =? project_id) eqn:Epid.
    + rewrite (resolve_found _ _ _ _ Ef Epid).
      destruct (project_row (store_resolution W payload step d) project_id)
        as [project |]; [| reflexivity].
      destruct (generate_next_steps W (mark_resolved W payload step) project payload
                  (open_session (store_resolution W payload step d)))
        as [[e | created] s2]; reflexivity.
    + apply (resolve_foreign _ _ _ _ Ef Epid).
  - apply (resolve_missing _ _ _ Ef).
Qed.

End Resolve.

(* ===================================================================== *)
(** ** Concrete runs *)
(* ===================================================================== *)

Section Runs.

Lemma seed_workflow_idempotent_witness :
  project_row (Sample.fresh_db 10000) 1 = Some (Sample.project 10000)
  /\ request (seed_workflow 1) (snd (request (seed_workflow 1) (Sample.fresh_db 10000)))
     = (inr {| seed_status := "exists"; seed_step_id := None |},
        snd (request (seed_workflow 1) (Sample.fresh_db 10000))).
Proof.
  split; [reflexivity |].
  exact (proj2 (proj2 (seed_workflow_idempotent (Sample.fresh_db 10000) 1
                         (Sample.project 10000) eq_refl))).
Defined.

Lemma unrecognized_step_witness :
  known_transition (ws_step_type Sample.milestone_step)
    (ws_title Sample.milestone_step) = false
  /\ generate_next_steps Sample.offline Sample.milestone_step (Sample.project 10000)
       (Sample.payload 4 "approve" None None)
       (open_session (Sample.db_with 10000 Sample.milestone_step))
     = (inr [], open_session (Sample.db_with 10000 Sample.milestone_step)).
Proof.
  split; [reflexivity |].
  apply (unrecognized_step_creates_nothing Sample.offline). reflexivity.
Defined.

Lemma created_steps_sort_order_witness :
  exists created s',
    generate_next_steps Sample.offline Sample.review_step (Sample.project 3000)
      (Sample.payload 3 "approve" None None)
      (open_session (Sample.db_with 3000 Sample.review_step)) = (inr created, s')
    /\ Forall (fun w => ws_sort_order Sample.review_step < ws_sort_order w) created
    /\ StronglySorted Z.lt (map ws_sort_order created)
    /\ map ws_sort_order created = [3; 4].
Proof.
  eexists. eexists.
  match goal with
  | |- ?H /\ _ => assert (Hrun : H) by (lazy; reflexivity); split; [exact Hrun |]
  end.
  destruct (created_steps_sort_order Sample.offline _ _ _ _ _ _ Hrun) as [Hgt Hinc].
  split; [exact Hgt |]. split; [exact Hinc | reflexivity].
Defined.

Ltac run_first :=
  match goal with
  | |- ?H /\ _ => assert (Hrun : H) by (lazy; reflexivity); split; [exact Hrun |]
  end.

(** Rejecting with a plain "reject". *)
Lemma strategy_review_rejection_witness :
  (ws_step_type Sample.review_step = "approval_gate"%string
   /\ ws_title Sample.review_step = "Strategy Review"%string
   /\ project_row (txn (open_session (Sample.db_with 3000 Sample.review_step))) 1
      = Some (Sample.project 3000)
   /\ action (Sample.payload 3 "reject" None None) <> "approve"%string
   /\ chosen_option (Sample.payload 3 "reject" None None) <> Some "approve"%string)
  /\ exists st s' p',
       generate_next_steps Sample.offline Sample.review_step (Sample.project 3000)
         (Sample.payload 3 "reject" None None)
         (open_session (Sample.db_with 3000 Sample.review_step)) = (inr [st], s')
       /\ ws_title st = "Strategy Revisions"%string
       /\ project_row (txn s') 1 = Some p'
       /\ p_review_status p' = "REJECTED"%string.
Proof.
  split.
  { repeat split; try reflexivity; discriminate. }
  destruct (strategy_review_rejection Sample.offline Sample.review_step (Sample.project 3000)
              (Sample.payload 3 "reject" None None)
              (open_session (Sample.db_with 3000 Sample.review_step))
              eq_refl eq_refl eq_refl
              ltac:(discriminate) ltac:(discriminate))
    as (st & s' & p' & H1 & _ & _ & H4 & _ & _ & H7 & H8).
  exists st, s', p'. repeat split; assumption.
Defined.

(** C4, counterexample.  The action is "choose", not "approve", and the
    chosen option is "approve": the approval branch runs, the milestone
    "Strategy Phase Complete" is created and the review status is
    "PENDING". *)
Lemma strategy_review_choose_approve_counterexample :
  action (Sample.payload 3 "choose" (Some "approve"%string) None) <> "approve"%string
  /\ exists milestone selection s',
       generate_next_steps Sample.offline Sample.review_step (Sample.project 3000)
         (Sample.payload 3 "choose" (Some "approve"%string) None)
         (open_session (Sample.db_with 3000 Sample.review_step))
       = (inr [milestone; selection], s')
       /\ ws_step_type milestone = "milestone"%string
       /\ ws_title milestone = "Strategy Phase Complete"%string
       /\ ws_title selection = "Deliverable Selection"%string
       /\ map p_review_status (projects (txn s')) = ["PENDING"%string].
Proof.
  split; [discriminate |].
  eexists. eexists. eexists. run_first.
  repeat split; reflexivity.
Qed.

(** The brief of the scenario of the specification. *)
Lemma project_brief_submission_witness :
  (ws_step_type Sample.brief_step = "input_needed"%string
   /\ ws_title Sample.brief_step = "Project Brief"%string
   /\ project_row (txn (open_session (Sample.db_with 10000 Sample.brief_step))) 1
      = Some (Sample.project 10000)
   /\ input_text (Sample.payload 1 "input" None (Some "A sustainable coffee brand"%string))
      = Some "A sustainable coffee brand"%string
   /\ "A sustainable coffee brand"%string <> ""%string)
  /\ exists st s' a b c,
       generate_next_steps Sample.offline Sample.brief_step (Sample.project 10000)
         (Sample.payload 1 "input" None (Some "A sustainable coffee brand"%string))
         (open_session (Sample.db_with 10000 Sample.brief_step)) = (inr [st], s')
       /\ ws_title st = "Strategic Direction"%string
       /\ ws_options_json st = JArr [a; b; c]
       /\ project_row (txn s') 1
          = Some (with_client_brief "A sustainable coffee brand" (Sample.project 10000)).
Proof.
  split.
  { repeat split; try reflexivity; discriminate. }
  destruct (project_brief_submission Sample.offline Sample.brief_step (Sample.project 10000)
              (Sample.payload 1 "input" None (Some "A sustainable coffee brand"%string))
              (open_session (Sample.db_with 10000 Sample.brief_step))
              "A sustainable coffee brand"
              eq_refl eq_refl eq_refl eq_refl ltac:(discriminate))
    as (st & s' & H1 & _ & _ & H4 & H5 & H6 & _).
  destruct (H6 (or_introl eq_refl)) as (_ & a & b & c & Habc).
  exists st, s', a, b, c. repeat split; assumption.
Defined.

(** C6, counterexample.  The LLM answers with an empty list: the step
    "Strategic Direction" is created with one option, "Strategy Error",
    not three. *)
Lemma project_brief_one_option_counterexample :
  exists st s' o,
    generate_next_steps (Sample.world (LlmReturns (JArr []))) Sample.brief_step
      (Sample.project 10000)
      (Sample.payload 1 "input" None (Some "A sustainable coffee brand"%string))
      (open_session (Sample.db_with 10000 Sample.brief_step)) = (inr [st], s')
    /\ ws_step_type st = "decision_gate"%string
    /\ ws_title st = "Strategic Direction"%string
    /\ ws_options_json st = JArr [o]
    /\ py_get o "title" JNull = inr (JStr "Strategy Error").
Proof.
  eexists. eexists. eexists. run_first.
  repeat split; reflexivity.
Qed.

(** Choosing direction "B" Sample.offline. *)
Lemma strategic_direction_duplicate_tasks_witness :
  (ws_step_type Sample.direction_step = "decision_gate"%string
   /\ ws_title Sample.direction_step = "Strategic Direction"%string)
  /\ exists created s',
       generate_next_steps Sample.offline Sample.direction_step (Sample.project 10000)
         (Sample.payload 2 "choose" (Some "B"%string) None)
         (open_session (Sample.db_with 10000 Sample.direction_step))
       = (inr created, s')
       /\ map task_title (tasks (txn s'))
          = ["Phase 2: Review Full Strategy"; "Phase 2: Approve Brand Pillars";
             "Phase 2: Review Full Strategy"; "Phase 2: Approve Brand Pillars"]%string.
Proof.
  split; [split; reflexivity |].
  destruct (strategic_direction_duplicate_tasks Sample.offline Sample.direction_step
              (Sample.project 10000) (Sample.payload 2 "choose" (Some "B"%string) None)
              (open_session (Sample.db_with 10000 Sample.direction_step))
              eq_refl eq_refl) as (Hrows & Htotal & _).
  destruct (Htotal eq_refl ltac:(discriminate)) as (created & s' & Hrun).
  exists created, s'. split; [exact Hrun |].
  destruct (Hrows created s' Hrun) as (Ht & Htitles & _).
  rewrite Ht. exact Htitles.
Defined.

(** C10, counterexample.  The LLM returns a strategy without pillars:
    the generation raises [KeyError] before it reaches the tasks, and
    after the request the step is resolved and the project has no task. *)
Lemma strategic_direction_no_tasks_counterexample :
  (ws_step_type Sample.direction_step = "decision_gate"%string
   /\ ws_title Sample.direction_step = "Strategic Direction"%string)
  /\ exists d',
       request (resolve_workflow_step (Sample.world Sample.thin_strategy) 1
                  (Sample.payload 2 "choose" (Some "A"%string) None))
         (Sample.db_with 10000 Sample.direction_step)
       = (inl (KeyError "pillars"), d')
       /\ map ws_title (steps d') = ["Strategic Direction"%string]
       /\ map ws_status (steps d') = ["resolved"%string]
       /\ tasks d' = [].
Proof.
  split; [split; reflexivity |].
  eexists. split; [reflexivity |]. repeat split; reflexivity.
Qed.


(** The tight budget of the specification, 3000 for the whole catalog:
    approving the strategy without an LLM marks the first three entries
    of the catalog and the fifth, for 2900, and passes over the fourth,
    which would bring the total to 3400. *)
Lemma budget_selection_totals_witness :
  (ws_step_type Sample.review_step = "approval_gate"%string
   /\ ws_title Sample.review_step = "Strategy Review"%string
   /\ String.eqb (action (Sample.payload 3 "approve" None None)) "approve"
      || opt_eqb (chosen_option (Sample.payload 3 "approve" None None)) "approve" = true
   /\ p_budget_cap (Sample.project 3000) = Finite 3000
   /\ 0 < 3000)
  /\ exists created s' milestone selection catalog',
       generate_next_steps Sample.offline Sample.review_step (Sample.project 3000)
         (Sample.payload 3 "approve" None None)
         (open_session (Sample.db_with 3000 Sample.review_step))
       = (inr created, s')
       /\ created = [milestone; selection]
       /\ ws_options_json selection = JArr (map JObj catalog')
       /\ map is_selected catalog'
          = [true; true; true; false; true; false; false; false; false]
       /\ selected_cost Sample.offline catalog' <= 3000.
Proof.
  split; [repeat split; reflexivity |].
  destruct (budget_selection_totals Sample.offline) as (_ & Hrows & Htotal).
  destruct (Htotal Sample.review_step (Sample.project 3000)
              (Sample.payload 3 "approve" None None)
              (open_session (Sample.db_with 3000 Sample.review_step)) 3000%Q
              eq_refl eq_refl eq_refl eq_refl ltac:(discriminate))
    as (created & s' & Hrun).
  destruct (Hrows Sample.review_step (Sample.project 3000)
              (Sample.payload 3 "approve" None None) _ _ _
              eq_refl eq_refl eq_refl Hrun)
    as (budget & catalog' & milestone & selection & Hb & Hc & _ & Ho & _ & Hm & _
        & Hle & _).
  assert (budget = 3000) by (vm_compute in Hb; congruence). subst budget.
  exists created, s', milestone, selection, catalog'.
  split; [exact Hrun |]. split; [exact Hc |]. split; [exact Ho |].
  split; [rewrite Hm; reflexivity | apply Hle; reflexivity].
Defined.


Lemma fallback_selection_witness :
  0 <= 3000
  /\ total_cost Sample.offline (first_fit Sample.offline 3000 catalog) <= 3000
  /\ _fallback_deliverables Sample.offline 3000 catalog
     = ["brand_strategy"; "visual_brief"; "competitor_audit"; "brand_guidelines"]%string.
Proof.
  split; [lia |]. split; [| reflexivity].
  apply (proj1 (proj2 (fallback_selection Sample.offline))). lia.
Defined.

(** C3, counterexample.  Without an LLM client and with a budget of 1000,
    the recommender returns seven keys of the catalog, whose costs add up
    to 5000, where the first-fit fallback returns one; and for a negative
    budget the fallback takes nothing, a total of 0 above the budget. *)
Lemma no_client_selection_counterexample :
  recommend_deliverables_llm Sample.offline "Casa Verde" "" 1000 catalog
  = inr (JArr (map JStr ["brand_strategy"; "visual_brief"; "competitor_audit";
                         "brand_guidelines"; "visual_templates"; "social_kit";
                         "launch_collateral"]%string))
  /\ cost_of_keys Sample.offline
       ["brand_strategy"; "visual_brief"; "competitor_audit"; "brand_guidelines";
        "visual_templates"; "social_kit"; "launch_collateral"]%string catalog = 5000
  /\ 1000 < 5000
  /\ _fallback_deliverables Sample.offline 1000 catalog = ["brand_strategy"%string]
  /\ _fallback_deliverables Sample.offline (-1) catalog = []
  /\ -1 < cost_of_keys Sample.offline [] catalog.
Proof.
  repeat split; try reflexivity.
Qed.

(** C1, counterexample.  The LLM returns a strategy without pillars: the
    generation raises [KeyError], the request fails, and the database
    holds the step marked resolved with no next step, document or task. *)
Lemma resolve_partial_state_counterexample :
  request (resolve_workflow_step (Sample.world Sample.thin_strategy) 1
             (Sample.payload 2 "choose" (Some "A"%string) None))
    (Sample.db_with 10000 Sample.direction_step)
  = (inl (KeyError "pillars"),
     store_resolution (Sample.world Sample.thin_strategy)
       (Sample.payload 2 "choose" (Some "A"%string) None) Sample.direction_step
       (Sample.db_with 10000 Sample.direction_step))
  /\ map ws_status (steps (Sample.db_with 10000 Sample.direction_step))
     = ["active"%string]
  /\ map ws_status
       (steps (store_resolution (Sample.world Sample.thin_strategy)
                 (Sample.payload 2 "choose" (Some "A"%string) None)
                 Sample.direction_step (Sample.db_with 10000 Sample.direction_step)))
     = ["resolved"%string]
  /\ store_resolution (Sample.world Sample.thin_strategy)
       (Sample.payload 2 "choose" (Some "A"%string) None) Sample.direction_step
       (Sample.db_with 10000 Sample.direction_step)
     <> Sample.db_with 10000 Sample.direction_step
  /\ documents (store_resolution (Sample.world Sample.thin_strategy)
                  (Sample.payload 2 "choose" (Some "A"%string) None)
                  Sample.direction_step (Sample.db_with 10000 Sample.direction_step))
     = []
  /\ tasks (store_resolution (Sample.world Sample.thin_strategy)
              (Sample.payload 2 "choose" (Some "A"%string) None)
              Sample.direction_step (Sample.db_with 10000 Sample.direction_step))
     = [].
Proof.
  split; [reflexivity |]. split; [reflexivity |]. split; [reflexivity |].
  split; [| split; reflexivity].
  intros H. apply (f_equal (fun st => map ws_status (steps st))) in H.
  discriminate H.
Qed.

End Runs.

(* ===================================================================== *)
(** ** The life of a workflow: what a resolution leaves behind *)
(* ===================================================================== *)

Section Lifecycle.
Context (W : World).

Arguments String.append : simpl never.

Lemma filter_insert_steps (f : WorkflowStep -> bool) news :
  (forall i w, f (with_id i w) = f w) ->
  forall l,
  length (filter f (insert_steps l news))
  = (length (filter f l) + length (filter f news))%nat.
Proof.
  intros Hf. induction news as [| w rest IH]; intros l; simpl.
  - lia.
  - rewrite IH. rewrite filter_app, length_app. simpl. rewrite Hf.
    destruct (f w); simpl; lia.
Qed.

Lemma generate_next_steps_created resolved_step project payload s created s' :
  generate_next_steps W resolved_step project payload s = (inr created, s') ->
  steps (txn s') = insert_steps (steps (txn s)) created
  /\ Forall (fun w => ws_project_id w = p_id project) created
  /\ length (filter is_active created)
     = (if known_transition (ws_step_type resolved_step) (ws_title resolved_step)
        then 1 else 0)%nat.
Proof.
  unfold generate_next_steps, known_transition. intros Hrun.
  destruct (String.eqb (ws_step_type resolved_step) "input_needed"
            && String.eqb (ws_title resolved_step) "Project Brief").
  { destruct (on_project_brief_run W (ws_sort_order resolved_step) project payload s)
      as (s1 & Hr & He & _).
    rewrite Hr in Hrun. inversion Hrun; subst.
    split; [apply (ext_steps _ _ _ _ _ _ He) |].
    split; [repeat constructor | reflexivity]. }
  destruct (String.eqb (ws_step_type resolved_step) "decision_gate"
            && String.eqb (ws_title resolved_step) "Strategic Direction").
  { apply on_strategic_direction_inv in Hrun.
    destruct Hrun as (b & sm & d & t & pr & ti & br & Hc & He & _). subst created.
    split; [apply (ext_steps _ _ _ _ _ _ He) |].
    split; [repeat constructor | reflexivity]. }
  destruct (String.eqb (ws_step_type resolved_step) "approval_gate"
            && String.eqb (ws_title resolved_step) "Strategy Review").
  { destruct (String.eqb (action payload) "approve"
              || opt_eqb (chosen_option payload) "approve") eqn:Ea.
    - apply (on_strategy_review_approve_inv W _ _ _ _ _ _ Ea) in Hrun.
      destruct Hrun as (b & c & sel & t & _ & _ & Hc & He & _). subst created.
      split; [apply (ext_steps _ _ _ _ _ _ He) |].
      split; [repeat constructor | reflexivity].
    - destruct (on_strategy_review_reject_run W (ws_sort_order resolved_step)
                  project payload s Ea) as (s1 & Hr & He & _).
      rewrite Hr in Hrun. inversion Hrun; subst.
      split; [apply (ext_steps _ _ _ _ _ _ He) |].
      split; [repeat constructor | reflexivity]. }
  destruct (String.eqb (ws_step_type resolved_step) "decision_gate"
            && String.eqb (ws_title resolved_step) "Deliverable Selection").
  { apply on_deliverable_selection_inv in Hrun.
    destruct Hrun as (c & t & ct & _ & Hc & He & _). subst created.
    split; [apply (ext_steps _ _ _ _ _ _ He) |].
    split; [repeat constructor | reflexivity]. }
  inversion Hrun; subst. simpl. repeat split. constructor.
Qed.

(** The outcome of a resolve request that succeeds. *)
Lemma resolve_success_inv project_id payload d resp d' :
  request (resolve_workflow_step W project_id payload) d = (inr resp, d') ->
  exists step project created s2,
    find (has_id (step_id payload)) (steps d) = Some step
    /\ ws_project_id step = project_id
    /\ project_row (store_resolution W payload step d) project_id = Some project
    /\ generate_next_steps W (mark_resolved W payload step) project payload
         (open_session (store_resolution W payload step d)) = (inr created, s2)
    /\ d' = txn s2
    /\ next_steps_created resp = length created.
Proof.
  intros H.
  destruct (find (has_id (step_id payload)) (steps d)) as [step |] eqn:Ef.
  2: { rewrite (resolve_missing W _ _ _ Ef) in H. discriminate. }
  destruct (ws_project_id step =? project_id) eqn:Epid.
  2: { rewrite (resolve_foreign W _ _ _ _ Ef Epid) in H. discriminate. }
  rewrite (resolve_found W _ _ _ _ Ef Epid) in H.
  destruct (project_row (store_resolution W payload step d) project_id)
    as [project |] eqn:Ep; [| discriminate].
  destruct (generate_next_steps W (mark_resolved W payload step) project payload
              (open_session (store_resolution W payload step d)))
    as [[e | created] s2] eqn:Eg; [discriminate |].
  inversion H; subst; clear H.
  exists step, project, created, s2.
  apply Z.eqb_eq in Epid.
  repeat split; try reflexivity; assumption.
Qed.

Lemma has_id_inv i w : has_id i w = true -> ws_id w = Some i.
Proof.
  unfold has_id. destruct (ws_id w) as [j |]; [| discriminate].
  intros H. apply Z.eqb_eq in H. subst. reflexivity.
Qed.

Lemma project_row_id st pid p : project_row st pid = Some p -> p_id p = pid.
Proof.
  unfold project_row. intros H. apply find_some in H. destruct H as [_ H].
  apply Z.eqb_eq in H. exact H.
Qed.

Lemma resolution_clears_active payload step l pid :
  ws_id step = Some (step_id payload) ->
  (forall w, In w l -> ws_project_id w = pid -> is_active w = true ->
             has_id (step_id payload) w = true) ->
  active_steps
    (map (fun w' => match ws_id (mark_resolved W payload step) with
                    | Some i => if has_id i w' then mark_resolved W payload step else w'
                    | None => w'
                    end) l) pid = [].
Proof.
  intros Hid Hall. simpl. rewrite Hid.
  induction l as [| w rest IH]; simpl.
  - reflexivity.
  - destruct (has_id (step_id payload) w) eqn:Eh; simpl.
    + rewrite andb_false_r. apply IH. intros w' Hin. apply Hall. right. exact Hin.
    + destruct ((ws_project_id w =? pid) && is_active w) eqn:Ef.
      * apply andb_true_iff in Ef. destruct Ef as [E1 E2]. apply Z.eqb_eq in E1.
        rewrite (Hall w (or_introl eq_refl) E1 E2) in Eh. discriminate.
      * apply IH. intros w' Hin. apply Hall. right. exact Hin.
Qed.

(** X1.  One active step at a time.  If the only active steps of the
    project are the step being resolved, then after a resolve request that
    succeeds the project has exactly one active step when the resolved
    step is one the engine knows a transition for, and none otherwise. *)
Theorem resolve_keeps_one_active_step (project_id : Z) (payload : WorkflowResolvePayload)
    (d d' : Store) (resp : ResolveResponse) (step : WorkflowStep)
    (Hrun : request (resolve_workflow_step W project_id payload) d = (inr resp, d'))
    (Hstep : find (has_id (step_id payload)) (steps d) = Some step)
    (Honly : forall w, In w (steps d) -> ws_project_id w = project_id ->
                       is_active w = true -> has_id (step_id payload) w = true) :
  length (active_steps (steps d') project_id)
  = (if known_transition (ws_step_type step) (ws_title step) then 1 else 0)%nat.
Proof.
  apply resolve_success_inv in Hrun.
  destruct Hrun as (step' & project & created & s2 & Hf & Hpid & Hp & Hg & -> & _).
  rewrite Hstep in Hf. inversion Hf; subst step'; clear Hf.
  apply generate_next_steps_created in Hg. destruct Hg as (Hs & Hproj & Hact).
  rewrite Hs. unfold active_steps.
  rewrite filter_insert_steps by (intros; reflexivity).
  assert (Hid : ws_id step = Some (step_id payload)).
  { apply has_id_inv. apply find_some in Hstep. tauto. }
  pose proof (resolution_clears_active payload step (steps d) project_id Hid Honly) as Hc.
  unfold active_steps in Hc. unfold store_resolution. simpl. simpl in Hc. rewrite Hc.
  simpl. simpl in Hact. rewrite <- Hact.
  apply project_row_id in Hp.
  f_equal. apply filter_ext_in. intros w Hin.
  rewrite Forall_forall in Hproj. rewrite (Hproj w Hin), Hp, Z.eqb_refl. reflexivity.
Qed.

(** X2.  The two ends of the workflow.  The steps "Strategy Revisions"
    and "Budget Allocation" are created active, yet the engine has no
    transition for them: generating the next steps from either creates
    nothing and writes nothing, whatever the project and the payload. *)
Theorem revisions_and_allocation_are_dead_ends (resolved_step : WorkflowStep)
    (project : Project) (payload : WorkflowResolvePayload) (s s' : Session)
    (created : list WorkflowStep) (w : WorkflowStep)
    (Hrun : generate_next_steps W resolved_step project payload s = (inr created, s'))
    (Hin : In w created)
    (Htitle : ws_title w = "Strategy Revisions"%string
              \/ ws_title w = "Budget Allocation"%string) :
  ws_status w = "active"%string
  /\ forall project' payload' s2,
       generate_next_steps W w project' payload' s2 = (inr [], s2).
Proof.
  unfold generate_next_steps in Hrun.
  destruct (String.eqb (ws_step_type resolved_step) "input_needed"
            && String.eqb (ws_title resolved_step) "Project Brief").
  { destruct (on_project_brief_run W (ws_sort_order resolved_step) project payload s)
      as (s1 & Hr & _).
    rewrite Hr in Hrun. inversion Hrun; subst.
    destruct Hin as [<- | []]. destruct Htitle; discriminate. }
  destruct (String.eqb (ws_step_type resolved_step) "decision_gate"
            && String.eqb (ws_title resolved_step) "Strategic Direction").
  { apply on_strategic_direction_inv in Hrun.
    destruct Hrun as (b & sm & d & t & pr & ti & br & Hc & _). subst created.
    destruct Hin as [<- | []]. destruct Htitle; discriminate. }
  destruct (String.eqb (ws_step_type resolved_step) "approval_gate"
            && String.eqb (ws_title resolved_step) "Strategy Review").
  { destruct (String.eqb (action payload) "approve"
              || opt_eqb (chosen_option payload) "approve") eqn:Ea.
    - apply (on_strategy_review_approve_inv W _ _ _ _ _ _ Ea) in Hrun.
      destruct Hrun as (b & c & sel & t & _ & _ & Hc & _). subst created.
      destruct Hin as [<- | [<- | []]]; destruct Htitle; discriminate.
    - destruct (on_strategy_review_reject_run W (ws_sort_order resolved_step)
                  project payload s Ea) as (s1 & Hr & _).
      rewrite Hr in Hrun. inversion Hrun; subst.
      destruct Hin as [<- | []]. split; reflexivity. }
  destruct (String.eqb (ws_step_type resolved_step) "decision_gate"
            && String.eqb (ws_title resolved_step) "Deliverable Selection").
  { apply on_deliverable_selection_inv in Hrun.
    destruct Hrun as (c & t & ct & _ & Hc & _). subst created.
    destruct Hin as [<- | [<- | []]].
    - destruct Htitle; discriminate.
    - split; reflexivity. }
  inversion Hrun; subst. destruct Hin.
Qed.

Lemma resolve_success_run project_id payload d step project created s2 :
  find (has_id (step_id payload)) (steps d) = Some step ->
  ws_project_id step = project_id ->
  project_row (store_resolution W payload step d) project_id = Some project ->
  generate_next_steps W (mark_resolved W payload step) project payload
    (open_session (store_resolution W payload step d)) = (inr created, s2) ->
  request (resolve_workflow_step W project_id payload) d
  = (inr {| resp_status := "resolved"; resp_step_id := ws_id step;
            next_steps_created := length created |}, txn s2).
Proof.
  intros Hf Hpid Hp Hg.
  assert (E : (ws_project_id step =? project_id) = true) by (apply Z.eqb_eq; exact Hpid).
  rewrite (resolve_found W _ _ _ _ Hf E), Hp, Hg. reflexivity.
Qed.

Lemma max_id_bound l w i :
  In w l -> ws_id w = Some i ->
  i <= fold_right (fun w m => match ws_id w with Some i => Z.max i m | None => m end) 0 l.
Proof.
  induction l as [| x rest IH]; intros Hin Hid.
  - destruct Hin.
  - cbn [fold_right]. destruct Hin as [-> | Hin].
    + rewrite Hid. apply Z.le_max_l.
    + specialize (IH Hin Hid). destruct (ws_id x) as [j |]; [| exact IH].
      etransitivity; [exact IH | apply Z.le_max_r].
Qed.

Lemma next_step_id_fresh l w i :
  In w l -> ws_id w = Some i -> i < next_step_id l.
Proof.
  intros Hin Hid. pose proof (max_id_bound l w i Hin Hid) as H.
  unfold next_step_id. lia.
Qed.

Lemma find_resolved payload step l :
  find (has_id (step_id payload)) l = Some step ->
  find (has_id (step_id payload))
    (map (fun w' => match ws_id (mark_resolved W payload step) with
                    | Some i => if has_id i w' then mark_resolved W payload step else w'
                    | None => w'
                    end) l)
  = Some (mark_resolved W payload step).
Proof.
  intros Hf.
  assert (Hid : ws_id step = Some (step_id payload)).
  { apply has_id_inv. apply find_some in Hf. tauto. }
  simpl. rewrite Hid. clear Hid.
  assert (Hh : has_id (step_id payload) (mark_resolved W payload step) = true).
  { apply find_some in Hf. destruct Hf as [_ Hf]. exact Hf. }
  revert Hf. induction l as [| w rest IH]; simpl; intros Hf.
  - discriminate.
  - destruct (has_id (step_id payload) w) eqn:Ew.
    + rewrite Hh. reflexivity.
    + rewrite Ew. apply IH. exact Hf.
Qed.

Lemma find_app_some {A} (f : A -> bool) l l' x :
  find f l = Some x -> find f (l ++ l') = Some x.
Proof.
  induction l as [| y rest IH]; simpl; intros H.
  - discriminate.
  - destruct (f y); [exact H | auto].
Qed.



Lemma find_keeps_other {A} (f : A -> bool) (g : A -> A) l x :
  In x l -> (forall y, In y l -> f y = false -> g y = y) -> f x = false ->
  In x (map g l).
Proof.
  intros Hin Hg Hx. apply in_map_iff. exists x. split; [apply Hg; assumption | exact Hin].
Qed.

(** A successful rejection of a "Strategy Review", as a request. *)
Lemma resolve_reject_run project_id payload d step project :
  find (has_id (step_id payload)) (steps d) = Some step ->
  ws_project_id step = project_id ->
  ws_step_type step = "approval_gate"%string ->
  ws_title step = "Strategy Review"%string ->
  project_row d project_id = Some project ->
  String.eqb (action payload) "approve" || opt_eqb (chosen_option payload) "approve" = false ->
  exists resp d1,
    request (resolve_workflow_step W project_id payload) d = (inr resp, d1)
    /\ next_steps_created resp = 1%nat
    /\ steps d1
       = steps (store_resolution W payload step d)
         ++ [with_id (next_step_id (steps (store_resolution W payload step d)))
               (strategy_revisions_step (ws_sort_order step) project)]
    /\ project_row d1 project_id = Some (with_review_status "REJECTED" project).
Proof.
  intros Hf Hpid Htype Htitle Hp Ha.
  destruct (on_strategy_review_reject_run W (ws_sort_order step) project payload
              (open_session (store_resolution W payload step d)) Ha)
    as (s2 & Hr & He & Hprojects).
  assert (Hg : generate_next_steps W (mark_resolved W payload step) project payload
                 (open_session (store_resolution W payload step d))
               = (inr [strategy_revisions_step (ws_sort_order step) project], s2)).
  { unfold generate_next_steps. cbn [mark_resolved ws_step_type ws_title ws_sort_order].
    rewrite Htype, Htitle. cbn [String.eqb Ascii.eqb Bool.eqb andb]. exact Hr. }
  eexists. exists (txn s2).
  split; [apply (resolve_success_run project_id payload d step project _ s2 Hf Hpid Hp Hg) |].
  split; [reflexivity |].
  split; [apply (ext_steps _ _ _ _ _ _ He) |].
  unfold project_row. rewrite Hprojects.
  pose proof (project_row_id _ _ _ Hp) as Hid. rewrite <- Hid.
  apply project_row_updated; [rewrite Hid; exact Hp | reflexivity].
Qed.

Lemma not_approve payload :
  action payload <> "approve"%string ->
  chosen_option payload <> Some "approve"%string ->
  String.eqb (action payload) "approve" || opt_eqb (chosen_option payload) "approve" = false.
Proof.
  intros Ha Hc. apply orb_false_iff. split.
  - apply String.eqb_neq. exact Ha.
  - unfold opt_eqb. destruct (chosen_option payload) as [t |]; [| reflexivity].
    apply String.eqb_neq. intros ->. apply Hc. reflexivity.
Qed.

Lemma steps_store_resolution payload step d :
  ws_id step = Some (step_id payload) ->
  steps (store_resolution W payload step d)
  = map (fun w' => if has_id (step_id payload) w' then mark_resolved W payload step else w')
      (steps d).
Proof.
  intros Hid. unfold store_resolution, update_step, on_txn, open_session.
  cbn [snd txn set_steps steps mark_resolved ws_id]. rewrite Hid. reflexivity.
Qed.

(** X3.  The resolve endpoint does not look at the status of the step it
    is given: a step that is already resolved is resolved again and its
    transition runs again.  Rejecting the same "Strategy Review" twice
    leaves two active "Strategy Revisions" steps of the project, with
    different ids and the same sort order. *)
Theorem rejecting_twice_duplicates_revisions (project_id : Z)
    (payload : WorkflowResolvePayload) (d : Store) (step : WorkflowStep)
    (project : Project)
    (Hstep : find (has_id (step_id payload)) (steps d) = Some step)
    (Hpid : ws_project_id step = project_id)
    (Htype : ws_step_type step = "approval_gate"%string)
    (Htitle : ws_title step = "Strategy Review"%string)
    (Hproject : project_row d project_id = Some project)
    (Haction : action payload <> "approve"%string)
    (Hchosen : chosen_option payload <> Some "approve"%string) :
  exists resp1 d1 resp2 d2 w1 w2,
    request (resolve_workflow_step W project_id payload) d = (inr resp1, d1)
    /\ request (resolve_workflow_step W project_id payload) d1 = (inr resp2, d2)
    /\ next_steps_created resp2 = 1%nat
    /\ In w1 (steps d2) /\ In w2 (steps d2)
    /\ ws_id w1 <> ws_id w2
    /\ Forall (fun w => ws_project_id w = project_id
                        /\ ws_title w = "Strategy Revisions"%string
                        /\ ws_status w = "active"%string
                        /\ ws_sort_order w = ws_sort_order step + 1) [w1; w2].
Proof.
  pose proof (not_approve payload Haction Hchosen) as Ha.
  assert (Hid : ws_id step = Some (step_id payload)).
  { apply has_id_inv. apply find_some in Hstep. tauto. }
  destruct (resolve_reject_run project_id payload d step project
              Hstep Hpid Htype Htitle Hproject Ha)
    as (resp1 & d1 & H1 & _ & Hs1 & Hp1).
  set (step' := mark_resolved W payload step) in *.
  assert (Hfound : find (has_id (step_id payload)) (steps (store_resolution W payload step d))
                   = Some step').
  { unfold store_resolution, update_step, on_txn, open_session.
    cbn [snd txn set_steps steps]. apply find_resolved. exact Hstep. }
  assert (Hstep1 : find (has_id (step_id payload)) (steps d1) = Some step').
  { rewrite Hs1. apply find_app_some. exact Hfound. }
  destruct (resolve_reject_run project_id payload d1 step'
              (with_review_status "REJECTED" project)
              Hstep1 Hpid Htype Htitle Hp1 Ha)
    as (resp2 & d2 & H2 & Hn2 & Hs2 & _).
  set (n1 := next_step_id (steps (store_resolution W payload step d))) in *.
  set (w1 := with_id n1 (strategy_revisions_step (ws_sort_order step) project)) in *.
  assert (Hlt : step_id payload < n1).
  { apply (next_step_id_fresh _ step').
    - apply find_some in Hfound. tauto.
    - exact Hid. }
  assert (Hin1 : In w1 (steps (store_resolution W payload step' d1))).
  { rewrite (steps_store_resolution payload step' d1 Hid).
    apply in_map_iff. exists w1. split.
    - unfold has_id, w1. cbn [with_id ws_id].
      destruct (step_id payload =? n1) eqn:E; [apply Z.eqb_eq in E; lia | reflexivity].
    - rewrite Hs1. apply in_or_app. right. left. reflexivity. }
  exists resp1, d1, resp2, d2, w1.
  exists (with_id (next_step_id (steps (store_resolution W payload step' d1)))
            (strategy_revisions_step (ws_sort_order step')
               (with_review_status "REJECTED" project))).
  split; [exact H1 |]. split; [exact H2 |]. split; [exact Hn2 |].
  split; [rewrite Hs2; apply in_or_app; left; exact Hin1 |].
  split; [rewrite Hs2; apply in_or_app; right; left; reflexivity |].
  split.
  - pose proof (next_step_id_fresh _ w1 n1 Hin1 eq_refl) as Hlt2.
    unfold w1. intros E.
    assert (E' : n1 = next_step_id (steps (store_resolution W payload step' d1)))
      by (injection E as E; exact E).
    rewrite <- E' in Hlt2. apply (Z.lt_irrefl _ Hlt2).
  - repeat constructor; cbn [with_id w1 strategy_revisions_step ws_project_id];
      try reflexivity.
    + apply (project_row_id _ _ _ Hproject).
    + apply (project_row_id _ _ _ Hproject).
Qed.

(** X4.  A resolve request for a step id that the project does not have
    (no such row, or a row of another project) writes nothing and fails:
    with 404 "Step not found" when the id is a 64-bit integer, and with
    the [OverflowError] of the lookup when it is not. *)
Theorem resolve_foreign_step_is_404 (project_id : Z) (payload : WorkflowResolvePayload)
    (d : Store)
    (Hkeys : sqlite_rows d)
    (Hforeign : forall step, find (has_id (step_id payload)) (steps d) = Some step ->
                             ws_project_id step <> project_id) :
  request (resolve_workflow_step W project_id payload) d
  = (inl (if sqlite_integer (step_id payload)
          then HTTPException 404 "Step not found" else OverflowError), d).
Proof.
  destruct (find (has_id (step_id payload)) (steps d)) as [step |] eqn:Ef.
  - assert (Epid : (ws_project_id step =? project_id) = false).
    { apply Z.eqb_neq. apply Hforeign. reflexivity. }
    rewrite (resolve_foreign W _ _ _ _ Ef Epid).
    apply find_some in Ef. destruct Ef as [Hin Hid]. apply has_id_inv in Hid.
    rewrite (proj2 Hkeys step _ Hin Hid). reflexivity.
  - apply (resolve_missing W _ _ _ Ef).
Qed.

(** X5.  The answer of a resolve request counts the steps it inserted:
    the table of steps grows by [next_steps_created] rows, each of the
    project, and that number is zero exactly when the resolved step is
    none of the four the engine knows a transition for. *)
Theorem resolve_response_counts_steps (project_id : Z) (payload : WorkflowResolvePayload)
    (d d' : Store) (resp : ResolveResponse) (step : WorkflowStep)
    (Hrun : request (resolve_workflow_step W project_id payload) d = (inr resp, d'))
    (Hstep : find (has_id (step_id payload)) (steps d) = Some step) :
  length (steps d') = (length (steps d) + next_steps_created resp)%nat
  /\ (next_steps_created resp <= 2)%nat
  /\ (next_steps_created resp = 0%nat
      <-> known_transition (ws_step_type step) (ws_title step) = false).
Proof.
  apply resolve_success_inv in Hrun.
  destruct Hrun as (step' & project & created & s2 & Hf & Hpid & Hp & Hg & -> & Hn).
  rewrite Hstep in Hf. inversion Hf; subst step'; clear Hf.
  rewrite Hn.
  assert (Hlen : forall news l, length (insert_steps l news)
                                = (length l + length news)%nat).
  { induction news as [| w rest IH]; intros l; simpl.
    - lia.
    - rewrite IH, length_app. simpl. lia. }
  assert (Hcount : (length created <= 2)%nat
                   /\ (length created = 0%nat
                       <-> known_transition (ws_step_type step) (ws_title step) = false)).
  { clear Hlen. revert Hg. unfold generate_next_steps, known_transition.
    cbn [mark_resolved ws_step_type ws_title ws_sort_order].
    destruct (String.eqb (ws_step_type step) "input_needed"
              && String.eqb (ws_title step) "Project Brief").
    { intros Hg.
      destruct (on_project_brief_run W (ws_sort_order step) project payload
                  (open_session (store_resolution W payload step d))) as (s1 & Hr & _).
      rewrite Hr in Hg. inversion Hg; subst. simpl.
      split; [lia | split; discriminate]. }
    destruct (String.eqb (ws_step_type step) "decision_gate"
              && String.eqb (ws_title step) "Strategic Direction").
    { intros Hg. apply on_strategic_direction_inv in Hg.
      destruct Hg as (b & sm & ds & t & pr & ti & br & Hc & _). subst created. simpl.
      split; [lia | split; discriminate]. }
    destruct (String.eqb (ws_step_type step) "approval_gate"
              && String.eqb (ws_title step) "Strategy Review").
    { destruct (String.eqb (action payload) "approve"
                || opt_eqb (chosen_option payload) "approve") eqn:Ea; intros Hg.
      - apply (on_strategy_review_approve_inv W _ _ _ _ _ _ Ea) in Hg.
        destruct Hg as (b & c & sel & t & _ & _ & Hc & _). subst created. simpl.
        split; [lia | split; discriminate].
      - destruct (on_strategy_review_reject_run W (ws_sort_order step) project payload
                    (open_session (store_resolution W payload step d)) Ea)
          as (s1 & Hr & _).
        rewrite Hr in Hg. inversion Hg; subst. simpl.
        split; [lia | split; discriminate]. }
    destruct (String.eqb (ws_step_type step) "decision_gate"
              && String.eqb (ws_title step) "Deliverable Selection").
    { intros Hg. apply on_deliverable_selection_inv in Hg.
      destruct Hg as (c & t & ct & _ & Hc & _). subst created. simpl.
      split; [lia | split; discriminate]. }
    intros Hg. inversion Hg; subst. simpl. split; [lia | split; reflexivity]. }
  apply generate_next_steps_created in Hg. destruct Hg as (Hs & _ & _).
  rewrite Hs, Hlen.
  split; [| exact Hcount].
  f_equal. unfold store_resolution, update_step, on_txn, open_session.
  cbn [snd txn set_steps steps]. apply length_map.
Qed.

(** X6.  Generating the next steps never commits: whether it completes or
    raises, the committed database is the one it started from, and its
    writes are pending in the session until the caller commits. *)
Theorem generation_never_commits (resolved_step : WorkflowStep) (project : Project)
    (payload : WorkflowResolvePayload) (s : Session) :
  db (snd (generate_next_steps W resolved_step project payload s)) = db s.
Proof.
  apply (generate_next_steps_keeps_db W resolved_step project payload s).
Qed.

End Lifecycle.

(* ===================================================================== *)
(** ** Isolation: a request for one project leaves the others alone *)
(* ===================================================================== *)

Section Isolation.
Context (W : World).

Arguments String.append : simpl never.

Lemma filter_app_none {A} (f : A -> bool) l news :
  Forall (fun x => f x = false) news -> filter f (l ++ news) = filter f l.
Proof.
  intros H. rewrite filter_app.
  replace (filter f news) with (@nil A); [apply app_nil_r |].
  induction H as [| x rest Hx _ IH]; simpl; [reflexivity |]. rewrite Hx. exact IH.
Qed.

Lemma filter_insert_none (f : WorkflowStep -> bool) news :
  (forall i w, f (with_id i w) = f w) ->
  Forall (fun w => f w = false) news ->
  forall l, filter f (insert_steps l news) = filter f l.
Proof.
  intros Hf H. induction H as [| w rest Hw _ IH]; intros l; simpl.
  - reflexivity.
  - rewrite IH. apply filter_app_none. constructor; [| constructor].
    rewrite Hf. exact Hw.
Qed.

Lemma outside_projects_updated pid (q : Project) l :
  p_id q = pid ->
  filter (fun p => negb (p_id p =? pid)) (map (fun p' => if p_id p' =? pid then q else p') l)
  = filter (fun p => negb (p_id p =? pid)) l.
Proof.
  intros Hq. induction l as [| x rest IH]; simpl.
  - reflexivity.
  - destruct (p_id x =? pid) eqn:E; simpl.
    + rewrite Hq, Z.eqb_refl. simpl. exact IH.
    + rewrite E. simpl. f_equal. exact IH.
Qed.

Lemma outside_extended pid s s' news docs tks dels :
  extends s s' news docs tks dels ->
  Forall (fun w => ws_project_id w = pid) news ->
  Forall (fun x => doc_project_id x = pid) docs ->
  Forall (fun t => task_project_id t = Some pid) tks ->
  Forall (fun x => dl_project_id x = pid) dels ->
  filter (fun p => negb (p_id p =? pid)) (projects (txn s'))
  = filter (fun p => negb (p_id p =? pid)) (projects (txn s)) ->
  outside pid (txn s') = outside pid (txn s).
Proof.
  intros [_ Hs Hd Ht Hl] Hn Hdocs Htks Hdels Hp. unfold outside.
  rewrite Hp, Hs, Hd, Ht, Hl. f_equal.
  - apply filter_insert_none; [reflexivity |].
    eapply Forall_impl; [| exact Hn]. intros w ->. rewrite Z.eqb_refl. reflexivity.
  - apply filter_app_none.
    eapply Forall_impl; [| exact Hdocs]. intros x ->. rewrite Z.eqb_refl. reflexivity.
  - apply filter_app_none.
    eapply Forall_impl; [| exact Htks]. intros x ->. simpl. rewrite Z.eqb_refl. reflexivity.
  - apply filter_app_none.
    eapply Forall_impl; [| exact Hdels]. intros x ->. rewrite Z.eqb_refl. reflexivity.
Qed.

Lemma Forall_map_const {A B} (f : A -> B) (P : B -> Prop) l :
  (forall x, P (f x)) -> Forall P (map f l).
Proof.
  intros H. induction l; simpl; constructor; auto.
Qed.

(** What a generation that completes has written belongs to the project
    it was called for. *)
Lemma generate_next_steps_scoped resolved_step project payload s created s' :
  generate_next_steps W resolved_step project payload s = (inr created, s') ->
  outside (p_id project) (txn s') = outside (p_id project) (txn s).
Proof.
  unfold generate_next_steps. intros Hrun.
  destruct (String.eqb (ws_step_type resolved_step) "input_needed"
            && String.eqb (ws_title resolved_step) "Project Brief").
  { destruct (on_project_brief_run W (ws_sort_order resolved_step) project payload s)
      as (s1 & Hr & He & Hp).
    rewrite Hr in Hrun. inversion Hrun; subst.
    eapply outside_extended; [exact He | | | | |]; try (repeat constructor).
    rewrite Hp. destruct (str_truthy (input_text payload)); [| reflexivity].
    apply outside_projects_updated. reflexivity. }
  destruct (String.eqb (ws_step_type resolved_step) "decision_gate"
            && String.eqb (ws_title resolved_step) "Strategic Direction").
  { apply on_strategic_direction_inv in Hrun.
    destruct Hrun as (b & sm & d & t & pr & ti & br & Hc & He & Hp). subst created.
    eapply outside_extended; [exact He | | | | |]; try (repeat constructor).
    rewrite Hp. apply outside_projects_updated. reflexivity. }
  destruct (String.eqb (ws_step_type resolved_step) "approval_gate"
            && String.eqb (ws_title resolved_step) "Strategy Review").
  { destruct (String.eqb (action payload) "approve"
              || opt_eqb (chosen_option payload) "approve") eqn:Ea.
    - apply (on_strategy_review_approve_inv W _ _ _ _ _ _ Ea) in Hrun.
      destruct Hrun as (b & c & sel & t & _ & _ & Hc & He & Hp). subst created.
      eapply outside_extended; [exact He | | | | |]; try (repeat constructor).
      rewrite Hp. apply outside_projects_updated. reflexivity.
    - destruct (on_strategy_review_reject_run W (ws_sort_order resolved_step)
                  project payload s Ea) as (s1 & Hr & He & Hp).
      rewrite Hr in Hrun. inversion Hrun; subst.
      eapply outside_extended; [exact He | | | | |]; try (repeat constructor).
      rewrite Hp. apply outside_projects_updated. reflexivity. }
  destruct (String.eqb (ws_step_type resolved_step) "decision_gate"
            && String.eqb (ws_title resolved_step) "Deliverable Selection").
  { apply on_deliverable_selection_inv in Hrun.
    destruct Hrun as (c & t & ct & _ & Hc & He & Hp). subst created.
    eapply outside_extended; [exact He | | | | |]; try (repeat constructor).
    - apply Forall_app. split; apply Forall_map_const; reflexivity.
    - rewrite Hp. apply outside_projects_updated. reflexivity. }
  inversion Hrun; subst. reflexivity.
Qed.

Lemma outside_resolution payload step d pid :
  find (has_id (step_id payload)) (steps d) = Some step ->
  ws_project_id step = pid ->
  unique_step_ids (steps d) ->
  outside pid (store_resolution W payload step d) = outside pid d.
Proof.
  intros Hf Hpid Hkey.
  assert (Hid : ws_id step = Some (step_id payload)).
  { apply has_id_inv. apply find_some in Hf. tauto. }
  assert (Hin : In step (steps d)) by (apply find_some in Hf; tauto).
  unfold outside. rewrite (steps_store_resolution W payload step d Hid).
  unfold store_resolution, update_step, on_txn, open_session.
  cbn [snd txn set_steps projects documents tasks deliverables]. f_equal.
  assert (Hall : forall w, In w (steps d) -> has_id (step_id payload) w = true ->
                           ws_project_id w = pid).
  { intros w Hw Hh. apply has_id_inv in Hh.
    rewrite (Hkey w step Hw Hin); [exact Hpid | congruence]. }
  clear Hf Hin Hkey. induction (steps d) as [| w rest IH]; simpl.
  - reflexivity.
  - destruct (has_id (step_id payload) w) eqn:Eh.
    + cbn [mark_resolved ws_project_id]. rewrite Hpid, Z.eqb_refl. simpl.
      rewrite (Hall w (or_introl eq_refl) Eh), Z.eqb_refl. simpl.
      apply IH. intros w' Hw'. apply Hall. right. exact Hw'.
    + destruct (negb (ws_project_id w =? pid)).
      * f_equal. apply IH. intros w' Hw'. apply Hall. right. exact Hw'.
      * apply IH. intros w' Hw'. apply Hall. right. exact Hw'.
Qed.

(** X7.  Isolation.  Whatever a resolve request for one project does —
    answer, fail with 404, or raise half-way — every row that does not
    belong to that project is left as it was: the other projects, their
    steps, documents, tasks and deliverables, and the tasks of no
    project. *)
Theorem resolve_leaves_other_projects (project_id : Z) (payload : WorkflowResolvePayload)
    (d : Store) (Hkey : unique_step_ids (steps d)) :
  outside project_id (snd (request (resolve_workflow_step W project_id payload) d))
  = outside project_id d.
Proof.
  destruct (find (has_id (step_id payload)) (steps d)) as [step |] eqn:Ef.
  2: { rewrite (resolve_missing W _ _ _ Ef). reflexivity. }
  destruct (ws_project_id step =? project_id) eqn:Epid.
  2: { rewrite (resolve_foreign W _ _ _ _ Ef Epid). reflexivity. }
  rewrite (resolve_found W _ _ _ _ Ef Epid).
  apply Z.eqb_eq in Epid.
  pose proof (outside_resolution payload step d project_id Ef Epid Hkey) as Hres.
  destruct (project_row (store_resolution W payload step d) project_id)
    as [project |] eqn:Ep; [| exact Hres].
  assert (Hp : p_id project = project_id) by apply (project_row_id _ _ _ Ep).
  destruct (generate_next_steps W (mark_resolved W payload step) project payload
              (open_session (store_resolution W payload step d)))
    as [[e | created] s2] eqn:Eg; [exact Hres |].
  apply generate_next_steps_scoped in Eg.
  rewrite Hp in Eg. cbn [snd]. rewrite Eg. exact Hres.
Qed.

End Isolation.

(* ===================================================================== *)
(** ** The approval and the selection it writes *)
(* ===================================================================== *)

Section Approval.
Context (W : World).

Arguments String.append : simpl never.

Lemma approval_branch resolved_step project payload s :
  ws_step_type resolved_step = "approval_gate"%string ->
  ws_title resolved_step = "Strategy Review"%string ->
  generate_next_steps W resolved_step project payload s
  = on_strategy_review W (ws_sort_order resolved_step) project payload s.
Proof.
  intros Htype Htitle. unfold generate_next_steps. rewrite Htype, Htitle. reflexivity.
Qed.

(** X8.  The options of the "Deliverable Selection" step are the catalog
    itself: the nine entries in catalog order, each one unchanged but for
    one added boolean, "selected".  With a positive budget an entry is
    only marked selected if the recommendation names it. *)
Theorem selection_options_annotate_catalog (resolved_step : WorkflowStep)
    (project : Project) (payload : WorkflowResolvePayload) (s s' : Session)
    (created : list WorkflowStep)
    (Htype : ws_step_type resolved_step = "approval_gate"%string)
    (Htitle : ws_title resolved_step = "Strategy Review"%string)
    (Happrove : String.eqb (action payload) "approve"
                || opt_eqb (chosen_option payload) "approve" = true)
    (Hrun : generate_next_steps W resolved_step project payload s = (inr created, s')) :
  exists budget milestone selection options,
    (if float_truthy (p_budget_cap project)
     then float_int (p_budget_cap project) else ok 0) = inr budget
    /\ created = [milestone; selection]
    /\ ws_options_json selection = JArr (map JObj options)
    /\ Forall2 (fun item item' =>
                  item' = dict_set "selected" (JBool (is_selected item')) item
                  /\ (0 < budget -> is_selected item' = true ->
                      is_recommended W (recommended_keys_for W project budget catalog) item
                      = true))
         catalog options.
Proof.
  rewrite (approval_branch _ _ _ _ Htype Htitle) in Hrun.
  apply (on_strategy_review_approve_inv W _ _ _ _ _ _ Happrove) in Hrun.
  destruct Hrun as (budget & catalog' & selected & total & Hb & Hs & Hc & _).
  exists budget. eexists. eexists. exists catalog'.
  split; [exact Hb |]. split; [exact Hc |]. split; [reflexivity |].
  apply (select_loop_marks W _ _ _ _ _ _ _ _ Hs).
Qed.

Lemma recommended_keys_of_recommender project budget cat rk :
  recommend_deliverables_llm W (p_name project) (p_client_brief project) budget cat
  = inr rk ->
  recommended_keys_for W project budget cat = rk.
Proof.
  intros H. unfold recommended_keys_for, DirectorAgent_run. simpl. rewrite H. reflexivity.
Qed.

Lemma catalog_has_keys_and_costs : forallb (has_key_and_cost W) catalog = true.
Proof. reflexivity. Qed.

Lemma catalog_costs_nonneg : Forall (fun d => 0 <= cost_or_zero W d) catalog.
Proof. repeat constructor; discriminate. Qed.

(** X9.  Without a reply of the LLM — no client configured, or a call
    that fails — approving the strategy with a positive budget selects
    the first-fit pass over the catalog: whichever of its two substitute
    policies the recommender used, the greedy pass of the engine marks
    exactly the entries that first fit takes. *)
Theorem approval_without_llm_selects_first_fit (resolved_step : WorkflowStep)
    (project : Project) (payload : WorkflowResolvePayload) (s s' : Session)
    (created : list WorkflowStep) (budget : Z)
    (Htype : ws_step_type resolved_step = "approval_gate"%string)
    (Htitle : ws_title resolved_step = "Strategy Review"%string)
    (Happrove : String.eqb (action payload) "approve"
                || opt_eqb (chosen_option payload) "approve" = true)
    (Hllm : llm W = NoClient \/ llm W = LlmFails)
    (Hbudget : (if float_truthy (p_budget_cap project)
                then float_int (p_budget_cap project) else ok 0) = inr budget)
    (Hpos : 0 < budget)
    (Hrun : generate_next_steps W resolved_step project payload s = (inr created, s')) :
  exists milestone selection options,
    created = [milestone; selection]
    /\ ws_title selection = "Deliverable Selection"%string
    /\ ws_options_json selection = JArr (map JObj options)
    /\ map is_selected options = first_fit_marks W budget catalog
    /\ selected_cost W options = total_cost W (first_fit W budget catalog).
Proof.
  rewrite (approval_branch _ _ _ _ Htype Htitle) in Hrun.
  apply (on_strategy_review_approve_inv W _ _ _ _ _ _ Happrove) in Hrun.
  destruct Hrun as (budget' & catalog' & selected & total & Hb & Hs & Hc & _).
  rewrite Hbudget in Hb. inversion Hb; subst budget'; clear Hb.
  assert (Hrec : exists rk,
             recommend_deliverables_llm W (p_name project) (p_client_brief project)
               budget catalog = inr rk).
  { unfold recommend_deliverables_llm. destruct Hllm as [-> | ->].
    - rewrite (simple_fit_filter W budget catalog catalog_has_keys_and_costs).
      eexists. reflexivity.
    - eexists. reflexivity. }
  destruct Hrec as (rk & Hrec).
  rewrite (recommended_keys_of_recommender _ _ _ _ Hrec) in Hs.
  pose proof (engine_selection_first_fit W _ _ _ _ _ _ _ _ Hpos
                catalog_has_keys_and_costs catalog_costs_nonneg Hllm Hrec Hs) as Hmarks.
  eexists. eexists. exists catalog'.
  split; [exact Hc |]. split; [reflexivity |]. split; [reflexivity |].
  split; [exact Hmarks |].
  apply select_loop_marks in Hs.
  clear - Hmarks Hs. revert Hmarks. generalize budget.
  induction Hs as [| item item' rest rest' [Hi _] _ IH]; intros b Hm.
  - reflexivity.
  - simpl in Hm. simpl.
    assert (Hcost : cost_or_zero W item' = cost_or_zero W item).
    { rewrite Hi. apply marked_cost. }
    rewrite Hcost.
    destruct (cost_or_zero W item <=? b); injection Hm as Hm1 Hm2; rewrite Hm1.
    + simpl. f_equal. apply IH. exact Hm2.
    + apply IH. exact Hm2.
Qed.

(** X10.  The "Deliverable Selection" step that an approval writes can
    always be resolved: whatever the payload and the state of the session,
    generating the next steps from it completes and creates two steps. *)
Theorem written_selection_always_resolves (resolved_step : WorkflowStep)
    (project : Project) (payload : WorkflowResolvePayload) (s s' : Session)
    (created : list WorkflowStep)
    (Htype : ws_step_type resolved_step = "approval_gate"%string)
    (Htitle : ws_title resolved_step = "Strategy Review"%string)
    (Happrove : String.eqb (action payload) "approve"
                || opt_eqb (chosen_option payload) "approve" = true)
    (Hrun : generate_next_steps W resolved_step project payload s = (inr created, s')) :
  exists milestone selection,
    created = [milestone; selection]
    /\ ws_title selection = "Deliverable Selection"%string
    /\ forall project' payload' s2,
         exists created2 s3,
           generate_next_steps W selection project' payload' s2 = (inr created2, s3)
           /\ length created2 = 2%nat.
Proof.
  rewrite (approval_branch _ _ _ _ Htype Htitle) in Hrun.
  pose proof Hrun as Hinv.
  apply (on_strategy_review_approve_inv W _ _ _ _ _ _ Happrove) in Hinv.
  destruct Hinv as (budget & catalog' & selected & total & _ & _ & Hc & _).
  subst created. eexists. eexists.
  split; [reflexivity |]. split; [reflexivity |].
  intros project' payload' s2.
  destruct (written_selection_resolves W _ _ _ _ _ _ _ project' payload' s2 Happrove Hrun)
    as (created2 & s3 & Hr).
  exists created2, s3. split; [exact Hr |].
  unfold generate_next_steps in Hr. simpl in Hr.
  apply on_deliverable_selection_inv in Hr.
  destruct Hr as (c & t & ct & _ & -> & _). reflexivity.
Qed.

End Approval.

(* ===================================================================== *)
(** ** The chosen direction *)
(* ===================================================================== *)

Section Directions.
Context (W : World).

Arguments String.append : simpl never.

Lemma first_with_key_pick chosen options :
  forall first d,
  first_with_key chosen options first = inr d ->
  d = pick_direction chosen options first.
Proof.
  unfold pick_direction.
  induction options as [| o rest IH]; intros first d H; simpl in H.
  - inversion H. reflexivity.
  - apply rbind_inv in H. destruct H as (k & Hk & H).
    simpl. unfold key_is at 1. rewrite Hk.
    destruct (py_eq_str k chosen).
    + inversion H. reflexivity.
    + apply IH. exact H.
Qed.

Lemma direction_branch resolved_step project payload s :
  ws_step_type resolved_step = "decision_gate"%string ->
  ws_title resolved_step = "Strategic Direction"%string ->
  generate_next_steps W resolved_step project payload s
  = on_strategic_direction W (ws_sort_order resolved_step) resolved_step project payload s.
Proof.
  intros Htype Htitle. unfold generate_next_steps. rewrite Htype, Htitle. reflexivity.
Qed.

(** X11.  Which direction a resolution of "Strategic Direction" works
    with: the first stored option whose key equals the chosen option
    ("A" when the payload has none) and, when no option has that key, the
    first stored option, silently.  The executive summary of the project
    becomes the title and the description of that direction. *)
Theorem direction_is_chosen_or_first (resolved_step : WorkflowStep)
    (project : Project) (payload : WorkflowResolvePayload) (s s' : Session)
    (created : list WorkflowStep)
    (Htype : ws_step_type resolved_step = "decision_gate"%string)
    (Htitle : ws_title resolved_step = "Strategic Direction"%string)
    (Hrow : project_row (txn s) (p_id project) = Some project)
    (Hrun : generate_next_steps W resolved_step project payload s = (inr created, s')) :
  exists options first title description p',
    py_iter (ws_options_json resolved_step) = inr options
    /\ py_index0 (ws_options_json resolved_step) = inr first
    /\ py_getitem (pick_direction (str_or (chosen_option payload) "A") options first)
         "title" = inr title
    /\ py_getitem (pick_direction (str_or (chosen_option payload) "A") options first)
         "description" = inr description
    /\ project_row (txn s') (p_id project) = Some p'
    /\ p_executive_summary p'
       = Some (py_str W title ++ ": " ++ py_str W description)%string.
Proof.
  rewrite (direction_branch _ _ _ _ Htype Htitle) in Hrun.
  unfold on_strategic_direction in Hrun. run_in Hrun.
  ok_in Hrun as chosen_dir. ok_in Hrun as summary. ok_in Hrun as body.
  ok_in Hrun as project'.
  inversion Hrun; subst; clear Hrun.
  apply rbind_inv in Echosen_dir. destruct Echosen_dir as (options & Ho & E).
  apply rbind_inv in E. destruct E as (first & Hfirst & E).
  apply first_with_key_pick in E. subst chosen_dir.
  apply rbind_inv in Eproject'. destruct Eproject' as (title & Ht & E).
  apply rbind_inv in E. destruct E as (description & Hd & E).
  apply rbind_inv in E. destruct E as (tensions & _ & E).
  apply rbind_inv in E. destruct E as (principles & _ & E).
  inversion E; subst; clear E.
  exists options, first, title, description.
  exists (with_strategy (py_str W title ++ ": " ++ py_str W description)%string
            tensions principles project).
  split; [exact Ho |]. split; [exact Hfirst |]. split; [exact Ht |].
  split; [exact Hd |]. split; [| reflexivity].
  unfold project_row. cbn [txn set_projects set_documents set_steps set_tasks projects].
  apply (project_row_updated (txn s) project); [exact Hrow | reflexivity].
Qed.

End Directions.
(* ===================================================================== *)
(** ** White space and [strip] *)
(* ===================================================================== *)

Section WhiteSpace.

Arguments String.append : simpl never.

Lemma string_app_assoc (a b c : string) : ((a ++ b) ++ c = a ++ (b ++ c))%string.
Proof.
  induction a as [| x a' IH]; [reflexivity |].
  change (String x ((a' ++ b) ++ c) = String x (a' ++ (b ++ c)))%string.
  rewrite IH. reflexivity.
Qed.

Lemma string_app_nil (a : string) : (a ++ "")%string = a.
Proof.
  induction a as [| x a' IH]; [reflexivity |].
  change (String x (a' ++ "") = String x a')%string. rewrite IH. reflexivity.
Qed.

Lemma length_app_string (s p : string) :
  String.length (s ++ p) = (String.length s + String.length p)%nat.
Proof.
  induction s as [| c s' IH]; [reflexivity |].
  change (S (String.length (s' ++ p)) = S (String.length s' + String.length p)).
  rewrite IH. reflexivity.
Qed.

(** What holds of each of the white-space characters holds of any. *)
Lemma white_space_all (p : string -> bool) :
  forallb p white_space = true -> forall w, In w white_space -> p w = true.
Proof. intros H. apply forallb_forall. exact H. Qed.

Lemma is_space_In w : is_space w = true <-> In w white_space.
Proof.
  unfold is_space. rewrite existsb_exists. split.
  - intros (x & Hx & E). apply String.eqb_eq in E. subst. exact Hx.
  - intros H. exists w. split; [exact H | apply String.eqb_refl].
Qed.

(** A white-space character takes one, two or three bytes. *)
Lemma white_space_shape w :
  In w white_space ->
  (exists a, w = String a "")
  \/ (exists a b, w = String a (String b ""))
  \/ (exists a b c, w = String a (String b (String c ""))).
Proof.
  intros H.
  pose proof (white_space_all
                (fun w => match w with
                          | String _ "" | String _ (String _ "")
                          | String _ (String _ (String _ "")) => true
                          | _ => false
                          end) eq_refl w H) as Hs.
  destruct w as [| a [| b [| c [| d w']]]]; try discriminate Hs.
  - left. exists a. reflexivity.
  - right. left. exists a, b. reflexivity.
  - right. right. exists a, b, c. reflexivity.
Qed.

Lemma white_space_length w :
  In w white_space -> (1 <= String.length w <= 3)%nat.
Proof.
  intros H. destruct (white_space_shape w H) as [(a & ->) | [(a & b & ->) | (a & b & c & ->)]];
    simpl; lia.
Qed.

(** *** [lstrip] *)

Lemma lstrip_white w s : In w white_space -> lstrip (w ++ s) = lstrip s.
Proof.
  intros H. unfold white_space in H.
  repeat (destruct H as [<- | H]; [reflexivity |]). destruct H.
Qed.

(** Either nothing is stripped, and no white-space character starts the
    text, or one white-space character goes and the rest is stripped. *)
Lemma lstrip_cases s :
  (lstrip s = s /\ forall w r, In w white_space -> s <> (w ++ r)%string)
  \/ (exists w r, In w white_space /\ s = (w ++ r)%string /\ lstrip s = lstrip r).
Proof.
  assert (Hno : forall t : string,
            (forall a r, t = String a r -> is_space (String a "") = false) ->
            (forall a b r, t = String a (String b r) ->
                           is_space (String a (String b "")) = false) ->
            (forall a b c r, t = String a (String b (String c r)) ->
                             is_space (String a (String b (String c ""))) = false) ->
            forall w r, In w white_space -> t <> (w ++ r)%string).
  { intros t H1 H2 H3 w r Hw E.
    pose proof (proj2 (is_space_In w) Hw) as Hsp.
    destruct (white_space_shape w Hw) as [(a & ->) | [(a & b & ->) | (a & b & c & ->)]].
    - rewrite (H1 a r E) in Hsp. discriminate.
    - rewrite (H2 a b r E) in Hsp. discriminate.
    - rewrite (H3 a b c r E) in Hsp. discriminate. }
  destruct s as [| a s1].
  { left. split; [reflexivity |]. apply Hno; intros; discriminate. }
  destruct (is_space (String a "")) eqn:E1.
  { right. exists (String a ""), s1. split; [apply is_space_In; exact E1 |].
    split; [reflexivity |]. cbn [lstrip]. rewrite E1. reflexivity. }
  destruct s1 as [| b s2].
  { left. split; [cbn [lstrip]; rewrite E1; reflexivity |].
    apply Hno; intros; try discriminate. congruence. }
  destruct (is_space (String a (String b ""))) eqn:E2.
  { right. exists (String a (String b "")), s2.
    split; [apply is_space_In; exact E2 |].
    split; [reflexivity |]. cbn [lstrip]. rewrite E1, E2. reflexivity. }
  destruct s2 as [| c s3].
  { left. split; [cbn [lstrip]; rewrite E1, E2; reflexivity |].
    apply Hno; intros; try discriminate; congruence. }
  destruct (is_space (String a (String b (String c "")))) eqn:E3.
  { right. exists (String a (String b (String c ""))), s3.
    split; [apply is_space_In; exact E3 |].
    split; [reflexivity |]. cbn [lstrip]. rewrite E1, E2, E3. reflexivity. }
  left. split; [cbn [lstrip]; rewrite E1, E2, E3; reflexivity |].
  apply Hno; intros; congruence.
Qed.

(** What [lstrip] returns is the end of the text, after white space only,
    and no white-space character starts it. *)
Lemma lstrip_spec s :
  (exists pad, all_space pad /\ s = (pad ++ lstrip s)%string)
  /\ forall w r, In w white_space -> lstrip s <> (w ++ r)%string.
Proof.
  remember (String.length s) as n eqn:Hn. revert s Hn.
  induction n as [n IH] using lt_wf_ind. intros s Hn.
  destruct (lstrip_cases s) as [[E Hfree] | (w & r & Hw & -> & E)].
  - rewrite E. split; [| exact Hfree]. exists ""%string. split; [constructor | reflexivity].
  - rewrite E.
    assert (Hlt : (String.length r < n)%nat).
    { rewrite Hn, length_app_string. pose proof (white_space_length w Hw). lia. }
    destruct (IH _ Hlt r eq_refl) as [(pad & Hpad & Hr) Hfree].
    split; [| exact Hfree].
    exists (w ++ pad)%string. split; [constructor; assumption |].
    rewrite string_app_assoc, <- Hr. reflexivity.
Qed.

Lemma lstrip_free s :
  (forall w r, In w white_space -> s <> (w ++ r)%string) -> lstrip s = s.
Proof.
  intros H. destruct (lstrip_cases s) as [[E _] | (w & r & Hw & E & _)]; [exact E |].
  exfalso. exact (H w r Hw E).
Qed.

Lemma all_space_one w : is_space w = true -> all_space w.
Proof.
  intros H. rewrite <- (string_app_nil w).
  constructor; [apply is_space_In; exact H | constructor].
Qed.

Lemma lstrip_padding pad s : all_space pad -> lstrip (pad ++ s) = lstrip s.
Proof.
  induction 1 as [| w pad' Hw _ IH]; [reflexivity |].
  rewrite string_app_assoc, (lstrip_white _ _ Hw). exact IH.
Qed.

(** *** [rstrip] *)

Lemma rstrip_white w : In w white_space -> rstrip w = ""%string.
Proof.
  intros H.
  apply String.eqb_eq.
  exact (white_space_all (fun w => String.eqb (rstrip w) "") eq_refl w H).
Qed.

Lemma rstrip_app_space u t : rstrip t = ""%string -> rstrip (u ++ t) = rstrip u.
Proof.
  intros H. induction u as [| c u' IH]; [exact H |].
  change (String c u' ++ t)%string with (String c (u' ++ t)).
  cbn [rstrip]. rewrite IH. reflexivity.
Qed.

Lemma rstrip_all_space pad : all_space pad -> rstrip pad = ""%string.
Proof.
  induction 1 as [| w pad' Hw _ IH]; [reflexivity |].
  rewrite (rstrip_app_space _ _ IH). apply rstrip_white. exact Hw.
Qed.

Lemma rstrip_padding s pad : all_space pad -> rstrip (s ++ pad) = rstrip s.
Proof. intros H. apply rstrip_app_space, rstrip_all_space. exact H. Qed.

(** What [rstrip] returns is the start of the text, before white space
    only, and no white-space character ends it. *)
Lemma rstrip_prefix s : exists u, s = (rstrip s ++ u)%string.
Proof.
  induction s as [| c s' [u IH]].
  - exists ""%string. reflexivity.
  - cbn [rstrip]. destruct (is_space (String c (rstrip s'))).
    + exists (String c s'). reflexivity.
    + exists u. change (String c (rstrip s') ++ u)%string with (String c (rstrip s' ++ u)).
      rewrite <- IH. reflexivity.
Qed.

Lemma app_nil_inv (a b : string) : (a ++ b)%string = ""%string -> a = ""%string /\ b = ""%string.
Proof. destruct a; [intros H; split; [reflexivity | exact H] | discriminate]. Qed.

Lemma white_space_nonempty w : In w white_space -> w <> ""%string.
Proof. intros H E. pose proof (white_space_length w H) as L. rewrite E in L. simpl in L. lia. Qed.

Lemma rstrip_free_of_white s :
  forall w r, In w white_space -> rstrip s <> (r ++ w)%string.
Proof.
  induction s as [| c s' IH]; intros w r Hw E.
  - symmetry in E. apply app_nil_inv in E. exact (white_space_nonempty w Hw (proj2 E)).
  - cbn [rstrip] in E. destruct (is_space (String c (rstrip s'))) eqn:Es.
    + symmetry in E. apply app_nil_inv in E. exact (white_space_nonempty w Hw (proj2 E)).
    + destruct r as [| x r'].
      * change (""%string ++ w)%string with w in E. subst w.
        apply is_space_In in Hw. rewrite Hw in Es. discriminate.
      * change (String x r' ++ w)%string with (String x (r' ++ w)) in E.
        injection E as _ E. exact (IH w r' Hw E).
Qed.

Lemma rstrip_free s :
  (forall w r, In w white_space -> s <> (r ++ w)%string) -> rstrip s = s.
Proof.
  induction s as [| c s' IH]; intros H; [reflexivity |].
  cbn [rstrip].
  assert (Hs' : rstrip s' = s').
  { apply IH. intros w r Hw E. apply (H w (String c r) Hw).
    change (String c r ++ w)%string with (String c (r ++ w)). rewrite E. reflexivity. }
  rewrite Hs'. destruct (is_space (String c s')) eqn:Es; [| reflexivity].
  exfalso. apply is_space_In in Es. exact (H (String c s') ""%string Es eq_refl).
Qed.

Lemma rstrip_idem s : rstrip (rstrip s) = rstrip s.
Proof. apply rstrip_free. apply rstrip_free_of_white. Qed.

(** *** [strip] *)

Lemma strip_trimmed s : is_trimmed (strip s).
Proof.
  intros w r Hw. unfold strip. split.
  - intros E. destruct (rstrip_prefix (lstrip s)) as [u Hu].
    rewrite E, string_app_assoc in Hu.
    exact (proj2 (lstrip_spec s) w (r ++ u)%string Hw Hu).
  - apply rstrip_free_of_white. exact Hw.
Qed.

Lemma strip_of_trimmed s : is_trimmed s -> strip s = s.
Proof.
  intros H. unfold strip. rewrite lstrip_free.
  - apply rstrip_free. intros w r Hw. exact (proj2 (H w r Hw)).
  - intros w r Hw. exact (proj1 (H w r Hw)).
Qed.

(** A text that [strip] leaves as it is is trimmed. *)
Lemma trimmed_of_strip s : strip s = s -> is_trimmed s.
Proof. intros E. rewrite <- E. apply strip_trimmed. Qed.

End WhiteSpace.

(* ===================================================================== *)
(** ** The comma-separated inputs *)
(* ===================================================================== *)

Section CommaLists.

Arguments String.append : simpl never.

Lemma no_comma_app a b : no_comma (a ++ b) = no_comma a && no_comma b.
Proof.
  induction a as [| c a' IH]; [reflexivity |].
  change (String c a' ++ b)%string with (String c (a' ++ b)).
  cbn [no_comma]. rewrite IH. apply andb_assoc.
Qed.

Lemma lstrip_no_comma s : no_comma s = true -> no_comma (lstrip s) = true.
Proof.
  intros H. destruct (proj1 (lstrip_spec s)) as (pad & _ & E).
  rewrite E, no_comma_app in H. apply andb_true_iff in H. tauto.
Qed.

Lemma rstrip_no_comma s : no_comma s = true -> no_comma (rstrip s) = true.
Proof.
  intros H. destruct (rstrip_prefix s) as [u E].
  rewrite E, no_comma_app in H. apply andb_true_iff in H. tauto.
Qed.

Lemma split_no_comma s : Forall (fun k => no_comma k = true) (split ","%char s).
Proof.
  induction s as [| c s' IH]; simpl.
  - repeat constructor.
  - destruct (Ascii.eqb c ","%char) eqn:Ec.
    + constructor; [reflexivity | exact IH].
    + destruct (split ","%char s') as [| w ws].
      * repeat constructor. simpl. rewrite Ec. reflexivity.
      * inversion IH; subst. constructor; [| assumption].
        simpl. rewrite Ec. simpl. assumption.
Qed.

(** X12.  What the engine reads out of a comma-separated input (the
    custom deliverables, the chosen keys): every entry is non-empty, no
    white-space character of Unicode starts or ends it, and it contains
    no comma. *)
Theorem comma_list_entries (s : string) : Forall is_entry (comma_list s).
Proof.
  unfold comma_list. apply Forall_forall. intros k Hk.
  apply filter_In in Hk. destruct Hk as [Hin Hne].
  apply in_map_iff in Hin. destruct Hin as (x & <- & Hx).
  split; [| split].
  - intros E. rewrite E in Hne. discriminate.
  - apply strip_trimmed.
  - unfold strip. apply rstrip_no_comma, lstrip_no_comma.
    pose proof (split_no_comma s) as Hall. rewrite Forall_forall in Hall.
    apply Hall. exact Hx.
Qed.

Lemma split_single k : no_comma k = true -> split ","%char k = [k].
Proof.
  induction k as [| c k' IH]; simpl; intros H.
  - reflexivity.
  - apply andb_true_iff in H. destruct H as [H1 H2].
    apply negb_true_iff in H1. rewrite H1. rewrite (IH H2). reflexivity.
Qed.

Lemma split_app k rest :
  no_comma k = true ->
  split ","%char (k ++ String ","%char rest) = k :: split ","%char rest.
Proof.
  induction k as [| c k' IH]; intros H.
  - reflexivity.
  - change (String c k' ++ String ","%char rest)%string
      with (String c (k' ++ String ","%char rest)).
    cbn [no_comma] in H. apply andb_true_iff in H. destruct H as [H1 H2].
    apply negb_true_iff in H1. cbn [split]. rewrite H1. rewrite (IH H2). reflexivity.
Qed.

Lemma strip_entry k : is_entry k -> strip k = k.
Proof. intros (_ & H & _). apply strip_of_trimmed. exact H. Qed.

Lemma strip_padded_entry k : is_entry k -> strip (String " "%char k) = k.
Proof.
  intros H. unfold strip.
  change (String " "%char k) with (" " ++ k)%string.
  rewrite lstrip_white by (apply is_space_In; reflexivity).
  apply (strip_entry k H).
Qed.

(** A text that is not empty, has no comma and is left as it is by
    [strip] is an entry. *)
Lemma entry_by_strip k :
  k <> ""%string -> strip k = k -> no_comma k = true -> is_entry k.
Proof.
  intros Hne Hs Hc. split; [exact Hne |]. split; [apply trimmed_of_strip; exact Hs | exact Hc].
Qed.

Lemma entry_nonempty k : is_entry k -> negb (String.eqb k "") = true.
Proof.
  intros (Hne & _). apply negb_true_iff. apply String.eqb_neq. exact Hne.
Qed.

Lemma comma_list_padded ks :
  Forall is_entry ks ->
  ks <> [] ->
  filter (fun k => negb (String.eqb k ""))
    (map strip (split ","%char (String " "%char (join ", " ks)))) = ks.
Proof.
  induction ks as [| k rest IH]; intros Hall Hne.
  - contradiction.
  - inversion Hall as [| ? ? Hk Hrest]; subst.
    destruct rest as [| k2 rest'].
    + cbn [join]. destruct Hk as (Hk1 & Hk2 & Hk3).
      assert (Hs : split ","%char (String " "%char k) = [String " "%char k]).
      { apply split_single. cbn [no_comma]. rewrite Hk3. reflexivity. }
      rewrite Hs. cbn [map filter].
      rewrite (strip_padded_entry k (conj Hk1 (conj Hk2 Hk3))).
      rewrite (entry_nonempty k (conj Hk1 (conj Hk2 Hk3))). reflexivity.
    + change (join ", " (k :: k2 :: rest'))
        with (k ++ String ","%char (String " "%char (join ", " (k2 :: rest'))))%string.
      change (String " "%char (k ++ String ","%char
                (String " "%char (join ", " (k2 :: rest')))))%string
        with ((String " "%char k) ++ String ","%char
                (String " "%char (join ", " (k2 :: rest'))))%string.
      rewrite split_app.
      * cbn [map filter]. rewrite (strip_padded_entry k Hk), (entry_nonempty k Hk).
        f_equal. apply IH; [exact Hrest | discriminate].
      * cbn [no_comma]. destruct Hk as (_ & _ & Hk3). rewrite Hk3. reflexivity.
Qed.

(** X13.  Reading back a list that was written with ", " between its
    entries gives the list: [comma_list] undoes [", ".join]. *)
Theorem comma_list_join (ks : list string) (Hall : Forall is_entry ks) :
  comma_list (join ", " ks) = ks.
Proof.
  unfold comma_list.
  destruct ks as [| k rest]; [reflexivity |].
  inversion Hall as [| ? ? Hk Hrest]; subst.
  destruct rest as [| k2 rest'].
  - cbn [join]. destruct Hk as (Hk1 & Hk2 & Hk3).
    rewrite (split_single k Hk3). cbn [map filter].
    rewrite (strip_entry k (conj Hk1 (conj Hk2 Hk3))).
    rewrite (entry_nonempty k (conj Hk1 (conj Hk2 Hk3))). reflexivity.
  - change (join ", " (k :: k2 :: rest'))
      with (k ++ String ","%char (String " "%char (join ", " (k2 :: rest'))))%string.
    rewrite split_app by (destruct Hk as (_ & _ & Hk3); exact Hk3).
    cbn [map filter]. rewrite (strip_entry k Hk), (entry_nonempty k Hk).
    f_equal. apply comma_list_padded; [exact Hrest | discriminate].
Qed.

(** The white space of Unicode is stripped like the ASCII one: here a
    no-break space after "website", an em space before "b". *)
Lemma comma_list_unicode_spaces :
  comma_list ("website" ++ utf8 0xA0 ++ ", a" ++ utf8 0xA0 ++ " ," ++ utf8 0x2003 ++ "b")
  = ["website"; "a"; "b"]%string.
Proof. reflexivity. Qed.

End CommaLists.

(* ===================================================================== *)
(** ** Confirming the deliverables *)
(* ===================================================================== *)

Section Confirmation.
Context (W : World).

Arguments String.append : simpl never.

Lemma str_or_falsy o : str_truthy o = false -> str_or o "" = ""%string.
Proof.
  destruct o as [t |]; simpl; [| reflexivity].
  destruct (String.eqb t "") eqn:E; [reflexivity | discriminate].
Qed.

Lemma none_chosen catalog : filter (item_chosen W []) catalog = [].
Proof.
  induction catalog as [| item rest IH]; simpl; [reflexivity |].
  unfold item_chosen at 1. destruct (py_get item "key" (JStr "")); simpl; exact IH.
Qed.

Lemma deliverables_loop_none pid catalog :
  forall total_cost created_titles s total_cost' created_titles' s',
  deliverables_loop W pid [] catalog total_cost created_titles s
    = (inr (total_cost', created_titles'), s') ->
  total_cost' = total_cost /\ created_titles' = created_titles.
Proof.
  induction catalog as [| item rest IH]; intros tc ct s tc' ct' s' H.
  - simpl in H. inversion H. split; reflexivity.
  - simpl in H. run_in H. ok_in H as key. simpl in H. apply IH in H. exact H.
Qed.

(** X14.  The pre-selection is not read back.  Resolving "Deliverable
    Selection" creates deliverables for the keys of the payload only: a
    payload without chosen option and without input text creates no
    deliverable at all, whatever entries the stored options mark as
    selected, and still approves the project and moves it to the stage
    "Design", with a milestone that reports 0 deliverables. *)
Theorem empty_selection_still_advances (resolved_step : WorkflowStep)
    (project : Project) (payload : WorkflowResolvePayload) (s s' : Session)
    (created : list WorkflowStep)
    (Htype : ws_step_type resolved_step = "decision_gate"%string)
    (Htitle : ws_title resolved_step = "Deliverable Selection"%string)
    (Hrow : project_row (txn s) (p_id project) = Some project)
    (Hchosen : str_truthy (chosen_option payload) = false)
    (Hinput : str_truthy (input_text payload) = false)
    (Hrun : generate_next_steps W resolved_step project payload s = (inr created, s')) :
  deliverables (txn s') = deliverables (txn s)
  /\ map ws_title created = ["Deliverables Confirmed"; "Budget Allocation"]%string
  /\ map ws_body (firstn 1 created)
     = ["✓ 0 deliverables created. Moving to Design phase."]%string
  /\ exists p',
       project_row (txn s') (p_id project) = Some p'
       /\ p_stage p' = "Design"%string /\ p_status p' = "Design"%string
       /\ p_review_status p' = "APPROVED"%string.
Proof.
  unfold generate_next_steps in Hrun. rewrite Htype, Htitle in Hrun. simpl in Hrun.
  unfold on_deliverable_selection in Hrun. run_in Hrun.
  ok_in Hrun as catalog.
  rewrite (str_or_falsy _ Hchosen), (str_or_falsy _ Hinput) in Hrun.
  change (parse_chosen_keys W "") with (@nil string) in Hrun.
  run_ok_in Hrun as r s1. destruct r as [tc ct].
  pose proof (deliverables_loop_none _ _ _ _ _ _ _ _ Er) as [_ ->].
  apply deliverables_loop_inv in Er. destruct Er as [He Hp].
  rewrite none_chosen in He. simpl in He, Hp.
  simpl in Hrun. inversion Hrun; subst; clear Hrun. simpl.
  split; [rewrite (ext_deliverables _ _ _ _ _ _ He); apply app_nil_r |].
  split; [reflexivity |]. split; [reflexivity |].
  eexists. split.
  - unfold project_row. cbn [set_steps set_projects projects]. rewrite Hp, map_map.
    rewrite (map_ext _ (fun p' => if p_id p' =? p_id project
                                  then with_stage_status "Design" "Design"
                                         (with_review_status "APPROVED" project)
                                  else p')).
    + apply (project_row_updated (txn s) project); [exact Hrow | reflexivity].
    + intros p'. simpl. destruct (p_id p' =? p_id project) eqn:E; simpl.
      * rewrite Z.eqb_refl. reflexivity.
      * rewrite E. reflexivity.
  - repeat split.
Qed.

End Confirmation.

(* ===================================================================== *)
(** ** The strategy runner and the deletion of a project *)
(* ===================================================================== *)

Section StrategyRunner.
Context (W : World).

Arguments String.append : simpl never.

(** What one request to [run_strategy] does. *)
Lemma run_strategy_run project_id d :
  wrequest (run_strategy W project_id) d
  = match project_row (core d) project_id with
    | None =>
        (inl (lookup_failure project_id (HTTPException 404 "Project not found")), d)
    | Some project =>
        match py_len (directions_of W project) with
        | inl e => (inl e, d)
        | inr n =>
            (inr {| rs_status := "ok"; rs_directions := directions_of W project;
                    rs_next_step := "decision_gate" |},
             after_strategy W project_id project n d)
        end
    end.
Proof.
  destruct d as [c logs rs invs reqs irs cal].
  unfold project_row, directions_of.
  cbv [wrequest run_strategy wbind in_core get_project open_wide
       fst snd wdb wtxn txn db with_core core agent_logs risks invoices agent_requests
       interventions calendar].
  destruct (find (fun p => p_id p =? project_id) (projects c)) as [project |].
  2: { unfold lookup_failure, no_row.
       destruct (sqlite_integer project_id); reflexivity. }
  cbv [wbind in_core wlift wthrow wret wcommit add_log on_wtxn add_research_documents
       add_step add_document update_project on_txn add_tasks phase1_tasks add_task bind ret
       fst snd wdb wtxn txn db with_core core agent_logs risks invoices agent_requests
       interventions calendar].
  destruct (py_len (generate_strategic_directions_llm W (p_name project)
                      (strategy_brief project))) as [e | n]; [reflexivity |].
  f_equal. unfold after_strategy, directions_of, strategy_log. f_equal.
  unfold research_document, set_projects, set_steps, set_documents, set_tasks.
  cbn [projects steps documents tasks deliverables insert_steps with_review_status p_id
       core].
  rewrite <- !app_assoc. reflexivity.
Qed.

(** X15.  [run_strategy] is all or nothing: it commits once, at its end.
    When it raises, the database is the one it started from, and it
    raises in these cases only: the project does not exist (404, or the
    [OverflowError] of the lookup when the id is not a 64-bit integer),
    or the reply taken from the LLM is a value without a length (a
    number, a boolean, null), on which [len(directions)] raises after
    every row has been added to the session. *)
Theorem run_strategy_all_or_nothing (project_id : Z) (d d' : Database) (e : pyexc)
    (Hrun : wrequest (run_strategy W project_id) d = (inl e, d')) :
  d' = d
  /\ match project_row (core d) project_id with
     | None =>
         e = if sqlite_integer project_id
             then HTTPException 404 "Project not found" else OverflowError
     | Some project => py_len (directions_of W project) = inl e
     end.
Proof.
  rewrite run_strategy_run in Hrun.
  destruct (project_row (core d) project_id) as [project |].
  - destruct (py_len (directions_of W project)) as [e' | n]; [| discriminate].
    inversion Hrun. split; reflexivity.
  - inversion Hrun. split; reflexivity.
Qed.

Lemma directions_without_llm project :
  (forall j, llm W <> LlmReturns j) ->
  directions_of W project = _fallback_directions (p_name project).
Proof.
  intros Hllm. unfold directions_of, generate_strategic_directions_llm.
  destruct (llm W) as [| | j] eqn:E; try reflexivity.
  exfalso. exact (Hllm j eq_refl).
Qed.

(** X16.  Without a reply of the LLM, [run_strategy] on an existing
    project always succeeds: it answers with the three fallback
    directions and commits, in one unit, two research documents named
    "Market Landscape" and "Competitor Analysis", the decision gate
    "Strategic Direction" with those directions, the review status
    "PENDING", two Phase 1 tasks due in two days and a log entry that
    counts 3 directions; nothing else changes. *)
Theorem run_strategy_without_llm (project_id : Z) (d : Database) (project : Project)
    (Hllm : forall j, llm W <> LlmReturns j)
    (Hrow : project_row (core d) project_id = Some project) :
  wrequest (run_strategy W project_id) d
  = (inr {| rs_status := "ok"; rs_directions := _fallback_directions (p_name project);
            rs_next_step := "decision_gate" |},
     after_strategy W project_id project 3 d)
  /\ map doc_name (skipn (length (documents (core d)))
                     (documents (core (after_strategy W project_id project 3 d))))
     = ["Market Landscape"; "Competitor Analysis"]%string
  /\ map log_message (skipn (length (agent_logs d))
                        (agent_logs (after_strategy W project_id project 3 d)))
     = ["Strategic analysis complete. 3 directions proposed for review."]%string.
Proof.
  rewrite run_strategy_run, Hrow.
  rewrite (directions_without_llm project Hllm).
  split; [reflexivity |].
  unfold after_strategy. cbn [core documents agent_logs].
  rewrite !skipn_app, !skipn_all, !Nat.sub_diag. split; reflexivity.
Qed.

Lemma length_active_insert l news pid :
  Forall (fun w => ws_project_id w = pid) news ->
  length (active_steps (insert_steps l news) pid)
  = (length (active_steps l pid) + length (filter is_active news))%nat.
Proof.
  intros Hall. unfold active_steps.
  rewrite filter_insert_steps by (intros; reflexivity).
  f_equal. f_equal. apply filter_ext_in. intros w Hin.
  rewrite Forall_forall in Hall. rewrite (Hall w Hin), Z.eqb_refl. reflexivity.
Qed.

(** X17.  [run_strategy] does not look at the workflow the project
    already has (unlike [seed_workflow], which creates nothing when a step
    exists): every run that succeeds adds one more active step to the
    project, and that step has sort order 1 whatever the sort orders of
    the existing steps. *)
Theorem run_strategy_adds_an_active_step (project_id : Z) (d d' : Database)
    (resp : RunStrategyResponse)
    (Hrun : wrequest (run_strategy W project_id) d = (inr resp, d')) :
  length (active_steps (steps (core d')) project_id)
  = S (length (active_steps (steps (core d)) project_id))
  /\ map (fun w => (ws_title w, ws_sort_order w))
       (skipn (length (steps (core d))) (steps (core d')))
     = [("Strategic Direction"%string, 1)].
Proof.
  rewrite run_strategy_run in Hrun.
  destruct (project_row (core d) project_id) as [project |]; [| discriminate].
  destruct (py_len (directions_of W project)) as [e' | n]; [discriminate |].
  inversion Hrun; subst; clear Hrun.
  unfold after_strategy. cbn [core steps]. split.
  - rewrite length_active_insert by (repeat constructor). simpl. lia.
  - cbn [insert_steps]. rewrite skipn_app, skipn_all, Nat.sub_diag. reflexivity.
Qed.

Lemma find_fresh_none l : find (has_id (next_step_id l)) l = None.
Proof.
  destruct (find (has_id (next_step_id l)) l) as [w |] eqn:E; [| reflexivity].
  apply find_some in E. destruct E as [Hin Hid]. apply has_id_inv in Hid.
  pose proof (next_step_id_fresh l w _ Hin Hid). lia.
Qed.

Lemma find_inserted l w :
  find (has_id (next_step_id l)) (l ++ [with_id (next_step_id l) w])
  = Some (with_id (next_step_id l) w).
Proof.
  rewrite (find_app_none _ _ _ (find_fresh_none l)).
  unfold has_id. cbn [with_id ws_id]. rewrite Z.eqb_refl. reflexivity.
Qed.

(** A resolve request that finds its step and its project and whose
    generation raises. *)
Lemma resolve_failure_run project_id payload d step project e s2 :
  find (has_id (step_id payload)) (steps d) = Some step ->
  ws_project_id step = project_id ->
  project_row (store_resolution W payload step d) project_id = Some project ->
  generate_next_steps W (mark_resolved W payload step) project payload
    (open_session (store_resolution W payload step d)) = (inl e, s2) ->
  request (resolve_workflow_step W project_id payload) d
  = (inl e, store_resolution W payload step d).
Proof.
  intros Hf Hpid Hp Hg.
  assert (E : (ws_project_id step =? project_id) = true) by (apply Z.eqb_eq; exact Hpid).
  rewrite (resolve_found W _ _ _ _ Hf E), Hp, Hg. reflexivity.
Qed.

(** X18.  [run_strategy] stores the reply of the LLM as it comes: an
    empty list of directions is written into the decision gate (the
    "Project Brief" transition would put a "Strategy Error" option in its
    place).  That step cannot be resolved: every resolve request for it
    raises IndexError, after the resolution has been committed, so the
    step ends resolved with no successor. *)
Theorem empty_directions_block_the_workflow (project_id : Z) (d : Database)
    (project : Project)
    (Hllm : llm W = LlmReturns (JArr []))
    (Hrow : project_row (core d) project_id = Some project) :
  exists resp d1 w,
    wrequest (run_strategy W project_id) d = (inr resp, d1)
    /\ rs_directions resp = JArr []
    /\ In w (steps (core d1))
    /\ ws_title w = "Strategic Direction"%string
    /\ ws_status w = "active"%string
    /\ ws_options_json w = JArr []
    /\ forall payload,
         ws_id w = Some (step_id payload) ->
         request (resolve_workflow_step W project_id payload) (core d1)
         = (inl IndexError, store_resolution W payload w (core d1)).
Proof.
  assert (Hd : directions_of W project = JArr []).
  { unfold directions_of, generate_strategic_directions_llm. rewrite Hllm. reflexivity. }
  pose proof (project_row_id _ _ _ Hrow) as Hpid.
  set (l := steps (core d)).
  set (w := with_id (next_step_id l)
              (exploratory_step project_id (strategy_brief project) (JArr []))).
  eexists. exists (after_strategy W project_id project 0 d), w.
  split; [rewrite run_strategy_run, Hrow, Hd; reflexivity |].
  split; [reflexivity |].
  assert (Hsteps : steps (core (after_strategy W project_id project 0 d)) = l ++ [w]).
  { unfold after_strategy. cbn [core steps insert_steps]. rewrite Hd. reflexivity. }
  split; [rewrite Hsteps; apply in_or_app; right; left; reflexivity |].
  do 3 (split; [reflexivity |]).
  intros payload Hid.
  assert (Hi : step_id payload = next_step_id l) by (injection Hid as Hid; congruence).
  apply (resolve_failure_run project_id payload _ w
           (with_review_status "PENDING" project) IndexError
           (open_session (store_resolution W payload w
                            (core (after_strategy W project_id project 0 d))))).
  - rewrite Hsteps, Hi. apply find_inserted.
  - reflexivity.
  - unfold project_row, store_resolution, update_step, on_txn, open_session, after_strategy.
    cbn [snd txn set_steps projects core]. rewrite <- Hpid.
    apply project_row_updated; [rewrite Hpid; exact Hrow | reflexivity].
  - reflexivity.
Qed.

End StrategyRunner.

Section Deletion.
Context (W : World).

Arguments String.append : simpl never.

(** What one request to [delete_project] does. *)
Lemma delete_project_run project_id d :
  wrequest (delete_project project_id) d
  = match project_row (core d) project_id with
    | None =>
        (inl (lookup_failure project_id (HTTPException 404 "Project not found")), d)
    | Some project =>
        (inr {| del_status := "deleted"; del_project_id := project_id |},
         delete_project_row project (delete_rows_of project_id d))
    end.
Proof.
  destruct d as [c logs rs invs reqs irs cal].
  unfold project_row.
  cbv [wrequest delete_project wbind in_core get_project open_wide
       fst snd wdb wtxn txn db with_core core agent_logs risks invoices agent_requests
       interventions calendar].
  destruct (find (fun p => p_id p =? project_id) (projects c)) as [project |];
    [reflexivity |].
  unfold lookup_failure, no_row. destruct (sqlite_integer project_id); reflexivity.
Qed.

Lemma find_filtered_out {A} (f : A -> bool) l :
  find f (filter (fun x => negb (f x)) l) = None.
Proof.
  induction l as [| x rest IH]; simpl; [reflexivity |].
  destruct (f x) eqn:E; simpl; [exact IH |]. rewrite E. exact IH.
Qed.

(** X19.  What [delete_project] removes and what it leaves.  After a
    deletion that succeeds, the project row and every WorkflowStep,
    Deliverable, GlobalTask, Document, Risk, Invoice, AgentRequest and
    AgentLog of the project are gone, and the rows of the other projects
    (and the tasks of no project) are all still there.  The intervention
    requests and the calendar events are not in the loop: they are left
    as they were, those of the deleted project included. *)
Theorem delete_project_cascade (project_id : Z) (d d' : Database) (resp : DeleteResponse)
    (Hrun : wrequest (delete_project project_id) d = (inr resp, d')) :
  core d' = outside project_id (core d)
  /\ project_row (core d') project_id = None
  /\ agent_logs d' = filter (fun l => negb (log_project_id l =? project_id)) (agent_logs d)
  /\ risks d' = filter (fun r => negb (risk_project_id r =? project_id)) (risks d)
  /\ invoices d' = filter (fun i => negb (inv_project_id i =? project_id)) (invoices d)
  /\ agent_requests d'
     = filter (fun r => negb (req_project_id r =? project_id)) (agent_requests d)
  /\ interventions d' = interventions d
  /\ calendar d' = calendar d.
Proof.
  rewrite delete_project_run in Hrun.
  destruct (project_row (core d) project_id) as [project |] eqn:Hrow; [| discriminate].
  pose proof (project_row_id _ _ _ Hrow) as Hpid.
  inversion Hrun; subst d' resp; clear Hrun.
  assert (Hcore : core (delete_project_row project (delete_rows_of project_id d))
                  = outside project_id (core d)).
  { unfold delete_project_row, delete_rows_of, outside, set_projects.
    cbn [core with_core projects steps documents tasks deliverables].
    rewrite Hpid. reflexivity. }
  split; [exact Hcore |]. split.
  - rewrite Hcore. unfold project_row, outside. cbn [projects].
    apply (find_filtered_out (fun p => p_id p =? project_id)).
  - repeat split.
Qed.

(** X20.  A deleted project is gone for every endpoint: after a deletion
    that succeeds, seeding its workflow, running its strategy and
    deleting it again are answered with 404 "Project not found", every
    resolve request for it fails with 404 "Step not found" (with the
    [OverflowError] of the lookup when the step id of the payload is not
    a 64-bit integer), and none of these requests changes the
    database. *)
Theorem deleted_project_is_gone (project_id : Z) (d d' : Database) (resp : DeleteResponse)
    (Hkeys : sqlite_rows (core d))
    (Hrun : wrequest (delete_project project_id) d = (inr resp, d')) :
  request (seed_workflow project_id) (core d')
  = (inl (HTTPException 404 "Project not found"), core d')
  /\ (forall payload,
        request (resolve_workflow_step W project_id payload) (core d')
        = (inl (if sqlite_integer (step_id payload)
                then HTTPException 404 "Step not found" else OverflowError), core d'))
  /\ wrequest (run_strategy W project_id) d'
     = (inl (HTTPException 404 "Project not found"), d')
  /\ wrequest (delete_project project_id) d'
     = (inl (HTTPException 404 "Project not found"), d').
Proof.
  rewrite delete_project_run in Hrun.
  destruct (project_row (core d) project_id) as [project |] eqn:Hrow; [| discriminate].
  pose proof (project_row_id _ _ _ Hrow) as Hpid.
  assert (Hkey : sqlite_integer project_id = true).
  { rewrite <- Hpid. apply (proj1 Hkeys). unfold project_row in Hrow.
    apply find_some in Hrow. tauto. }
  inversion Hrun; subst d' resp; clear Hrun.
  set (d' := delete_project_row project (delete_rows_of project_id d)).
  assert (Hnone : project_row (core d') project_id = None).
  { unfold d', project_row, delete_project_row, delete_rows_of, set_projects.
    cbn [core with_core projects]. rewrite Hpid.
    apply (find_filtered_out (fun p => p_id p =? project_id)). }
  split; [| split; [| split]].
  - unfold request, seed_workflow. unfold project_row in Hnone.
    rewrite (get_project_missing _ _ (open_session (core d')) Hnone), Hkey. reflexivity.
  - intros payload.
    destruct (find (has_id (step_id payload)) (steps (core d'))) as [step |] eqn:Ef.
    + pose proof Ef as Hfound.
      apply find_some in Ef. destruct Ef as [Hin Hid]. apply has_id_inv in Hid.
      unfold d', delete_project_row, delete_rows_of, set_projects in Hin.
      cbn [core with_core steps] in Hin. apply filter_In in Hin. destruct Hin as [Hin Hne].
      apply negb_true_iff in Hne.
      rewrite (resolve_foreign W _ _ _ _ Hfound Hne).
      rewrite (proj2 Hkeys step _ Hin Hid). reflexivity.
    + apply (resolve_missing W _ _ _ Ef).
  - rewrite run_strategy_run, Hnone. unfold lookup_failure. rewrite Hkey. reflexivity.
  - rewrite delete_project_run, Hnone. unfold lookup_failure. rewrite Hkey. reflexivity.
Qed.

End Deletion.

(* ===================================================================== *)
(** ** The listing of a workflow *)
(* ===================================================================== *)

Section ListingFacts.

Arguments String.append : simpl never.

Lemma insert_by_perm key w l : Permutation (insert_by key w l) (w :: l).
Proof.
  induction l as [| x rest IH]; simpl.
  - apply Permutation_refl.
  - destruct (key w <=? key x).
    + apply Permutation_refl.
    + apply (perm_trans (perm_skip x IH)). apply perm_swap.
Qed.

Lemma insert_by_sorted key w l :
  StronglySorted (fun a b => key a <= key b) l ->
  StronglySorted (fun a b => key a <= key b) (insert_by key w l).
Proof.
  induction 1 as [| x rest Hrest IH Hx]; simpl.
  - constructor; constructor.
  - destruct (key w <=? key x) eqn:E.
    + apply Z.leb_le in E. constructor.
      * constructor; assumption.
      * constructor; [exact E |].
        eapply Forall_impl; [| exact Hx]. intros a Ha. simpl in Ha. lia.
    + apply Z.leb_gt in E. constructor; [exact IH |].
      apply (Permutation_Forall (Permutation_sym (insert_by_perm key w rest))).
      constructor; [lia | exact Hx].
Qed.

Lemma stable_order_by_orders : orders stable_order_by.
Proof.
  intros key l. unfold stable_order_by. induction l as [| w rest [IHp IHs]]; simpl.
  - split; constructor.
  - split.
    + apply (perm_trans (insert_by_perm key w _)). apply perm_skip. exact IHp.
    + apply insert_by_sorted. exact IHs.
Qed.

(** In a sorted list, what stands before an entry has a key that is not
    greater. *)
Lemma sorted_before {A} (key : A -> Z) (l1 : list A) v l2 :
  StronglySorted (fun a b => key a <= key b) (l1 ++ v :: l2) ->
  Forall (fun c => key c <= key v) l1.
Proof.
  induction l1 as [| x rest IH]; simpl; intros H.
  - constructor.
  - inversion H as [| ? ? Hs Hall]; subst. constructor.
    + rewrite Forall_forall in Hall. apply Hall. apply in_or_app. right. left. reflexivity.
    + apply IH. exact Hs.
Qed.

Lemma sorted_map {A B} (f : A -> B) (key : B -> Z) (l : list A) :
  StronglySorted (fun a b => key (f a) <= key (f b)) l ->
  StronglySorted (fun a b => key a <= key b) (map f l).
Proof.
  induction 1 as [| x rest Hrest IH Hx]; simpl; constructor.
  - exact IH.
  - apply Forall_map. exact Hx.
Qed.

Lemma max_id_nonneg l :
  0 <= fold_right (fun w m => match ws_id w with Some i => Z.max i m | None => m end) 0 l.
Proof.
  induction l as [| x rest IH]; simpl; [lia |].
  destruct (ws_id x); lia.
Qed.

Lemma next_step_id_app l l' : next_step_id l <= next_step_id (l ++ l').
Proof.
  unfold next_step_id. apply Z.add_le_mono_l.
  induction l as [| x rest IH]; cbn [app fold_right].
  - apply max_id_nonneg.
  - destruct (ws_id x) as [i |]; [| exact IH].
    apply Z.max_le_compat_l. exact IH.
Qed.

Lemma insert_steps_rows news :
  forall l, exists rows,
    insert_steps l news = l ++ rows
    /\ Forall2 (fun w row => exists i, row = with_id i w /\ next_step_id l <= i) news rows.
Proof.
  induction news as [| w rest IH]; intros l; simpl.
  - exists []. rewrite app_nil_r. split; constructor.
  - destruct (IH (l ++ [with_id (next_step_id l) w])) as (rows & Hr & Hall).
    exists (with_id (next_step_id l) w :: rows). rewrite Hr, <- app_assoc.
    split; [reflexivity |]. constructor.
    + exists (next_step_id l). split; [reflexivity | lia].
    + eapply Forall2_impl; [| exact Hall].
      intros a b (i & -> & Hi). exists i. split; [reflexivity |].
      pose proof (next_step_id_app l [with_id (next_step_id l) w]). lia.
Qed.

End ListingFacts.

Section ListingAfterResolve.
Context (W : World).
Variable order_by : (WorkflowStep -> Z) -> list WorkflowStep -> list WorkflowStep.
Hypothesis Horder : orders order_by.

Arguments String.append : simpl never.

(** The steps a generation creates are of the project and stand, by sort
    order, after the step that was resolved. *)
Lemma generate_next_steps_after resolved_step project payload s created s' :
  generate_next_steps W resolved_step project payload s = (inr created, s') ->
  Forall (fun w => ws_project_id w = p_id project
                   /\ ws_sort_order resolved_step < ws_sort_order w) created.
Proof.
  unfold generate_next_steps. intros Hrun.
  destruct (String.eqb (ws_step_type resolved_step) "input_needed"
            && String.eqb (ws_title resolved_step) "Project Brief").
  { destruct (on_project_brief_run W (ws_sort_order resolved_step) project payload s)
      as (s1 & Hr & _).
    rewrite Hr in Hrun. inversion Hrun; subst.
    repeat constructor; simpl; lia. }
  destruct (String.eqb (ws_step_type resolved_step) "decision_gate"
            && String.eqb (ws_title resolved_step) "Strategic Direction").
  { apply on_strategic_direction_inv in Hrun.
    destruct Hrun as (b & sm & ds & t & pr & ti & br & Hc & _). subst created.
    repeat constructor; simpl; lia. }
  destruct (String.eqb (ws_step_type resolved_step) "approval_gate"
            && String.eqb (ws_title resolved_step) "Strategy Review").
  { destruct (String.eqb (action payload) "approve"
              || opt_eqb (chosen_option payload) "approve") eqn:Ea.
    - apply (on_strategy_review_approve_inv W _ _ _ _ _ _ Ea) in Hrun.
      destruct Hrun as (b & c & sel & t & _ & _ & Hc & _). subst created.
      repeat constructor; simpl; lia.
    - destruct (on_strategy_review_reject_run W (ws_sort_order resolved_step)
                  project payload s Ea) as (s1 & Hr & _).
      rewrite Hr in Hrun. inversion Hrun; subst.
      repeat constructor; simpl; lia. }
  destruct (String.eqb (ws_step_type resolved_step) "decision_gate"
            && String.eqb (ws_title resolved_step) "Deliverable Selection").
  { apply on_deliverable_selection_inv in Hrun.
    destruct Hrun as (c & t & ct & _ & Hc & _). subst created.
    repeat constructor; simpl; lia. }
  inversion Hrun; subst. constructor.
Qed.

(** A listing that is answered holds the rows of the project, in order. *)
Lemma get_workflow_listing project_id d res :
  fst (request (get_workflow order_by project_id) d) = inr res ->
  res = map step_view (steps_of order_by project_id d).
Proof.
  unfold request, get_workflow. cbn [open_session txn].
  destruct (steps_of order_by project_id d) as [| x rest].
  - destruct (sqlite_integer project_id); cbn [fst]; intros H; [| discriminate H].
    injection H as <-. reflexivity.
  - cbn [fst]. intros H. injection H as <-. reflexivity.
Qed.

(** X21.  The listing after a resolution.  [get_workflow] lists the steps
    of the project in ascending sort order.  After a resolve request that
    succeeds, the entry of the resolved step shows it resolved, with the
    chosen option, and every step the request created is listed after
    that entry: the founder reads the agent's answer below the step it
    answers. *)
Theorem created_steps_are_listed_after (project_id : Z)
    (payload : WorkflowResolvePayload) (d d' : Store) (resp : ResolveResponse)
    (step : WorkflowStep) (before after : list StepView) (v : StepView)
    (Hrun : request (resolve_workflow_step W project_id payload) d = (inr resp, d'))
    (Hstep : find (has_id (step_id payload)) (steps d) = Some step)
    (Hlist : fst (request (get_workflow order_by project_id) d')
             = inr (before ++ v :: after))
    (Hv : sv_id v = Some (step_id payload)) :
  v = step_view (mark_resolved W payload step)
  /\ sv_status v = "resolved"%string
  /\ Forall (fun c => sv_sort_order c <= ws_sort_order step) before
  /\ forall c, In c (map step_view (skipn (length (steps d)) (steps d'))) -> In c after.
Proof.
  apply resolve_success_inv in Hrun.
  destruct Hrun as (step' & project & created & s2 & Hf & Hpid & Hp & Hg & -> & _).
  rewrite Hstep in Hf. inversion Hf; subst step'; clear Hf.
  assert (Hid : ws_id step = Some (step_id payload)).
  { apply has_id_inv. apply find_some in Hstep. tauto. }
  pose proof (generate_next_steps_after _ _ _ _ _ _ Hg) as Hafter.
  apply generate_next_steps_created in Hg. destruct Hg as (Hs & _ & _).
  cbn [open_session txn] in Hs.
  rewrite (steps_store_resolution W payload step d Hid) in Hs.
  destruct (insert_steps_rows created
              (map (fun w' => if has_id (step_id payload) w'
                              then mark_resolved W payload step else w') (steps d)))
    as (rows & Hrows & Hall).
  rewrite Hrows in Hs. clear Hrows.
  apply project_row_id in Hp.
  (* the created rows *)
  set (resolved := map (fun w' => if has_id (step_id payload) w'
                                 then mark_resolved W payload step else w') (steps d))
    in *.
  assert (Hlt : step_id payload < next_step_id resolved).
  { apply (next_step_id_fresh _ (mark_resolved W payload step)).
    - pose proof (find_resolved W payload step (steps d) Hstep) as Hfr.
      cbn [mark_resolved ws_id] in Hfr. rewrite Hid in Hfr.
      apply find_some in Hfr. tauto.
    - exact Hid. }
  assert (Hnew : Forall (fun row => ws_project_id row = project_id
                                    /\ ws_sort_order step < ws_sort_order row
                                    /\ ws_id row <> Some (step_id payload)) rows).
  { clear - Hall Hafter Hp Hlt. induction Hall as [| w row ws rs (i & -> & Hi) _ IH].
    - constructor.
    - inversion Hafter as [| ? ? [H1 H2] Hrest]; subst. constructor.
      + split; [exact H1 |]. split; [exact H2 |].
        cbn [with_id ws_id]. intros E. injection E as E. lia.
      + apply IH. exact Hrest. }
  assert (Hskip : skipn (length (steps d)) (steps (txn s2)) = rows).
  { rewrite Hs. unfold resolved. rewrite skipn_app, length_map, Nat.sub_diag.
    rewrite skipn_all2 by (rewrite length_map; lia). reflexivity. }
  rewrite Hskip.
  (* the listing *)
  apply get_workflow_listing in Hlist. unfold steps_of in Hlist. symmetry in Hlist.
  destruct (Horder ws_sort_order
              (filter (fun w => ws_project_id w =? project_id) (steps (txn s2))))
    as [Hperm Hsorted].
  set (listing := order_by ws_sort_order
                    (filter (fun w => ws_project_id w =? project_id) (steps (txn s2))))
    in *.
  (* where v comes from *)
  assert (Hvin : In v (map step_view listing)).
  { rewrite Hlist. apply in_or_app. right. left. reflexivity. }
  apply in_map_iff in Hvin. destruct Hvin as (row & Hrow & Hin).
  apply (Permutation_in _ Hperm) in Hin. apply filter_In in Hin.
  destruct Hin as [Hin _].
  assert (Hvrow : row = mark_resolved W payload step).
  { rewrite Hs in Hin. apply in_app_or in Hin. destruct Hin as [Hin | Hin].
    - apply in_map_iff in Hin. destruct Hin as (w0 & Hw0 & _).
      destruct (has_id (step_id payload) w0) eqn:E; [congruence |].
      subst row. rewrite <- Hrow in Hv. cbn [step_view sv_id] in Hv.
      unfold has_id in E. rewrite Hv, Z.eqb_refl in E. discriminate.
    - exfalso. rewrite Forall_forall in Hnew.
      destruct (Hnew row Hin) as (_ & _ & Hne). apply Hne.
      rewrite <- Hrow in Hv. exact Hv. }
  subst row. split; [symmetry; exact Hrow |]. split; [rewrite <- Hrow; reflexivity |].
  assert (Hkey : sv_sort_order v = ws_sort_order step) by (rewrite <- Hrow; reflexivity).
  assert (Hsv : StronglySorted (fun a b => sv_sort_order a <= sv_sort_order b)
                  (before ++ v :: after)).
  { rewrite <- Hlist. apply sorted_map. exact Hsorted. }
  split.
  - rewrite <- Hkey. apply (sorted_before sv_sort_order before v after Hsv).
  - intros c Hc. apply in_map_iff in Hc. destruct Hc as (r & <- & Hr).
    rewrite Forall_forall in Hnew. destruct (Hnew r Hr) as (Hrp & Hro & _).
    assert (Hcl : In (step_view r) (before ++ v :: after)).
    { rewrite <- Hlist. apply in_map. apply (Permutation_in _ (Permutation_sym Hperm)).
      apply filter_In. split.
      - rewrite Hs. apply in_or_app. right. exact Hr.
      - rewrite Hrp. apply Z.eqb_refl. }
    apply in_app_or in Hcl. destruct Hcl as [Hb | [Hb | Hb]].
    + pose proof (sorted_before sv_sort_order before v after Hsv) as Hbefore.
      rewrite Forall_forall in Hbefore. specialize (Hbefore _ Hb).
      cbn [step_view sv_sort_order] in Hbefore. lia.
    + exfalso. rewrite Hb in Hkey. cbn [step_view sv_sort_order] in Hkey. lia.
    + exact Hb.
Qed.

End ListingAfterResolve.
(* ===================================================================== *)
(** ** Cleaning the reply of the LLM *)
(* ===================================================================== *)

Section FenceFacts.

Arguments String.append : simpl never.

Lemma prefix_app p s : String.prefix p (p ++ s) = true.
Proof.
  induction p as [| c p' IH]; simpl.
  - destruct s; reflexivity.
  - change (String c p' ++ s)%string with (String c (p' ++ s)). cbn [String.prefix].
    destruct (ascii_dec c c) as [_ | Hne]; [exact IH | contradiction].
Qed.

Lemma prefix_shorter p q s :
  String.prefix (p ++ q) s = true -> String.prefix p s = true.
Proof.
  revert s. induction p as [| c p' IH]; intros s H.
  - destruct s; reflexivity.
  - change (String c p' ++ q)%string with (String c (p' ++ q)) in H.
    destruct s as [| a s']; cbn [String.prefix] in *; [discriminate H |].
    destruct (ascii_dec c a); [apply IH; exact H | discriminate H].
Qed.

Lemma drop_app p s : drop (String.length p) (p ++ s) = s.
Proof.
  induction p as [| c p' IH]; [destruct s; reflexivity |].
  change (String c p' ++ s)%string with (String c (p' ++ s)). exact IH.
Qed.

Lemma remove_first_at_start old s :
  String.prefix old s = true -> remove_first old s = drop (String.length old) s.
Proof.
  intros H. destruct s as [| c s']; cbn [remove_first]; rewrite H; reflexivity.
Qed.

Lemma remove_first_prefix p s : remove_first p (p ++ s) = s.
Proof.
  rewrite (remove_first_at_start p (p ++ s) (prefix_app p s)). apply drop_app.
Qed.

Lemma endswith_app p s : endswith p (s ++ p) = true.
Proof.
  induction s as [| c s' IH].
  - change (""%string ++ p)%string with p.
    destruct p; cbn [endswith]; rewrite String.eqb_refl; reflexivity.
  - change (String c s' ++ p)%string with (String c (s' ++ p)).
    cbn [endswith]. rewrite IH. apply orb_true_r.
Qed.

Lemma take_app s p : take (String.length s) (s ++ p) = s.
Proof.
  induction s as [| c s' IH]; [destruct p; reflexivity |].
  change (String c s' ++ p)%string with (String c (s' ++ p)).
  cbn [String.length take]. rewrite IH. reflexivity.
Qed.

Lemma removesuffix_app p s : removesuffix p (s ++ p) = s.
Proof.
  unfold removesuffix. rewrite endswith_app, length_app_string.
  replace (String.length s + String.length p - String.length p)%nat
    with (String.length s) by lia.
  apply take_app.
Qed.

(** No white-space character starts with a backquote. *)
Lemma backquote_no_space r : is_space (String "`"%char r) = false.
Proof. reflexivity. Qed.

Lemma lstrip_backquote r : lstrip (String "`"%char r) = String "`"%char r.
Proof.
  apply lstrip_free. intros w r' Hw E.
  apply is_space_In in Hw.
  destruct w as [| a w']; [discriminate Hw |].
  change (String a w' ++ r')%string with (String a (w' ++ r')) in E.
  injection E as <- _. rewrite backquote_no_space in Hw. discriminate.
Qed.

Lemma rstrip_backquote r : rstrip (String "`"%char r) = String "`"%char (rstrip r).
Proof. cbn [rstrip]. rewrite backquote_no_space. reflexivity. Qed.

(** A text that ends with a fence keeps its end. *)
Lemma rstrip_fenced s : rstrip (s ++ fence) = (s ++ fence)%string.
Proof.
  induction s as [| c s' IH].
  - reflexivity.
  - change (String c s' ++ fence)%string with (String c (s' ++ fence)).
    cbn [rstrip]. rewrite IH.
    destruct (is_space (String c (s' ++ fence))) eqn:E; [| reflexivity].
    apply is_space_In, white_space_length in E.
    cbn [String.length] in E. rewrite length_app_string in E. simpl in E. lia.
Qed.

Lemma strip_fenced_block opening pad1 body pad2 :
  all_space pad1 -> all_space pad2 ->
  strip (pad1 ++ (String "`"%char opening) ++ body ++ fence ++ pad2)
  = ((String "`"%char opening) ++ body ++ fence)%string.
Proof.
  intros H1 H2. unfold strip. rewrite (lstrip_padding _ _ H1).
  change (String "`"%char opening ++ body ++ fence ++ pad2)%string
    with (String "`"%char (opening ++ body ++ fence ++ pad2)).
  rewrite lstrip_backquote.
  change (String "`" (opening ++ body ++ fence ++ pad2))%string
    with ((String "`"%char opening) ++ body ++ fence ++ pad2)%string.
  replace ((String "`"%char opening) ++ body ++ fence ++ pad2)%string
    with ((((String "`"%char opening) ++ body) ++ fence) ++ pad2)%string.
  - rewrite (rstrip_padding _ _ H2). rewrite rstrip_fenced.
    rewrite string_app_assoc. reflexivity.
  - rewrite !string_app_assoc. reflexivity.
Qed.

(** X22.  [_clean_json] on the replies of an LLM.  (1) A reply that is a
    block fenced with [```json] and [```], with any white space of
    Unicode around it, is reduced to the stripped content of the block.
    (2) A block whose opening fence has no "json" tag only loses its
    closing fence: the result still starts with the three backquotes.
    (3) A reply that, once stripped, neither starts with [```json] nor
    ends with [```] is only stripped. *)
Theorem clean_json_unwraps_json_fence :
  (forall pad1 body pad2,
     all_space pad1 -> all_space pad2 ->
     _clean_json (pad1 ++ json_fence ++ body ++ fence ++ pad2) = strip body)
  /\ (forall pad1 body pad2,
        all_space pad1 -> all_space pad2 ->
        startswith json_fence (fence ++ body ++ fence) = false ->
        _clean_json (pad1 ++ fence ++ body ++ fence ++ pad2) = (fence ++ rstrip body)%string)
  /\ (forall text,
        startswith json_fence (strip text) = false ->
        endswith fence (strip text) = false ->
        _clean_json text = strip text).
Proof.
  split; [| split].
  - intros pad1 body pad2 H1 H2.
    assert (Hs : strip (pad1 ++ json_fence ++ body ++ fence ++ pad2)
                 = (json_fence ++ body ++ fence)%string)
      by apply (strip_fenced_block "``json" pad1 body pad2 H1 H2).
    unfold _clean_json. rewrite Hs.
    unfold startswith. rewrite prefix_app, remove_first_prefix.
    rewrite endswith_app, removesuffix_app. reflexivity.
  - intros pad1 body pad2 H1 H2 Hno.
    assert (Hs : strip (pad1 ++ fence ++ body ++ fence ++ pad2)
                 = (fence ++ body ++ fence)%string)
      by apply (strip_fenced_block "``" pad1 body pad2 H1 H2).
    unfold _clean_json. rewrite Hs.
    rewrite Hno.
    replace (fence ++ body ++ fence)%string with ((fence ++ body) ++ fence)%string
      by apply string_app_assoc.
    rewrite endswith_app, removesuffix_app.
    unfold strip, fence.
    change ("```" ++ body)%string with (String "`" (String "`" (String "`" body))).
    change ("```" ++ rstrip body)%string
      with (String "`" (String "`" (String "`" (rstrip body)))).
    rewrite lstrip_backquote, !rstrip_backquote. reflexivity.
  - intros text Hs He. unfold _clean_json. rewrite Hs, He.
    apply strip_of_trimmed, strip_trimmed.
Qed.

(** X23.  [_clean_html] unwraps both kinds of block: a reply fenced with
    [```html] and [```], or with bare [```] on both sides, with any white
    space of Unicode around it, is reduced to the stripped content of the
    block; a reply that, once stripped, neither starts nor ends with [```]
    is only stripped. *)
Theorem clean_html_unwraps_either_fence :
  (forall pad1 body pad2,
     all_space pad1 -> all_space pad2 ->
     _clean_html (pad1 ++ html_fence ++ body ++ fence ++ pad2) = strip body)
  /\ (forall pad1 body pad2,
        all_space pad1 -> all_space pad2 ->
        startswith html_fence (fence ++ body ++ fence) = false ->
        _clean_html (pad1 ++ fence ++ body ++ fence ++ pad2) = strip body)
  /\ (forall text,
        startswith fence (strip text) = false ->
        endswith fence (strip text) = false ->
        _clean_html text = strip text).
Proof.
  split; [| split].
  - intros pad1 body pad2 H1 H2.
    assert (Hs : strip (pad1 ++ html_fence ++ body ++ fence ++ pad2)
                 = (html_fence ++ body ++ fence)%string)
      by apply (strip_fenced_block "``html" pad1 body pad2 H1 H2).
    unfold _clean_html. rewrite Hs.
    unfold startswith. rewrite prefix_app, remove_first_prefix.
    rewrite endswith_app, removesuffix_app. reflexivity.
  - intros pad1 body pad2 H1 H2 Hno.
    assert (Hs : strip (pad1 ++ fence ++ body ++ fence ++ pad2)
                 = (fence ++ body ++ fence)%string)
      by apply (strip_fenced_block "``" pad1 body pad2 H1 H2).
    unfold _clean_html. rewrite Hs.
    rewrite Hno. unfold startswith. rewrite prefix_app, remove_first_prefix.
    rewrite endswith_app, removesuffix_app. reflexivity.
  - intros text Hs He. unfold _clean_html.
    assert (Hh : startswith html_fence (strip text) = false).
    { destruct (startswith html_fence (strip text)) eqn:E; [| reflexivity].
      rewrite <- Hs. symmetry. apply (prefix_shorter fence "html"). exact E. }
    rewrite Hh, Hs, He. apply strip_of_trimmed, strip_trimmed.
Qed.

End FenceFacts.

(* ===================================================================== *)
(** ** A whole run of the workflow without the LLM *)
(* ===================================================================== *)

Section Path.
Context (W : World).
Hypothesis Hllm : forall j, llm W <> LlmReturns j.

Arguments String.append : simpl never.

Lemma insert_steps_app news1 news2 :
  forall l, insert_steps l (news1 ++ news2) = insert_steps (insert_steps l news1) news2.
Proof.
  induction news1 as [| w rest IH]; intros l; simpl; [reflexivity | apply IH].
Qed.

Lemma find_last_created l pre last :
  exists i, find (has_id i) (insert_steps l (pre ++ [last])) = Some (with_id i last)
            /\ In (with_id i last) (insert_steps l (pre ++ [last])).
Proof.
  rewrite insert_steps_app. cbn [insert_steps].
  exists (next_step_id (insert_steps l pre)). split.
  - apply find_inserted.
  - apply in_or_app. right. left. reflexivity.
Qed.

Lemma singleton_filter {A} (f : A -> bool) l x :
  length (filter f l) = 1%nat -> In x l -> f x = true -> filter f l = [x].
Proof.
  intros Hlen Hin Hx.
  assert (Hf : In x (filter f l)) by (apply filter_In; split; assumption).
  destruct (filter f l) as [| y [| z rest]]; try discriminate Hlen.
  destruct Hf as [-> | []]. reflexivity.
Qed.

Lemma only_active l pid step i :
  active_steps l pid = [step] -> find (has_id i) l = Some step ->
  forall w, In w l -> ws_project_id w = pid -> is_active w = true -> has_id i w = true.
Proof.
  intros Hact Hf w Hin Hp Ha.
  assert (Hw : In w (active_steps l pid)).
  { apply filter_In. split; [exact Hin |]. rewrite Hp, Z.eqb_refl, Ha. reflexivity. }
  rewrite Hact in Hw. destruct Hw as [<- | []].
  apply find_some in Hf. tauto.
Qed.

(** One stage of the run: a resolution whose generation completes and
    ends with a new active step. *)
Lemma stage project_id payload d step project pre last s2 :
  find (has_id (step_id payload)) (steps d) = Some step ->
  active_steps (steps d) project_id = [step] ->
  project_row d project_id = Some project ->
  generate_next_steps W (mark_resolved W payload step) project payload
    (open_session (store_resolution W payload step d)) = (inr (pre ++ [last]), s2) ->
  ws_status last = "active"%string ->
  exists resp i,
    request (resolve_workflow_step W project_id payload) d = (inr resp, txn s2)
    /\ find (has_id i) (steps (txn s2)) = Some (with_id i last)
    /\ active_steps (steps (txn s2)) project_id = [with_id i last].
Proof.
  intros Hf Hact Hp Hg Hlast.
  assert (Hpid : ws_project_id step = project_id).
  { assert (Hin : In step (active_steps (steps d) project_id))
      by (rewrite Hact; left; reflexivity).
    apply filter_In in Hin. destruct Hin as [_ Hin].
    apply andb_true_iff in Hin. destruct Hin as [Hin _]. apply Z.eqb_eq. exact Hin. }
  assert (Hid : ws_id step = Some (step_id payload)).
  { apply has_id_inv. apply find_some in Hf. tauto. }
  pose proof (resolve_success_run W project_id payload d step project _ s2 Hf Hpid Hp Hg)
    as Hrun.
  pose proof (generate_next_steps_created W _ _ _ _ _ _ Hg) as (Hs & Hproj & Hcount).
  cbn [open_session txn] in Hs.
  destruct (find_last_created (steps (store_resolution W payload step d)) pre last)
    as (i & Hfind & Hin).
  eexists. exists i. split; [exact Hrun |]. rewrite Hs. split; [exact Hfind |].
  apply singleton_filter.
  - fold (active_steps (insert_steps (steps (store_resolution W payload step d))
                          (pre ++ [last])) project_id).
    rewrite length_active_insert.
    + pose proof (resolution_clears_active W payload step (steps d) project_id Hid
                    (only_active _ _ _ _ Hact Hf)) as Hclear.
      unfold store_resolution, update_step, on_txn, open_session.
      cbn [snd txn set_steps steps]. rewrite Hclear. cbn [length Nat.add].
      rewrite Hcount.
      destruct (known_transition (ws_step_type (mark_resolved W payload step))
                  (ws_title (mark_resolved W payload step))); [reflexivity |].
      exfalso. rewrite filter_app in Hcount. cbn [filter] in Hcount.
      unfold is_active at 2 in Hcount. rewrite Hlast in Hcount.
      rewrite length_app in Hcount. simpl in Hcount. lia.
    + apply project_row_id in Hp. rewrite <- Hp. exact Hproj.
  - exact Hin.
  - rewrite Forall_forall in Hproj.
    assert (Hl : ws_project_id last = p_id project).
    { apply Hproj. apply in_or_app. right. left. reflexivity. }
    apply project_row_id in Hp. cbn [with_id ws_project_id]. rewrite Hl, Hp, Z.eqb_refl.
    unfold is_active. cbn [with_id ws_status]. rewrite Hlast. reflexivity.
Qed.

Lemma directions_for_without_llm name brief :
  directions_for W name brief = _fallback_directions name.
Proof.
  unfold directions_for, BrandStrategist_run, generate_strategic_directions_llm. simpl.
  destruct (llm W) as [| | j] eqn:E; try reflexivity.
  exfalso. exact (Hllm j eq_refl).
Qed.

Lemma project_row_after st pid project project' :
  project_row st pid = Some project ->
  p_id project' = p_id project ->
  find (fun q => p_id q =? pid)
    (map (fun p' => if p_id p' =? p_id project then project' else p') (projects st))
  = Some project'.
Proof.
  intros Hp Hid. pose proof (project_row_id _ _ _ Hp) as Hpid. subst pid.
  apply project_row_updated; assumption.
Qed.

(** Stage 1: the brief. *)
Lemma brief_stage project_id i text d step project :
  find (has_id i) (steps d) = Some step ->
  ws_step_type step = "input_needed"%string ->
  ws_title step = "Project Brief"%string ->
  active_steps (steps d) project_id = [step] ->
  project_row d project_id = Some project ->
  exists resp d' i' w project',
    request (resolve_workflow_step W project_id (submit_brief i text)) d = (inr resp, d')
    /\ find (has_id i') (steps d') = Some w
    /\ active_steps (steps d') project_id = [w]
    /\ ws_step_type w = "decision_gate"%string
    /\ ws_title w = "Strategic Direction"%string
    /\ wf_directions (ws_options_json w) = true
    /\ project_row d' project_id = Some project'
    /\ p_budget_cap project' = p_budget_cap project.
Proof.
  intros Hf Htype Htitle Hact Hp.
  set (payload := submit_brief i text).
  set (s0 := open_session (store_resolution W payload step d)).
  destruct (on_project_brief_run W (ws_sort_order step) project payload s0)
    as (s2 & Hr & He & Hprojects).
  assert (Hg : generate_next_steps W (mark_resolved W payload step) project payload s0
               = (inr ([] ++ [strategic_direction_step (ws_sort_order step) project
                                (brief_of project payload)
                                (directions_for W (p_name project)
                                   (brief_of project payload))]), s2)).
  { unfold generate_next_steps. cbn [mark_resolved ws_step_type ws_title ws_sort_order].
    rewrite Htype, Htitle. exact Hr. }
  destruct (stage project_id payload d step project _ _ s2 Hf Hact Hp Hg eq_refl)
    as (resp & i' & Hrun & Hfind & Hactive).
  exists resp, (txn s2), i'. eexists.
  exists (if str_truthy (input_text payload)
          then with_client_brief (str_or (input_text payload) "") project else project).
  split; [exact Hrun |]. split; [exact Hfind |]. split; [exact Hactive |].
  split; [reflexivity |]. split; [reflexivity |].
  split; [cbn [with_id strategic_direction_step ws_options_json];
          rewrite directions_for_without_llm; reflexivity |].
  split.
  - unfold project_row. rewrite Hprojects.
    destruct (str_truthy (input_text payload)).
    + apply (project_row_after (txn s0) project_id project); [exact Hp | reflexivity].
    + exact Hp.
  - destruct (str_truthy (input_text payload)); reflexivity.
Qed.

(** Stage 2: the direction. *)
Lemma direction_stage project_id i choice d step project :
  find (has_id i) (steps d) = Some step ->
  ws_step_type step = "decision_gate"%string ->
  ws_title step = "Strategic Direction"%string ->
  wf_directions (ws_options_json step) = true ->
  active_steps (steps d) project_id = [step] ->
  project_row d project_id = Some project ->
  exists resp d' i' w project',
    request (resolve_workflow_step W project_id (choose_direction i choice)) d
      = (inr resp, d')
    /\ find (has_id i') (steps d') = Some w
    /\ active_steps (steps d') project_id = [w]
    /\ ws_step_type w = "approval_gate"%string
    /\ ws_title w = "Strategy Review"%string
    /\ project_row d' project_id = Some project'
    /\ p_budget_cap project' = p_budget_cap project.
Proof.
  intros Hf Htype Htitle Hwf Hact Hp.
  set (payload := choose_direction i choice).
  set (s0 := open_session (store_resolution W payload step d)).
  destruct (on_strategic_direction_total W (ws_sort_order step)
              (mark_resolved W payload step) project payload s0 Hwf Hllm)
    as (created & s2 & Hr).
  pose proof Hr as Hinv. apply on_strategic_direction_inv in Hinv.
  destruct Hinv as (body & sm & ds & tn & pr & ti & br & Hc & He & Hprojects).
  cbv zeta in Hprojects.
  assert (Hg : generate_next_steps W (mark_resolved W payload step) project payload s0
               = (inr ([] ++ [strategy_review_step (ws_sort_order step) project body]),
                  s2)).
  { unfold generate_next_steps. cbn [mark_resolved ws_step_type ws_title ws_sort_order].
    rewrite Htype, Htitle. cbn [String.eqb Ascii.eqb Bool.eqb andb].
    rewrite <- Hc. exact Hr. }
  destruct (stage project_id payload d step project _ _ s2 Hf Hact Hp Hg eq_refl)
    as (resp & i' & Hrun & Hfind & Hactive).
  exists resp, (txn s2), i'. eexists. eexists.
  split; [exact Hrun |]. split; [exact Hfind |]. split; [exact Hactive |].
  split; [reflexivity |]. split; [reflexivity |].
  split.
  - unfold project_row. rewrite Hprojects.
    apply (project_row_after (txn s0) project_id project); [exact Hp | reflexivity].
  - reflexivity.
Qed.

(** Stage 3: the approval. *)
Lemma approval_stage project_id i q d step project :
  find (has_id i) (steps d) = Some step ->
  ws_step_type step = "approval_gate"%string ->
  ws_title step = "Strategy Review"%string ->
  active_steps (steps d) project_id = [step] ->
  project_row d project_id = Some project ->
  p_budget_cap project = Finite q ->
  exists resp d' i' w items project',
    request (resolve_workflow_step W project_id (approve_strategy i)) d = (inr resp, d')
    /\ find (has_id i') (steps d') = Some w
    /\ active_steps (steps d') project_id = [w]
    /\ ws_step_type w = "decision_gate"%string
    /\ ws_title w = "Deliverable Selection"%string
    /\ ws_options_json w = JArr items
    /\ forallb (is_catalog_entry W) items = true
    /\ project_row d' project_id = Some project'.
Proof.
  intros Hf Htype Htitle Hact Hp Hq.
  set (payload := approve_strategy i).
  set (s0 := open_session (store_resolution W payload step d)).
  assert (Ha : String.eqb (action payload) "approve"
               || opt_eqb (chosen_option payload) "approve" = true) by reflexivity.
  assert (Hcont : forall j, llm W = LlmReturns j -> is_container j = true).
  { intros j Hj. exfalso. exact (Hllm j Hj). }
  destruct (on_strategy_review_approve_total W (ws_sort_order step) project payload s0 q
              Ha Hq Hcont) as (created & s2 & Hr).
  pose proof Hr as Hinv.
  apply (on_strategy_review_approve_inv W _ _ _ _ _ _ Ha) in Hinv.
  destruct Hinv as (budget & catalog' & selected & total & _ & Hsel & Hc & He & Hprojects).
  assert (Hg : generate_next_steps W (mark_resolved W payload step) project payload s0
               = (inr ([strategy_milestone W (ws_sort_order step) project]
                       ++ [deliverable_selection_step W (ws_sort_order step) project
                             budget total catalog']), s2)).
  { unfold generate_next_steps. cbn [mark_resolved ws_step_type ws_title ws_sort_order].
    rewrite Htype, Htitle. cbn [String.eqb Ascii.eqb Bool.eqb andb].
    cbn [app]. rewrite <- Hc. exact Hr. }
  destruct (stage project_id payload d step project _ _ s2 Hf Hact Hp Hg eq_refl)
    as (resp & i' & Hrun & Hfind & Hactive).
  exists resp, (txn s2), i'. eexists. exists (map JObj catalog'). eexists.
  split; [exact Hrun |]. split; [exact Hfind |]. split; [exact Hactive |].
  split; [reflexivity |]. split; [reflexivity |]. split; [reflexivity |].
  split.
  - apply (select_loop_entries W _ _ _ (catalog_entries_wf W) _ _ _ _ _ Hsel).
  - unfold project_row. rewrite Hprojects.
    apply (project_row_after (txn s0) project_id project); [exact Hp | reflexivity].
Qed.

(** Stage 4: the deliverables. *)
Lemma confirmation_stage project_id i keys customs d step project items :
  find (has_id i) (steps d) = Some step ->
  ws_step_type step = "decision_gate"%string ->
  ws_title step = "Deliverable Selection"%string ->
  ws_options_json step = JArr items ->
  forallb (is_catalog_entry W) items = true ->
  active_steps (steps d) project_id = [step] ->
  project_row d project_id = Some project ->
  exists resp d' i' w project',
    request (resolve_workflow_step W project_id (confirm_deliverables i keys customs)) d
      = (inr resp, d')
    /\ find (has_id i') (steps d') = Some w
    /\ active_steps (steps d') project_id = [w]
    /\ ws_title w = "Budget Allocation"%string
    /\ project_row d' project_id = Some project'
    /\ p_stage project' = "Design"%string
    /\ p_status project' = "Design"%string
    /\ p_review_status project' = "APPROVED"%string.
Proof.
  intros Hf Htype Htitle Ho Hall Hact Hp.
  set (payload := confirm_deliverables i keys customs).
  set (s0 := open_session (store_resolution W payload step d)).
  destruct (on_deliverable_selection_total W (ws_sort_order step)
              (mark_resolved W payload step) project payload s0 items Ho Hall)
    as (created & s2 & Hr).
  pose proof Hr as Hinv. apply on_deliverable_selection_inv in Hinv.
  destruct Hinv as (c & tc & ct & _ & Hc & He & Hprojects).
  assert (Hg : generate_next_steps W (mark_resolved W payload step) project payload s0
               = (inr ([deliverables_milestone W (ws_sort_order step) project ct]
                       ++ [budget_allocation_step W (ws_sort_order step) project tc ct]),
                  s2)).
  { unfold generate_next_steps. cbn [mark_resolved ws_step_type ws_title ws_sort_order].
    rewrite Htype, Htitle. cbn [String.eqb Ascii.eqb Bool.eqb andb].
    cbn [app]. rewrite <- Hc. exact Hr. }
  destruct (stage project_id payload d step project _ _ s2 Hf Hact Hp Hg eq_refl)
    as (resp & i' & Hrun & Hfind & Hactive).
  exists resp, (txn s2), i'. eexists. eexists.
  split; [exact Hrun |]. split; [exact Hfind |]. split; [exact Hactive |].
  split; [reflexivity |].
  split.
  - unfold project_row. rewrite Hprojects.
    apply (project_row_after (txn s0) project_id project); [exact Hp | reflexivity].
  - repeat split.
Qed.

(** Stage 0: the seed. *)
Lemma seed_stage project_id d project :
  project_row d project_id = Some project ->
  find (fun w => ws_project_id w =? project_id) (steps d) = None ->
  exists i d' w,
    request (seed_workflow project_id) d
      = (inr {| seed_status := "seeded"; seed_step_id := Some i |}, d')
    /\ find (has_id i) (steps d') = Some w
    /\ active_steps (steps d') project_id = [w]
    /\ ws_step_type w = "input_needed"%string
    /\ ws_title w = "Project Brief"%string
    /\ project_row d' project_id = Some project.
Proof.
  intros Hp Hnone.
  set (n := next_step_id (steps d)).
  set (w := with_id n (project_brief_step project_id project)).
  exists n.
  exists (set_steps (fun l => l ++ [with_id (next_step_id l)
                                     (project_brief_step project_id project)]) d).
  exists w.
  split.
  - unfold request, seed_workflow.
    unfold project_row in Hp.
    rewrite (get_project_found _ _ _ (open_session d) Hp).
    cbn [bind first_step_of upcoming_step_id add_step on_txn commit ret
         open_session committed fst snd db txn].
    rewrite Hnone. reflexivity.
  - cbn [set_steps steps projects]. split; [apply find_inserted |].
    split.
    + unfold active_steps. rewrite filter_app.
      rewrite (filter_none _ _ _ Hnone).
      * cbn [filter app w with_id project_brief_step ws_project_id].
        rewrite Z.eqb_refl. reflexivity.
      * intros x Hx. apply andb_true_iff in Hx. tauto.
    + split; [reflexivity |]. split; [reflexivity | exact Hp].
Qed.

(** X24.  Without the LLM the workflow can always be driven from the
    seed to the stage "Design".  For a project that has no step yet and a
    finite budget cap, when no client is configured or the calls fail,
    the chain of the simulation script never fails: seeding, submitting
    the brief (any text or none), choosing a direction (any key, known or
    not, or none), approving the strategy and confirming the deliverables
    (any keys, any custom text) each succeed.  After each request the
    project waits on exactly one active step, the next of the chain, and
    at the end it has review status "APPROVED", stage and status "Design",
    and "Budget Allocation" as its only active step. *)
Theorem workflow_runs_without_llm (project_id : Z) (d0 : Store) (project : Project)
    (q : Q) (text choice keys customs : option string)
    (Hrow : project_row d0 project_id = Some project)
    (Hnew : find (fun w => ws_project_id w =? project_id) (steps d0) = None)
    (Hbudget : p_budget_cap project = Finite q) :
  exists i1 d1 r2 i2 d2 r3 i3 d3 r4 i4 d4 r5 i5 d5 project5,
    request (seed_workflow project_id) d0
      = (inr {| seed_status := "seeded"; seed_step_id := Some i1 |}, d1)
    /\ awaits d1 project_id i1 "Project Brief"
    /\ request (resolve_workflow_step W project_id (submit_brief i1 text)) d1
       = (inr r2, d2)
    /\ awaits d2 project_id i2 "Strategic Direction"
    /\ request (resolve_workflow_step W project_id (choose_direction i2 choice)) d2
       = (inr r3, d3)
    /\ awaits d3 project_id i3 "Strategy Review"
    /\ request (resolve_workflow_step W project_id (approve_strategy i3)) d3
       = (inr r4, d4)
    /\ awaits d4 project_id i4 "Deliverable Selection"
    /\ request (resolve_workflow_step W project_id
                  (confirm_deliverables i4 keys customs)) d4
       = (inr r5, d5)
    /\ awaits d5 project_id i5 "Budget Allocation"
    /\ project_row d5 project_id = Some project5
    /\ p_review_status project5 = "APPROVED"%string
    /\ p_stage project5 = "Design"%string
    /\ p_status project5 = "Design"%string.
Proof.
  destruct (seed_stage project_id d0 project Hrow Hnew)
    as (i1 & d1 & w1 & Hrun1 & Hf1 & Ha1 & Hty1 & Hti1 & Hp1).
  destruct (brief_stage project_id i1 text d1 w1 project Hf1 Hty1 Hti1 Ha1 Hp1)
    as (r2 & d2 & i2 & w2 & p2 & Hrun2 & Hf2 & Ha2 & Hty2 & Hti2 & Hwf2 & Hp2 & Hb2).
  destruct (direction_stage project_id i2 choice d2 w2 p2 Hf2 Hty2 Hti2 Hwf2 Ha2 Hp2)
    as (r3 & d3 & i3 & w3 & p3 & Hrun3 & Hf3 & Ha3 & Hty3 & Hti3 & Hp3 & Hb3).
  assert (Hq3 : p_budget_cap p3 = Finite q) by congruence.
  destruct (approval_stage project_id i3 q d3 w3 p3 Hf3 Hty3 Hti3 Ha3 Hp3 Hq3)
    as (r4 & d4 & i4 & w4 & items & p4 & Hrun4 & Hf4 & Ha4 & Hty4 & Hti4 & Ho4 & Hall4
        & Hp4).
  destruct (confirmation_stage project_id i4 keys customs d4 w4 p4 items
              Hf4 Hty4 Hti4 Ho4 Hall4 Ha4 Hp4)
    as (r5 & d5 & i5 & w5 & p5 & Hrun5 & Hf5 & Ha5 & Hti5 & Hp5 & Hs5 & Hst5 & Hrs5).
  exists i1, d1, r2, i2, d2, r3, i3, d3, r4, i4, d4, r5, i5, d5, p5.
  split; [exact Hrun1 |].
  split; [exists w1; repeat split; assumption |].
  split; [exact Hrun2 |].
  split; [exists w2; repeat split; assumption |].
  split; [exact Hrun3 |].
  split; [exists w3; repeat split; assumption |].
  split; [exact Hrun4 |].
  split; [exists w4; repeat split; assumption |].
  split; [exact Hrun5 |].
  split; [exists w5; repeat split; assumption |].
  repeat split; assumption.
Qed.

End Path.

(* ===================================================================== *)
(** ** The request for a research document *)
(* ===================================================================== *)

Section ResearchRequests.

Arguments String.append : simpl never.

Lemma requested_prompt_generic doc_type project_name brief strategy_context :
  has_own_prompt doc_type = false ->
  requested_prompt doc_type project_name brief strategy_context
  = ("Write a " ++ doc_type ++ " for " ++ project_name)%string.
Proof.
  unfold has_own_prompt, str_in, requested_prompt, prompts. cbn [existsb find fst snd].
  intros H. rewrite !orb_false_r in H.
  apply orb_false_iff in H. destruct H as [H1 H].
  apply orb_false_iff in H. destruct H as [H2 H].
  apply orb_false_iff in H. destruct H as [H3 H4].
  rewrite (String.eqb_sym "market_landscape"), H1.
  rewrite (String.eqb_sym "competitor_analysis"), H2.
  rewrite (String.eqb_sym "target_audience"), H3.
  rewrite (String.eqb_sym "brand_positioning"), H4.
  reflexivity.
Qed.

(** X25.  What the model is asked.  For a document type without a prompt
    of its own, the request is "Write a <doc_type> for <project_name>" and
    the instruction to return HTML: neither the brief nor the strategy
    context that the caller passes reaches the model.  This is the case of
    the two documents the approval of a strategy generates, "Brand
    Strategy Document" and "Visual Direction Brief".  Of the four own
    prompts, the two of the brief do not use the strategy context and the
    two of the strategy do not use the brief.  Without a client the
    content is the mock text, whatever the document type. *)
Theorem research_request_ignores_the_brief :
  (forall doc_type project_name brief strategy_context,
     has_own_prompt doc_type = false ->
     research_request doc_type project_name brief strategy_context
     = ("Write a " ++ doc_type ++ " for " ++ project_name ++ nl
        ++ "Return ONLY clean HTML tags.")%string)
  /\ (forall generate_content doc_type project_name brief strategy_context brief' context',
        In doc_type ["brand_strategy_doc"; "visual_direction_brief"]%string ->
        generate_research_doc_content_with (Some generate_content) doc_type project_name
          brief strategy_context
        = generate_research_doc_content_with (Some generate_content) doc_type project_name
            brief' context')
  /\ (forall doc_type project_name brief strategy_context context',
        In doc_type ["market_landscape"; "competitor_analysis"]%string ->
        research_request doc_type project_name brief strategy_context
        = research_request doc_type project_name brief context')
  /\ (forall doc_type project_name brief strategy_context brief',
        In doc_type ["target_audience"; "brand_positioning"]%string ->
        research_request doc_type project_name brief strategy_context
        = research_request doc_type project_name brief' strategy_context)
  /\ (forall doc_type project_name brief strategy_context,
        generate_research_doc_content_with None doc_type project_name brief strategy_context
        = generate_research_doc_content (Sample.world NoClient) doc_type project_name brief
            strategy_context).
Proof.
  split; [| split; [| split; [| split]]].
  - intros doc_type project_name brief ctx H. unfold research_request.
    rewrite (requested_prompt_generic _ _ _ _ H).
    rewrite !string_app_assoc. reflexivity.
  - intros call doc_type project_name brief ctx brief' ctx' Hin.
    unfold generate_research_doc_content_with, research_request.
    assert (H : has_own_prompt doc_type = false).
    { destruct Hin as [<- | [<- | []]]; reflexivity. }
    rewrite !(requested_prompt_generic _ _ _ _ H). reflexivity.
  - intros doc_type project_name brief ctx ctx' Hin.
    destruct Hin as [<- | [<- | []]]; reflexivity.
  - intros doc_type project_name brief ctx brief' Hin.
    destruct Hin as [<- | [<- | []]]; reflexivity.
  - reflexivity.
Qed.

End ResearchRequests.

(* ===================================================================== *)
(** ** The other endpoints, and the brief that is not given *)
(* ===================================================================== *)

Section Scope.
Context (W : World).

Arguments String.append : simpl never.

Lemma filter_idem {A} (f : A -> bool) l : filter f (filter f l) = filter f l.
Proof.
  induction l as [| x rest IH]; simpl; [reflexivity |].
  destruct (f x) eqn:E; simpl; [rewrite E, IH; reflexivity | exact IH].
Qed.

Lemma outside_idem pid d : outside pid (outside pid d) = outside pid d.
Proof.
  unfold outside. cbn [projects steps documents tasks deliverables].
  rewrite !filter_idem. reflexivity.
Qed.

(** X26.  Seeding a workflow, running the strategy and deleting a project
    are scoped to their project, like the resolution of a step: whatever
    the outcome of the request, every row that does not belong to the
    project of the request is left as it was, in every table. *)
Theorem endpoints_leave_other_projects (project_id : Z) :
  (forall d, outside project_id (snd (request (seed_workflow project_id) d))
             = outside project_id d)
  /\ (forall d, wide_outside project_id (snd (wrequest (run_strategy W project_id) d))
                = wide_outside project_id d)
  /\ (forall d, wide_outside project_id (snd (wrequest (delete_project project_id) d))
                = wide_outside project_id d).
Proof.
  split; [| split].
  - intros d. unfold request, seed_workflow.
    destruct (find (fun p => p_id p =? project_id) (projects d)) as [project |] eqn:Ep.
    2: { rewrite (get_project_missing _ _ (open_session d) Ep).
         destruct (sqlite_integer project_id); reflexivity. }
    rewrite (get_project_found _ _ _ (open_session d) Ep).
    cbn [bind first_step_of upcoming_step_id add_step on_txn commit ret
         open_session committed fst snd db txn].
    destruct (find (fun w => ws_project_id w =? project_id) (steps d)); [reflexivity |].
    cbn [bind first_step_of upcoming_step_id add_step on_txn commit ret
         open_session committed fst snd db txn].
    unfold outside. cbn [set_steps projects steps documents tasks deliverables].
    f_equal. apply filter_app_none. constructor; [| constructor].
    cbn [with_id project_brief_step ws_project_id]. rewrite Z.eqb_refl. reflexivity.
  - intros d. rewrite run_strategy_run.
    destruct (project_row (core d) project_id) as [project |] eqn:Hrow; [| reflexivity].
    destruct (py_len (directions_of W project)) as [e | n]; [reflexivity |].
    pose proof (project_row_id _ _ _ Hrow) as Hpid.
    unfold wide_outside, after_strategy, outside.
    cbn [snd core agent_logs risks invoices agent_requests interventions calendar
         projects steps documents tasks deliverables insert_steps].
    f_equal; [f_equal |].
    + rewrite Hpid. apply outside_projects_updated. exact Hpid.
    + apply filter_app_none. repeat constructor.
      cbn [with_id exploratory_step ws_project_id]. rewrite Z.eqb_refl. reflexivity.
    + apply filter_app_none.
      repeat constructor; cbn [html_document doc_project_id];
        rewrite Z.eqb_refl; reflexivity.
    + apply filter_app_none.
      repeat constructor; cbn [high_task task_project_id opt_is];
        rewrite Z.eqb_refl; reflexivity.
    + apply filter_app_none. repeat constructor.
      cbn [strategy_log log_project_id]. rewrite Z.eqb_refl. reflexivity.
  - intros d. rewrite delete_project_run.
    destruct (project_row (core d) project_id) as [project |] eqn:Hrow; [| reflexivity].
    pose proof (project_row_id _ _ _ Hrow) as Hpid.
    unfold wide_outside, delete_project_row, delete_rows_of, outside, set_projects.
    cbn [snd core with_core agent_logs risks invoices agent_requests interventions calendar
         projects steps documents tasks deliverables].
    rewrite Hpid. rewrite !filter_idem. reflexivity.
Qed.

(** X27.  A brief that is not given is accepted.  Resolving "Project
    Brief" without input text (none, or an empty one) is not refused: the
    generation succeeds, leaves the project rows as they are, and works
    with the stored client brief or, when that is empty too, with the
    name of the project: that text is quoted in the body of the
    "Strategic Direction" step and given to the two research documents. *)
Theorem empty_brief_is_accepted (resolved_step : WorkflowStep) (project : Project)
    (payload : WorkflowResolvePayload) (s : Session)
    (Htype : ws_step_type resolved_step = "input_needed"%string)
    (Htitle : ws_title resolved_step = "Project Brief"%string)
    (Hempty : str_truthy (input_text payload) = false) :
  let brief := a_or_b (p_client_brief project) (p_name project) in
  exists st s',
    generate_next_steps W resolved_step project payload s = (inr [st], s')
    /\ projects (txn s') = projects (txn s)
    /\ ws_title st = "Strategic Direction"%string
    /\ ws_body st = direction_body brief (p_name project)
    /\ documents (txn s')
       = documents (txn s)
         ++ [html_document (p_id project) "Market Landscape Analysis" "Strategy"
               (generate_research_doc_content W "market_landscape" (p_name project)
                  brief "");
             html_document (p_id project) "Competitive Analysis" "Strategy"
               (generate_research_doc_content W "competitor_analysis" (p_name project)
                  brief "")].
Proof.
  intros brief.
  destruct (on_project_brief_run W (ws_sort_order resolved_step) project payload s)
    as (s1 & Hr & He & Hp).
  assert (Hb : brief_of project payload = brief).
  { unfold brief_of, brief. rewrite Hempty.
    destruct (input_text payload) as [t |]; [| reflexivity].
    simpl in Hempty. simpl. destruct (String.eqb t ""); [reflexivity | discriminate]. }
  rewrite Hb in Hr, He. rewrite Hempty in Hp.
  eexists. exists s1. split.
  { unfold generate_next_steps. rewrite Htype, Htitle. simpl. exact Hr. }
  split; [exact Hp |]. split; [reflexivity |]. split; [reflexivity |].
  apply (ext_documents _ _ _ _ _ _ He).
Qed.

End Scope.

(* ===================================================================== *)
(** ** Categories *)
(* ===================================================================== *)

Section Slugs.

Arguments String.append : simpl never.

Lemma free_of_app bad a b :
  free_of bad (a ++ b) = free_of bad a && free_of bad b.
Proof.
  induction a as [| c a' IH]; [reflexivity |].
  change (String c a' ++ b)%string with (String c (a' ++ b)).
  cbn [free_of]. rewrite IH. apply andb_assoc.
Qed.

Lemma to_lower_not_upper c : is_upper (to_lower c) = false.
Proof.
  unfold to_lower. destruct (is_upper c) eqn:E; [| exact E].
  unfold is_upper in *. apply andb_true_iff in E. destruct E as [E1 E2].
  apply Nat.leb_le in E1, E2.
  rewrite nat_ascii_embedding by lia.
  apply andb_false_iff. right. apply Nat.leb_gt. lia.
Qed.

Lemma lower_no_capital s : free_of is_upper (lower s) = true.
Proof.
  induction s as [| c s' IH]; simpl; [reflexivity |].
  rewrite to_lower_not_upper, IH. reflexivity.
Qed.

Lemma free_of_or bad1 bad2 s :
  free_of (fun c => bad1 c || bad2 c) s = free_of bad1 s && free_of bad2 s.
Proof.
  induction s as [| c s' IH]; simpl; [reflexivity |].
  rewrite IH. destruct (bad1 c), (bad2 c), (free_of bad1 s'), (free_of bad2 s'); reflexivity.
Qed.

Lemma replace_with_keeps bad a b s :
  free_of bad b = true -> free_of bad s = true -> free_of bad (replace_with a b s) = true.
Proof.
  intros Hb. induction s as [| c s' IH]; simpl; intros H; [reflexivity |].
  apply andb_true_iff in H. destruct H as [Hc H].
  destruct (Ascii.eqb c a).
  - rewrite free_of_app, Hb. apply IH. exact H.
  - simpl. rewrite Hc. apply IH. exact H.
Qed.

Lemma replace_with_removes a b s :
  free_of (fun c => Ascii.eqb c a) b = true ->
  free_of (fun c => Ascii.eqb c a) (replace_with a b s) = true.
Proof.
  intros Hb. induction s as [| c s' IH]; simpl; [reflexivity |].
  destruct (Ascii.eqb c a) eqn:E.
  - rewrite free_of_app, Hb. exact IH.
  - simpl. rewrite E. exact IH.
Qed.

Lemma replace_with_absent a b s :
  free_of (fun c => Ascii.eqb c a) s = true -> replace_with a b s = s.
Proof.
  induction s as [| c s' IH]; simpl; intros H; [reflexivity |].
  apply andb_true_iff in H. destruct H as [Hc H]. apply negb_true_iff in Hc.
  rewrite Hc, (IH H). reflexivity.
Qed.

Lemma lower_of_lower s : free_of is_upper s = true -> lower s = s.
Proof.
  induction s as [| c s' IH]; simpl; intros H; [reflexivity |].
  apply andb_true_iff in H. destruct H as [Hc H]. apply negb_true_iff in Hc.
  unfold to_lower. rewrite Hc, (IH H). reflexivity.
Qed.

Lemma unsluggish_split s :
  free_of unsluggish s
  = free_of (fun c => Ascii.eqb c " "%char) s
    && free_of (fun c => Ascii.eqb c "&"%char) s
    && free_of is_upper s.
Proof.
  unfold unsluggish. rewrite !free_of_or. reflexivity.
Qed.

(** X28.  A slug is clean and stable: for every name (of ASCII
    characters), [_slug name] contains no space, no ampersand and no
    capital letter, and the slug of a slug is the slug itself. *)
Theorem slug_is_clean_and_stable (name : string) :
  free_of unsluggish (_slug name) = true
  /\ _slug (_slug name) = _slug name.
Proof.
  assert (Hclean : free_of unsluggish (_slug name) = true).
  { rewrite unsluggish_split. unfold _slug.
    assert (H1 : free_of (fun c => Ascii.eqb c " "%char)
                   (replace_with "&" "and" (replace_with " " "-" (lower name))) = true).
    { apply replace_with_keeps; [reflexivity |]. apply replace_with_removes. reflexivity. }
    assert (H2 : free_of (fun c => Ascii.eqb c "&"%char)
                   (replace_with "&" "and" (replace_with " " "-" (lower name))) = true).
    { apply replace_with_removes. reflexivity. }
    assert (H3 : free_of is_upper
                   (replace_with "&" "and" (replace_with " " "-" (lower name))) = true).
    { apply replace_with_keeps; [reflexivity |].
      apply replace_with_keeps; [reflexivity |]. apply lower_no_capital. }
    rewrite H1, H2, H3. reflexivity. }
  split; [exact Hclean |].
  rewrite unsluggish_split in Hclean.
  apply andb_true_iff in Hclean. destruct Hclean as [Hclean Hu].
  apply andb_true_iff in Hclean. destruct Hclean as [Hs Ha].
  unfold _slug at 1.
  rewrite (lower_of_lower _ Hu), (replace_with_absent _ _ _ Hs).
  apply (replace_with_absent _ _ _ Ha).
Qed.

End Slugs.

Section CategoryListing.
Variable Row : Type.
Variable category : Row -> string.

Arguments String.append : simpl never.

(** X29.  The listing of a category goes by slug, not by name.  In a
    table whose category names are ASCII: for every project, the listing
    asked with the slug of its category succeeds and holds exactly the
    projects whose category has that same slug: the project itself, and
    those of any other category whose name differs only by capitals, by
    "-" for a space or by "and" for "&".  A slug of no project is
    answered with 404, unless it is the slug of one of the four default
    categories, which is answered with the empty list. *)
Theorem category_listing_goes_by_slug (projects : list Row)
    (Hascii : forall p, In p projects -> is_ascii (category p) = true) :
  (forall p, In p projects ->
     exists listed,
       get_category_projects Row category (_slug (category p)) projects = inr listed
       /\ forall q, In q listed
                    <-> In q projects /\ _slug (category q) = _slug (category p))
  /\ (forall slug,
        (forall p, In p projects -> _slug (category p) <> slug) ->
        get_category_projects Row category slug projects
        = if str_in slug ["brand-identity"; "web-design"; "packaging"; "product-design"]
          then inr []
          else inl (HTTPException 404 ("Category '" ++ slug ++ "' not found"))).
Proof.
  split.
  - intros p Hp. unfold get_category_projects.
    set (filtered := filter (fun x => String.eqb (_slug (category x))
                                        (_slug (category p))) projects).
    assert (Hin : In p filtered).
    { apply filter_In. split; [exact Hp | apply String.eqb_refl]. }
    exists filtered. split.
    + destruct filtered; [destruct Hin | reflexivity].
    + intros q. unfold filtered. rewrite filter_In. rewrite String.eqb_eq. reflexivity.
  - intros slug Hnone. unfold get_category_projects. clear Hascii.
    assert (Hempty : filter (fun x => String.eqb (_slug (category x)) slug) projects = []).
    { induction projects as [| x rest IH]; [reflexivity |]. simpl.
      destruct (String.eqb (_slug (category x)) slug) eqn:E.
      - apply String.eqb_eq in E. exfalso. exact (Hnone x (or_introl eq_refl) E).
      - apply IH. intros p Hp. apply Hnone. right. exact Hp. }
    rewrite Hempty.
    change (map _slug default_categories)
      with ["brand-identity"; "web-design"; "packaging"; "product-design"]%string.
    destruct (str_in slug ["brand-identity"; "web-design"; "packaging"; "product-design"]);
      reflexivity.
Qed.

End CategoryListing.

(* ===================================================================== *)
(** ** Runs of the properties above *)
(* ===================================================================== *)

(** Computes the first conjunct of the goal, a run of the engine, and
    keeps it as [Hrun]. *)
Ltac compute_run :=
  match goal with
  | |- ?H /\ _ => assert (Hrun : H) by (lazy; reflexivity); split; [exact Hrun |]
  end.

Section MoreRuns.

Lemma resolve_keeps_one_active_step_witness :
  exists resp d',
    request (resolve_workflow_step Sample.offline 1 Cases.reject) Cases.shared_db
      = (inr resp, d')
    /\ find (has_id (step_id Cases.reject)) (steps Cases.shared_db)
       = Some Sample.review_step
    /\ (forall w, In w (steps Cases.shared_db) -> ws_project_id w = 1 ->
                  is_active w = true -> has_id (step_id Cases.reject) w = true)
    /\ length (active_steps (steps d') 1) = 1%nat.
Proof.
  eexists. eexists. compute_run.
  assert (Hstep : find (has_id (step_id Cases.reject)) (steps Cases.shared_db)
                  = Some Sample.review_step) by reflexivity.
  assert (Honly : forall w, In w (steps Cases.shared_db) -> ws_project_id w = 1 ->
                            is_active w = true -> has_id (step_id Cases.reject) w = true).
  { intros w [<- | [<- | []]] Hp _; [discriminate Hp | reflexivity]. }
  split; [exact Hstep |]. split; [exact Honly |].
  exact (resolve_keeps_one_active_step Sample.offline 1 Cases.reject Cases.shared_db
           _ _ Sample.review_step Hrun Hstep Honly).
Defined.

Lemma revisions_and_allocation_are_dead_ends_witness :
  exists created s' w,
    generate_next_steps Sample.offline Sample.review_step (Sample.project 3000)
      Cases.reject (open_session Cases.shared_db) = (inr created, s')
    /\ In w created
    /\ (ws_title w = "Strategy Revisions"%string \/ ws_title w = "Budget Allocation"%string)
    /\ ws_status w = "active"%string
    /\ forall project' payload' s2,
         generate_next_steps Sample.offline w project' payload' s2 = (inr [], s2).
Proof.
  eexists. eexists. eexists. compute_run.
  match goal with
  | |- In ?w ?l /\ _ => assert (Hin : In w l) by (left; reflexivity)
  end.
  split; [exact Hin |].
  match goal with
  | |- ?T /\ _ => assert (Htitle : T) by (left; reflexivity)
  end.
  split; [exact Htitle |].
  exact (revisions_and_allocation_are_dead_ends Sample.offline _ _ _ _ _ _ _
           Hrun Hin Htitle).
Defined.

Lemma rejecting_twice_duplicates_revisions_witness :
  (find (has_id (step_id Cases.reject)) (steps Cases.shared_db) = Some Sample.review_step
   /\ ws_project_id Sample.review_step = 1
   /\ ws_step_type Sample.review_step = "approval_gate"%string
   /\ ws_title Sample.review_step = "Strategy Review"%string
   /\ project_row Cases.shared_db 1 = Some (Sample.project 3000)
   /\ action Cases.reject <> "approve"%string
   /\ chosen_option Cases.reject <> Some "approve"%string)
  /\ exists resp1 d1 resp2 d2 w1 w2,
       request (resolve_workflow_step Sample.offline 1 Cases.reject) Cases.shared_db
         = (inr resp1, d1)
       /\ request (resolve_workflow_step Sample.offline 1 Cases.reject) d1 = (inr resp2, d2)
       /\ next_steps_created resp2 = 1%nat
       /\ In w1 (steps d2) /\ In w2 (steps d2)
       /\ ws_id w1 <> ws_id w2
       /\ Forall (fun w => ws_project_id w = 1
                           /\ ws_title w = "Strategy Revisions"%string
                           /\ ws_status w = "active"%string
                           /\ ws_sort_order w = ws_sort_order Sample.review_step + 1)
            [w1; w2].
Proof.
  split.
  { repeat split; try reflexivity; discriminate. }
  exact (rejecting_twice_duplicates_revisions Sample.offline 1 Cases.reject Cases.shared_db
           Sample.review_step (Sample.project 3000)
           eq_refl eq_refl eq_refl eq_refl eq_refl
           ltac:(discriminate) ltac:(discriminate)).
Defined.

(** The keys of the sample database are small numbers. *)
Lemma shared_db_keys : sqlite_rows Cases.shared_db.
Proof.
  split.
  - intros p [<- | [<- | []]]; reflexivity.
  - intros w i [<- | [<- | []]] H; injection H as <-; reflexivity.
Qed.

(** The step 7 belongs to the second project, and no step has the id
    2^63, which SQLite cannot hold. *)
Lemma resolve_foreign_step_is_404_witness :
  sqlite_rows Cases.shared_db
  /\ (forall step,
        find (has_id (step_id (Sample.payload 7 "approve" None None)))
          (steps Cases.shared_db) = Some step ->
        ws_project_id step <> 1)
  /\ request (resolve_workflow_step Sample.offline 1 (Sample.payload 7 "approve" None None))
       Cases.shared_db
     = (inl (HTTPException 404 "Step not found"), Cases.shared_db)
  /\ request (resolve_workflow_step Sample.offline 1
                (Sample.payload (2 ^ 63) "approve" None None))
       Cases.shared_db
     = (inl OverflowError, Cases.shared_db).
Proof.
  assert (Hforeign : forall step,
            find (has_id (step_id (Sample.payload 7 "approve" None None)))
              (steps Cases.shared_db) = Some step ->
            ws_project_id step <> 1).
  { intros step H. simpl in H. injection H as <-. discriminate. }
  split; [exact shared_db_keys |]. split; [exact Hforeign |]. split.
  - exact (resolve_foreign_step_is_404 Sample.offline 1 _ Cases.shared_db
             shared_db_keys Hforeign).
  - apply (resolve_foreign_step_is_404 Sample.offline 1
             (Sample.payload (2 ^ 63) "approve" None None) Cases.shared_db
             shared_db_keys).
    intros step H. discriminate H.
Defined.

Lemma resolve_response_counts_steps_witness :
  exists resp d',
    request (resolve_workflow_step Sample.offline 1 Cases.approve) Cases.shared_db
      = (inr resp, d')
    /\ find (has_id (step_id Cases.approve)) (steps Cases.shared_db)
       = Some Sample.review_step
    /\ length (steps d') = (length (steps Cases.shared_db) + next_steps_created resp)%nat
    /\ (next_steps_created resp <= 2)%nat
    /\ (next_steps_created resp = 0%nat
        <-> known_transition (ws_step_type Sample.review_step)
              (ws_title Sample.review_step) = false).
Proof.
  eexists. eexists. compute_run.
  split; [reflexivity |].
  exact (resolve_response_counts_steps Sample.offline 1 Cases.approve Cases.shared_db
           _ _ Sample.review_step Hrun eq_refl).
Defined.

Lemma resolve_leaves_other_projects_witness :
  unique_step_ids (steps Cases.shared_db)
  /\ outside 1 (snd (request (resolve_workflow_step Sample.offline 1 Cases.approve)
                       Cases.shared_db))
     = outside 1 Cases.shared_db.
Proof.
  assert (Hkey : unique_step_ids (steps Cases.shared_db)).
  { intros w1 w2 [<- | [<- | []]] [<- | [<- | []]] H; try reflexivity; discriminate H. }
  split; [exact Hkey |].
  exact (resolve_leaves_other_projects Sample.offline 1 Cases.approve Cases.shared_db Hkey).
Defined.

Lemma selection_options_annotate_catalog_witness :
  exists created s',
    generate_next_steps Sample.offline Sample.review_step (Sample.project 3000)
      Cases.approve (open_session Cases.shared_db) = (inr created, s')
    /\ ws_step_type Sample.review_step = "approval_gate"%string
    /\ ws_title Sample.review_step = "Strategy Review"%string
    /\ String.eqb (action Cases.approve) "approve"
       || opt_eqb (chosen_option Cases.approve) "approve" = true
    /\ exists budget milestone selection options,
         (if float_truthy (p_budget_cap (Sample.project 3000))
          then float_int (p_budget_cap (Sample.project 3000)) else ok 0) = inr budget
         /\ created = [milestone; selection]
         /\ ws_options_json selection = JArr (map JObj options)
         /\ Forall2 (fun item item' =>
                       item' = dict_set "selected" (JBool (is_selected item')) item
                       /\ (0 < budget -> is_selected item' = true ->
                           is_recommended Sample.offline
                             (recommended_keys_for Sample.offline (Sample.project 3000)
                                budget catalog) item = true))
              catalog options.
Proof.
  eexists. eexists. compute_run.
  do 3 (split; [reflexivity |]).
  exact (selection_options_annotate_catalog Sample.offline Sample.review_step
           (Sample.project 3000) Cases.approve _ _ _ eq_refl eq_refl eq_refl Hrun).
Defined.

Lemma approval_without_llm_selects_first_fit_witness :
  exists created s',
    generate_next_steps Sample.offline Sample.review_step (Sample.project 3000)
      Cases.approve (open_session Cases.shared_db) = (inr created, s')
    /\ (llm Sample.offline = NoClient \/ llm Sample.offline = LlmFails)
    /\ (if float_truthy (p_budget_cap (Sample.project 3000))
        then float_int (p_budget_cap (Sample.project 3000)) else ok 0) = inr 3000
    /\ 0 < 3000
    /\ exists milestone selection options,
         created = [milestone; selection]
         /\ ws_title selection = "Deliverable Selection"%string
         /\ ws_options_json selection = JArr (map JObj options)
         /\ map is_selected options = first_fit_marks Sample.offline 3000 catalog
         /\ selected_cost Sample.offline options
            = total_cost Sample.offline (first_fit Sample.offline 3000 catalog).
Proof.
  eexists. eexists. compute_run.
  split; [left; reflexivity |]. split; [reflexivity |]. split; [reflexivity |].
  exact (approval_without_llm_selects_first_fit Sample.offline Sample.review_step
           (Sample.project 3000) Cases.approve _ _ _ 3000 eq_refl eq_refl eq_refl
           (or_introl eq_refl) eq_refl eq_refl Hrun).
Defined.

Lemma written_selection_always_resolves_witness :
  exists created s',
    generate_next_steps Sample.offline Sample.review_step (Sample.project 3000)
      Cases.approve (open_session Cases.shared_db) = (inr created, s')
    /\ exists milestone selection,
         created = [milestone; selection]
         /\ ws_title selection = "Deliverable Selection"%string
         /\ forall project' payload' s2,
              exists created2 s3,
                generate_next_steps Sample.offline selection project' payload' s2
                  = (inr created2, s3)
                /\ length created2 = 2%nat.
Proof.
  eexists. eexists. compute_run.
  exact (written_selection_always_resolves Sample.offline Sample.review_step
           (Sample.project 3000) Cases.approve _ _ _ eq_refl eq_refl eq_refl Hrun).
Defined.

(** The choice "Z" names none of the three directions: the first one,
    "Market Leader", is taken. *)
Lemma direction_is_chosen_or_first_witness :
  exists created s',
    generate_next_steps Sample.offline Sample.direction_step (Sample.project 3000)
      Cases.choose_unknown (open_session (Sample.db_with 3000 Sample.direction_step))
      = (inr created, s')
    /\ project_row (txn (open_session (Sample.db_with 3000 Sample.direction_step))) 1
       = Some (Sample.project 3000)
    /\ exists p',
         project_row (txn s') 1 = Some p'
         /\ p_executive_summary p'
            = Some "Market Leader: Position Casa Verde as the premium authority in the space."%string.
Proof.
  eexists. eexists. compute_run.
  split; [reflexivity |].
  destruct (direction_is_chosen_or_first Sample.offline Sample.direction_step
              (Sample.project 3000) Cases.choose_unknown
              (open_session (Sample.db_with 3000 Sample.direction_step)) _ _
              eq_refl eq_refl eq_refl Hrun)
    as (options & first & title & description & p' & Ho & Hf & Ht & Hd & Hp & Hs).
  exists p'. split; [exact Hp |].
  rewrite Hs.
  injection Ho as <-. injection Hf as <-.
  injection Ht as <-. injection Hd as <-. reflexivity.
Defined.

Lemma comma_list_join_witness :
  Forall is_entry ["logo_system"; "website"; "social kit"]%string
  /\ comma_list (join ", " ["logo_system"; "website"; "social kit"]%string)
     = ["logo_system"; "website"; "social kit"]%string.
Proof.
  assert (Hall : Forall is_entry ["logo_system"; "website"; "social kit"]%string).
  { repeat (apply Forall_cons;
              [apply entry_by_strip; [discriminate | reflexivity | reflexivity] |]).
    constructor. }
  split; [exact Hall |].
  exact (comma_list_join _ Hall).
Defined.

Lemma empty_selection_still_advances_witness :
  exists created s',
    generate_next_steps Sample.offline Sample.selection_step (Sample.project 3000)
      Cases.bare_approval (open_session (Sample.db_with 3000 Sample.selection_step))
      = (inr created, s')
    /\ project_row (txn (open_session (Sample.db_with 3000 Sample.selection_step))) 1
       = Some (Sample.project 3000)
    /\ str_truthy (chosen_option Cases.bare_approval) = false
    /\ str_truthy (input_text Cases.bare_approval) = false
    /\ deliverables (txn s') = []
    /\ map ws_title created = ["Deliverables Confirmed"; "Budget Allocation"]%string
    /\ map ws_body (firstn 1 created)
       = ["✓ 0 deliverables created. Moving to Design phase."]%string
    /\ exists p',
         project_row (txn s') 1 = Some p'
         /\ p_stage p' = "Design"%string /\ p_status p' = "Design"%string
         /\ p_review_status p' = "APPROVED"%string.
Proof.
  eexists. eexists. compute_run.
  do 3 (split; [reflexivity |]).
  exact (empty_selection_still_advances Sample.offline Sample.selection_step
           (Sample.project 3000) Cases.bare_approval
           (open_session (Sample.db_with 3000 Sample.selection_step)) _ _
           eq_refl eq_refl eq_refl eq_refl eq_refl Hrun).
Defined.

(** The LLM answers with the number 3: [len] raises and nothing is
    written.  And a project id that SQLite cannot hold is refused by the
    lookup itself. *)
Lemma run_strategy_all_or_nothing_witness :
  wrequest (run_strategy Cases.number_reply 1) Cases.studio_db
    = (inl TypeError, Cases.studio_db)
  /\ (Cases.studio_db = Cases.studio_db
      /\ py_len (directions_of Cases.number_reply (Sample.project 3000)) = inl TypeError)
  /\ wrequest (run_strategy Sample.offline (2 ^ 63)) Cases.studio_db
     = (inl OverflowError, Cases.studio_db)
  /\ (Cases.studio_db = Cases.studio_db
      /\ OverflowError = if sqlite_integer (2 ^ 63)
                         then HTTPException 404 "Project not found" else OverflowError).
Proof.
  assert (Hrun : wrequest (run_strategy Cases.number_reply 1) Cases.studio_db
                 = (inl TypeError, Cases.studio_db)) by reflexivity.
  assert (Hrun' : wrequest (run_strategy Sample.offline (2 ^ 63)) Cases.studio_db
                  = (inl OverflowError, Cases.studio_db)) by reflexivity.
  split; [exact Hrun |]. split.
  - exact (run_strategy_all_or_nothing Cases.number_reply 1 Cases.studio_db
             Cases.studio_db TypeError Hrun).
  - split; [exact Hrun' |].
    exact (run_strategy_all_or_nothing Sample.offline (2 ^ 63) Cases.studio_db
             Cases.studio_db OverflowError Hrun').
Defined.

Lemma run_strategy_without_llm_witness :
  (forall j, llm Sample.offline <> LlmReturns j)
  /\ project_row (core Cases.studio_db) 1 = Some (Sample.project 3000)
  /\ wrequest (run_strategy Sample.offline 1) Cases.studio_db
     = (inr {| rs_status := "ok";
               rs_directions := _fallback_directions (p_name (Sample.project 3000));
               rs_next_step := "decision_gate" |},
        after_strategy Sample.offline 1 (Sample.project 3000) 3 Cases.studio_db)
  /\ map doc_name
       (skipn (length (documents (core Cases.studio_db)))
          (documents (core (after_strategy Sample.offline 1 (Sample.project 3000) 3
                              Cases.studio_db))))
     = ["Market Landscape"; "Competitor Analysis"]%string
  /\ map log_message
       (skipn (length (agent_logs Cases.studio_db))
          (agent_logs (after_strategy Sample.offline 1 (Sample.project 3000) 3
                         Cases.studio_db)))
     = ["Strategic analysis complete. 3 directions proposed for review."]%string.
Proof.
  assert (Hllm : forall j, llm Sample.offline <> LlmReturns j) by (intros j; discriminate).
  split; [exact Hllm |]. split; [reflexivity |].
  exact (run_strategy_without_llm Sample.offline 1 Cases.studio_db (Sample.project 3000)
           Hllm eq_refl).
Defined.

(** The project already has its "Strategy Review" at sort order 2; the
    run adds a second active step, at sort order 1. *)
Lemma run_strategy_adds_an_active_step_witness :
  exists resp d',
    wrequest (run_strategy Sample.offline 1) Cases.studio_db = (inr resp, d')
    /\ length (active_steps (steps (core d')) 1) = 2%nat
    /\ map (fun w => (ws_title w, ws_sort_order w))
         (skipn (length (steps (core Cases.studio_db))) (steps (core d')))
       = [("Strategic Direction"%string, 1)].
Proof.
  eexists. eexists. compute_run.
  exact (run_strategy_adds_an_active_step Sample.offline 1 Cases.studio_db _ _ Hrun).
Defined.

Lemma empty_directions_block_the_workflow_witness :
  llm Cases.empty_reply = LlmReturns (JArr [])
  /\ project_row (core Cases.studio_db) 1 = Some (Sample.project 3000)
  /\ exists resp d1 w,
       wrequest (run_strategy Cases.empty_reply 1) Cases.studio_db = (inr resp, d1)
       /\ rs_directions resp = JArr []
       /\ In w (steps (core d1))
       /\ ws_title w = "Strategic Direction"%string
       /\ ws_status w = "active"%string
       /\ ws_options_json w = JArr []
       /\ forall payload,
            ws_id w = Some (step_id payload) ->
            request (resolve_workflow_step Cases.empty_reply 1 payload) (core d1)
            = (inl IndexError, store_resolution Cases.empty_reply payload w (core d1)).
Proof.
  split; [reflexivity |]. split; [reflexivity |].
  exact (empty_directions_block_the_workflow Cases.empty_reply 1 Cases.studio_db
           (Sample.project 3000) eq_refl eq_refl).
Defined.

(** The intervention request and the calendar event of the deleted
    project stay behind. *)
Lemma delete_project_cascade_witness :
  exists resp d',
    wrequest (delete_project 1) Cases.studio_db = (inr resp, d')
    /\ (core d' = outside 1 (core Cases.studio_db)
        /\ project_row (core d') 1 = None
        /\ agent_logs d'
           = filter (fun l => negb (log_project_id l =? 1)) (agent_logs Cases.studio_db)
        /\ risks d'
           = filter (fun r => negb (risk_project_id r =? 1)) (risks Cases.studio_db)
        /\ invoices d'
           = filter (fun i => negb (inv_project_id i =? 1)) (invoices Cases.studio_db)
        /\ agent_requests d'
           = filter (fun r => negb (req_project_id r =? 1))
               (agent_requests Cases.studio_db)
        /\ interventions d' = interventions Cases.studio_db
        /\ calendar d' = calendar Cases.studio_db)
    /\ map ir_project_id (interventions d') = [1]
    /\ map p_id (projects (core d')) = [2].
Proof.
  eexists. eexists. compute_run.
  split; [| split; reflexivity].
  exact (delete_project_cascade 1 Cases.studio_db _ _ Hrun).
Defined.

Lemma deleted_project_is_gone_witness :
  sqlite_rows (core Cases.studio_db)
  /\ exists resp d',
       wrequest (delete_project 1) Cases.studio_db = (inr resp, d')
       /\ request (seed_workflow 1) (core d')
          = (inl (HTTPException 404 "Project not found"), core d')
       /\ (forall payload,
             request (resolve_workflow_step Sample.offline 1 payload) (core d')
             = (inl (if sqlite_integer (step_id payload)
                     then HTTPException 404 "Step not found" else OverflowError),
                core d'))
       /\ wrequest (run_strategy Sample.offline 1) d'
          = (inl (HTTPException 404 "Project not found"), d')
       /\ wrequest (delete_project 1) d'
          = (inl (HTTPException 404 "Project not found"), d').
Proof.
  split; [exact shared_db_keys |].
  eexists. eexists. compute_run.
  exact (deleted_project_is_gone Sample.offline 1 Cases.studio_db _ _ shared_db_keys Hrun).
Defined.

(** With rows of equal keys kept in table order: the resolved review,
    then the milestone and the selection it led to. *)
Lemma created_steps_are_listed_after_witness :
  orders stable_order_by
  /\ exists resp d' v after,
       request (resolve_workflow_step Sample.offline 1 Cases.approve) Cases.shared_db
         = (inr resp, d')
       /\ find (has_id (step_id Cases.approve)) (steps Cases.shared_db)
          = Some Sample.review_step
       /\ fst (request (get_workflow stable_order_by 1) d') = inr ([] ++ v :: after)
       /\ sv_id v = Some (step_id Cases.approve)
       /\ (v = step_view (mark_resolved Sample.offline Cases.approve Sample.review_step)
           /\ sv_status v = "resolved"%string
           /\ Forall (fun c => sv_sort_order c <= ws_sort_order Sample.review_step) []
           /\ forall c, In c (map step_view (skipn (length (steps Cases.shared_db))
                                               (steps d'))) -> In c after)
       /\ map sv_title after = ["Strategy Phase Complete"; "Deliverable Selection"]%string.
Proof.
  split; [exact stable_order_by_orders |].
  eexists. eexists. eexists. eexists. compute_run.
  assert (Hstep : find (has_id (step_id Cases.approve)) (steps Cases.shared_db)
                  = Some Sample.review_step) by reflexivity.
  split; [exact Hstep |].
  match goal with
  | |- ?H /\ _ => assert (Hlist : H) by (lazy; reflexivity); split; [exact Hlist |]
  end.
  match goal with
  | |- ?H /\ _ => assert (Hv : H) by reflexivity; split; [exact Hv |]
  end.
  split; [| reflexivity].
  exact (created_steps_are_listed_after Sample.offline stable_order_by
           stable_order_by_orders 1 Cases.approve Cases.shared_db _ _
           Sample.review_step [] _ _ Hrun Hstep Hlist Hv).
Defined.

(** A reply as the LLM gives it: a fenced block on lines of its own,
    here after a no-break space. *)
Lemma clean_json_unwraps_json_fence_witness :
  (all_space (utf8 0xA0) /\ all_space nl)
  /\ _clean_json (utf8 0xA0 ++ json_fence ++ (nl ++ "[1, 2]" ++ nl) ++ fence ++ nl)
     = "[1, 2]"%string
  /\ startswith json_fence (fence ++ (nl ++ "[1, 2]" ++ nl) ++ fence) = false
  /\ _clean_json (utf8 0xA0 ++ fence ++ (nl ++ "[1, 2]" ++ nl) ++ fence ++ nl)
     = ("```" ++ nl ++ "[1, 2]")%string.
Proof.
  assert (H1 : all_space (utf8 0xA0)) by (apply all_space_one; reflexivity).
  assert (H2 : all_space nl) by (apply all_space_one; reflexivity).
  split; [split; assumption |]. split.
  - exact (proj1 clean_json_unwraps_json_fence (utf8 0xA0) (nl ++ "[1, 2]" ++ nl)%string nl
             H1 H2).
  - split; [reflexivity |].
    exact (proj1 (proj2 clean_json_unwraps_json_fence) (utf8 0xA0)
             (nl ++ "[1, 2]" ++ nl)%string nl H1 H2 eq_refl).
Defined.

(** The content of the block ends with an em space, which goes with the
    line feeds around it. *)
Lemma clean_html_unwraps_either_fence_witness :
  (all_space ""%string /\ all_space nl)
  /\ _clean_html ("" ++ html_fence ++ (nl ++ "<p>Hi</p>" ++ utf8 0x2003 ++ nl) ++ fence ++ nl)
     = "<p>Hi</p>"%string
  /\ startswith html_fence (fence ++ (nl ++ "<p>Hi</p>" ++ utf8 0x2003 ++ nl) ++ fence)
     = false
  /\ _clean_html ("" ++ fence ++ (nl ++ "<p>Hi</p>" ++ utf8 0x2003 ++ nl) ++ fence ++ nl)
     = "<p>Hi</p>"%string.
Proof.
  assert (H1 : all_space ""%string) by constructor.
  assert (H2 : all_space nl) by (apply all_space_one; reflexivity).
  split; [split; assumption |]. split.
  - exact (proj1 clean_html_unwraps_either_fence ""%string
             (nl ++ "<p>Hi</p>" ++ utf8 0x2003 ++ nl)%string nl H1 H2).
  - split; [reflexivity |].
    exact (proj1 (proj2 clean_html_unwraps_either_fence) ""%string
             (nl ++ "<p>Hi</p>" ++ utf8 0x2003 ++ nl)%string nl H1 H2 eq_refl).
Defined.

(** The run of the simulation script, on a fresh project. *)
Lemma workflow_runs_without_llm_witness :
  (forall j, llm Sample.offline <> LlmReturns j)
  /\ project_row (Sample.fresh_db 8000) 1 = Some (Sample.project 8000)
  /\ find (fun w => ws_project_id w =? 1) (steps (Sample.fresh_db 8000)) = None
  /\ p_budget_cap (Sample.project 8000) = Finite 8000
  /\ exists i1 d1 r2 i2 d2 r3 i3 d3 r4 i4 d4 r5 i5 d5 project5,
       request (seed_workflow 1) (Sample.fresh_db 8000)
         = (inr {| seed_status := "seeded"; seed_step_id := Some i1 |}, d1)
       /\ awaits d1 1 i1 "Project Brief"
       /\ request (resolve_workflow_step Sample.offline 1
                     (submit_brief i1 (Some "A neobank for Gen Z gamers."%string))) d1
          = (inr r2, d2)
       /\ awaits d2 1 i2 "Strategic Direction"
       /\ request (resolve_workflow_step Sample.offline 1
                     (choose_direction i2 (Some "A"%string))) d2
          = (inr r3, d3)
       /\ awaits d3 1 i3 "Strategy Review"
       /\ request (resolve_workflow_step Sample.offline 1 (approve_strategy i3)) d3
          = (inr r4, d4)
       /\ awaits d4 1 i4 "Deliverable Selection"
       /\ request (resolve_workflow_step Sample.offline 1
                     (confirm_deliverables i4 (Some "logo_system, website"%string) None)) d4
          = (inr r5, d5)
       /\ awaits d5 1 i5 "Budget Allocation"
       /\ project_row d5 1 = Some project5
       /\ p_review_status project5 = "APPROVED"%string
       /\ p_stage project5 = "Design"%string
       /\ p_status project5 = "Design"%string.
Proof.
  assert (Hllm : forall j, llm Sample.offline <> LlmReturns j) by (intros j; discriminate).
  split; [exact Hllm |]. do 3 (split; [reflexivity |]).
  exact (workflow_runs_without_llm Sample.offline Hllm 1 (Sample.fresh_db 8000)
           (Sample.project 8000) 8000 _ _ _ _ eq_refl eq_refl eq_refl).
Defined.

(** The project has no client brief either: its name is the brief. *)
Lemma empty_brief_is_accepted_witness :
  (ws_step_type Sample.brief_step = "input_needed"%string
   /\ ws_title Sample.brief_step = "Project Brief"%string
   /\ str_truthy (input_text (Sample.payload 1 "input" None (Some ""%string))) = false)
  /\ exists st s',
       generate_next_steps Sample.offline Sample.brief_step (Sample.project 3000)
         (Sample.payload 1 "input" None (Some ""%string))
         (open_session (Sample.db_with 3000 Sample.brief_step)) = (inr [st], s')
       /\ projects (txn s') = [Sample.project 3000]
       /\ ws_title st = "Strategic Direction"%string
       /\ ws_body st = direction_body "Casa Verde" "Casa Verde"
       /\ map doc_content (documents (txn s'))
          = [Some "<p>LLM unavailable. Mock content for market_landscape based on Casa Verde</p>";
             Some "<p>LLM unavailable. Mock content for competitor_analysis based on Casa Verde</p>"]%string.
Proof.
  split; [repeat split |].
  destruct (empty_brief_is_accepted Sample.offline Sample.brief_step (Sample.project 3000)
              (Sample.payload 1 "input" None (Some ""%string))
              (open_session (Sample.db_with 3000 Sample.brief_step))
              eq_refl eq_refl eq_refl)
    as (st & s' & Hrun & Hp & Ht & Hb & Hd).
  exists st, s'. split; [exact Hrun |]. split; [exact Hp |]. split; [exact Ht |].
  split; [exact Hb |]. rewrite Hd. reflexivity.
Defined.

(** Two categories, one slug: the listing of either holds the projects of
    both. *)
Lemma category_listing_goes_by_slug_witness :
  (forall p, In p ["Research and Design"; "Web Design"; "Research & Design"]%string ->
             is_ascii p = true)
  /\ _slug "Research & Design" = "research-and-design"%string
  /\ exists listed,
       get_category_projects string (fun name => name) (_slug "Research & Design")
         ["Research and Design"; "Web Design"; "Research & Design"]%string = inr listed
       /\ In "Research and Design"%string listed
       /\ ~ In "Web Design"%string listed.
Proof.
  assert (Hascii : forall p,
            In p ["Research and Design"; "Web Design"; "Research & Design"]%string ->
            is_ascii p = true).
  { intros p [<- | [<- | [<- | []]]]; reflexivity. }
  split; [exact Hascii |]. split; [reflexivity |].
  destruct (proj1 (category_listing_goes_by_slug string (fun name => name)
                     ["Research and Design"; "Web Design"; "Research & Design"]%string
                     Hascii)
              "Research & Design"%string)
    as (listed & Hrun & Hall).
  { right. right. left. reflexivity. }
  exists listed. split; [exact Hrun |]. split.
  - apply Hall. split; [left; reflexivity | reflexivity].
  - intros Hin. apply Hall in Hin. destruct Hin as [_ Hin]. discriminate Hin.
Defined.

End MoreRuns.
